(** * mcp-hypothesis-tester: pipeline, result cache and suggestion engine

    A shallow embedding of the Python sources

    - [src/core/base_test.py]      (TestResult, BaseHypothesisTest.run)
    - [src/core/cache_manager.py]  (CacheManager)
    - [src/tests/**]               (the fourteen registered test classes)
    - [src/utils/test_suggester.py] (TestSuggester)
    - [src/mcp_server.py]          (TEST_REGISTRY, get_cached_result)

    Python exceptions are values of [exn]; a method that may raise returns a
    [result]; the cache manager, which mutates [self.index] and the files of
    its directory, runs in a state-and-exception monad over [world].  The
    numerical library (scipy/numpy), [json], [hashlib] and [datetime] are
    external: they enter as the fields of the classes [Platform] and
    [StatsLib]. *)

From Stdlib Require Import ZArith String Ascii List Bool Floats Lia.
From stdpp Require Import base option list gmap strings.

Set Warnings "-inexact-float,-register-all,-abstract-large-number".
Set Default Proof Using "Type".

Open Scope string_scope.
Open Scope Z_scope.

(* ===================================================================== *)
(** * Part I: definitions                                                 *)
(* ===================================================================== *)

(** ** Python values, exceptions and dictionaries *)

Module Py.

(** The exception classes that occur in the modelled code.
    [JSONDecodeError] and [UnicodeDecodeError] are subclasses of
    [ValueError] in Python. *)
Inductive exn : Type :=
| KeyError (key : string)
| ValueError (msg : string)
| JSONDecodeError
| UnicodeDecodeError
| TypeError (msg : string)
| OSError (path : string).

Definition is_KeyError (e : exn) : bool :=
  match e with KeyError _ => true | _ => false end.
Definition is_ValueError (e : exn) : bool :=
  match e with
  | ValueError _ | JSONDecodeError | UnicodeDecodeError => true
  | _ => false
  end.
Definition is_JSONDecodeError (e : exn) : bool :=
  match e with JSONDecodeError => true | _ => false end.
(** [IOError] is an alias of [OSError] in Python 3. *)
Definition is_OSError (e : exn) : bool :=
  match e with OSError _ => true | _ => false end.

Inductive result (A : Type) : Type :=
| Ok (a : A)
| Raise (e : exn).
Arguments Ok {A} a.
Arguments Raise {A} e.

Definition rbind {A B} (m : result A) (k : A -> result B) : result B :=
  match m with Ok a => k a | Raise e => Raise e end.

(** [try: m except <classes>: h] *)
Definition rtry {A} (m : result A) (catches : exn -> bool) (h : result A)
  : result A :=
  match m with
  | Ok a => Ok a
  | Raise e => if catches e then h else Raise e
  end.

(** JSON documents, the values [json.dump] accepts and [json.load] gives. *)
Inductive jval : Type :=
| JNull
| JBool (b : bool)
| JInt (n : Z)
| JFloat (x : float)
| JStr (s : string)
| JArr (items : list jval)
| JObj (fields : list (string * jval)).

(** A Python [dict] with string keys: insertion-ordered, one binding per
    key.  [dict_set] overwrites in place or appends, as [d[k] = v] does. *)
Definition dict (V : Type) : Type := list (string * V).

Fixpoint dict_get {V} (d : dict V) (k : string) : option V :=
  match d with
  | [] => None
  | (k', v) :: d' => if String.eqb k' k then Some v else dict_get d' k
  end.

Definition dict_in {V} (k : string) (d : dict V) : bool :=
  match dict_get d k with Some _ => true | None => false end.

Fixpoint dict_set {V} (d : dict V) (k : string) (v : V) : dict V :=
  match d with
  | [] => [(k, v)]
  | (k', v') :: d' =>
      if String.eqb k' k then (k', v) :: d' else (k', v') :: dict_set d' k v
  end.

Fixpoint dict_del {V} (d : dict V) (k : string) : dict V :=
  match d with
  | [] => []
  | (k', v) :: d' =>
      if String.eqb k' k then dict_del d' k else (k', v) :: dict_del d' k
  end.

Definition dict_keys {V} (d : dict V) : list string := map fst d.

(** [d[k]], raising [KeyError] when the key is absent. *)
Definition getitem {V} (d : dict V) (k : string) : result V :=
  match dict_get d k with Some v => Ok v | None => Raise (KeyError k) end.

(** [sep.join(parts)] *)
Fixpoint join (sep : string) (parts : list string) : string :=
  match parts with
  | [] => ""
  | [p] => p
  | p :: rest => p +:+ sep +:+ join sep rest
  end.




(** [k in ids] for a list of strings *)
Definition mem (k : string) (ids : list string) : bool :=
  existsb (String.eqb k) ids.

(** Truth value of a string ([""] is false). *)
Definition truthy_str (s : string) : bool := negb (String.eqb s "").

End Py.
Import Py.

Declare Scope res_scope.
Delimit Scope res_scope with res.
Notation "x <~ m ;; k" := (rbind m (fun x => k))
  (at level 100, m at next level, right associativity) : res_scope.

(** ** The platform: [json], [hashlib], [datetime] *)

(** A [datetime] is naive (no time zone) or aware; both count microseconds.
    [datetime.now()] is always naive. *)
Inductive datetime : Type :=
| Naive (us : Z)
| Aware (us : Z) (utcoffset : Z).

Class Platform : Type := {
  (** contents of a file *)
  text : Type;
  (** [json.dump(obj, f, indent=2)] *)
  json_dumps : jval -> text;
  (** [json.load(f)] on a file with these contents; [None] stands for the
      exception it raises, which [undecodable] tells apart *)
  json_loads : text -> option jval;
  (** the contents are not valid UTF-8, so that reading them as text raises
      [UnicodeDecodeError]; otherwise a failed [json.load] raises
      [json.JSONDecodeError] *)
  undecodable : text -> bool;
  (** [hashlib.sha256(s.encode()).hexdigest()] *)
  sha256_hexdigest : string -> string;
  (** [d.isoformat()] for a naive [d] *)
  isoformat : Z -> string;
  (** [datetime.fromisoformat(s)]; [None] stands for [ValueError] *)
  fromisoformat : string -> option datetime;
  (** [str(n)] for an integer *)
  str_int : Z -> string;
  (** [str(x)] for a float, as an f-string renders it *)
  str_float : float -> string;
}.

(** ** The state-and-exception monad *)

Module St.
Section Monad.
Context {S : Type}.

Definition M (A : Type) : Type := S -> result A * S.

Definition ret {A} (a : A) : M A := fun s => (Ok a, s).
Definition raise {A} (e : exn) : M A := fun s => (Raise e, s).
Definition bind {A B} (m : M A) (k : A -> M B) : M B :=
  fun s => match m s with
           | (Ok a, s') => k a s'
           | (Raise e, s') => (Raise e, s')
           end.
Definition lift {A} (r : result A) : M A := fun s => (r, s).
Definition get : M S := fun s => (Ok s, s).
Definition modify (f : S -> S) : M unit := fun s => (Ok tt, f s).

(** [try: m except <classes>: h]; the state changes made by [m] before
    it raised are kept, as in Python. *)
Definition try_except {A} (m : M A) (catches : exn -> bool) (h : M A)
  : M A :=
  fun s => match m s with
           | (Ok a, s') => (Ok a, s')
           | (Raise e, s') => if catches e then h s' else (Raise e, s')
           end.

(** [for x in xs: body(x)] *)
Fixpoint for_each {A} (xs : list A) (body : A -> M unit) : M unit :=
  match xs with
  | [] => ret tt
  | x :: xs' => bind (body x) (fun _ => for_each xs' body)
  end.
End Monad.
Arguments M : clear implicits.
End St.

Declare Scope st_scope.
Delimit Scope st_scope with st.
Notation "x <- m ;; k" := (St.bind m (fun x => k))
  (at level 100, m at next level, right associativity) : st_scope.
Notation "m ;;; k" := (St.bind m (fun _ => k))
  (at level 100, right associativity) : st_scope.

(** ** [src/core/cache_manager.py] *)

Module Cache.

(** One record of [self.index["entries"]], with the keys [cache_result]
    writes.  [created] is optional because [_cleanup_expired] guards the
    lookup [entry["created"]] against [KeyError].  The other keys are read
    without such a guard: a record that lacks one of them, or whose
    [created] is not a string, makes the code raise [KeyError] or
    [TypeError].  Records of that kind are outside this type; the index of
    the model holds records of the shape [cache_result] writes, with or
    without [created]. *)
Record IndexEntry : Type := {
  test_type : string;
  created : option string;
  has_raw_data : bool;
  result_file : string;
  data_file : option string;
}.

(** The attributes of a [CacheManager] instance; [entries] and
    [last_cleanup] are the two keys of [self.index]. *)
Record CacheManager : Type := {
  cache_dir : string;
  ttl_hours : Z;
  entries : dict IndexEntry;
  last_cleanup : option string;
}.

Inductive io_op : Type := OpRead | OpWrite | OpUnlink.

Section WithPlatform.
Context `{Platform}.

(** The cache manager and the file system it works on.  [denied op p]
    tells that operation [op] on path [p] fails with [OSError]
    (permissions, a full disk, ...); a refused operation leaves the file as
    it was. *)
Record world : Type := {
  self : CacheManager;
  files : gmap string text;
  denied : io_op -> string -> bool;
}.

Definition set_self (f : CacheManager -> CacheManager) (w : world) : world :=
  {| self := f (self w); files := files w; denied := denied w |}.
Definition set_files (f : gmap string text -> gmap string text) (w : world)
  : world :=
  {| self := self w; files := f (files w); denied := denied w |}.
Definition set_entries (f : dict IndexEntry -> dict IndexEntry)
    (c : CacheManager) : CacheManager :=
  {| cache_dir := cache_dir c; ttl_hours := ttl_hours c;
     entries := f (entries c); last_cleanup := last_cleanup c |}.
Definition set_last_cleanup (v : option string) (c : CacheManager)
  : CacheManager :=
  {| cache_dir := cache_dir c; ttl_hours := ttl_hours c;
     entries := entries c; last_cleanup := v |}.

Local Abbreviation M := (St.M world).
Local Open Scope st_scope.

(** *** File primitives *)

(** [Path(p).exists()] *)
Definition path_exists (p : string) : M bool :=
  fun w => (Ok (bool_decide (is_Some (files w !! p))), w).

(** [with open(p, 'w') as f: f.write(c)] *)
Definition write_text (p : string) (c : text) : M unit :=
  fun w => if denied w OpWrite p then (Raise (OSError p), w)
           else (Ok tt, set_files (insert p c) w).

(** [with open(p, 'r') as f: f.read()] *)
Definition read_text (p : string) : M text :=
  fun w => if denied w OpRead p then (Raise (OSError p), w)
           else match files w !! p with
                | Some c => (Ok c, w)
                | None => (Raise (OSError p), w)
                end.

(** [Path(p).unlink()] *)
Definition unlink (p : string) : M unit :=
  fun w => if denied w OpUnlink p then (Raise (OSError p), w)
           else match files w !! p with
                | Some _ => (Ok tt, set_files (delete p) w)
                | None => (Raise (OSError p), w)
                end.

(** [json.load(f)] on the file at [p] *)
Definition json_load (p : string) : M jval :=
  c <- read_text p ;;
  match json_loads c with
  | Some v => St.ret v
  | None =>
      St.raise (if undecodable c then UnicodeDecodeError else JSONDecodeError)
  end.

(** *** Paths of [__init__] *)

Definition test_results_dir (c : CacheManager) : string :=
  cache_dir c +:+ "/test_results".
Definition index_file (c : CacheManager) : string :=
  cache_dir c +:+ "/index.json".
(** [self.test_results_dir / f"{test_id}.json"] and
    [self.test_results_dir / f"{test_id}_data.json"] *)
Definition result_file_of (c : CacheManager) (test_id : string) : string :=
  test_results_dir c +:+ "/" +:+ test_id +:+ ".json".
Definition data_file_of (c : CacheManager) (test_id : string) : string :=
  test_results_dir c +:+ "/" +:+ test_id +:+ "_data.json".
(** [timedelta(hours=ttl_hours)], in microseconds *)
Definition ttl (c : CacheManager) : Z := ttl_hours c * 3600000000.

(** *** The index as a JSON document *)

Definition entry_json (e : IndexEntry) : jval :=
  JObj ([("test_type", JStr (test_type e))]
        ++ match created e with
           | Some s => [("created", JStr s)]
           | None => []
           end
        ++ [("has_raw_data", JBool (has_raw_data e));
            ("result_file", JStr (result_file e));
            ("data_file", match data_file e with
                          | Some p => JStr p
                          | None => JNull
                          end)]).

Definition index_json (c : CacheManager) : jval :=
  JObj [("entries",
         JObj (map (fun kv => (fst kv, entry_json (snd kv))) (entries c)));
        ("last_cleanup", match last_cleanup c with
                         | Some s => JStr s
                         | None => JNull
                         end)].

(** *** [_save_index] *)
Definition _save_index : M unit :=
  St.try_except
    (w <- St.get ;;
     write_text (index_file (self w)) (json_dumps (index_json (self w))))
    is_OSError
    (St.ret tt).

(** *** [delete_result] *)
Definition delete_result (test_id : string) : M unit :=
  w <- St.get ;;
  match dict_get (entries (self w)) test_id with
  | None => St.ret tt
  | Some entry =>
      St.try_except
        (ex <- path_exists (result_file entry) ;;
         (if ex then unlink (result_file entry) else St.ret tt) ;;;
         match data_file entry with
         | Some p =>
             if has_raw_data entry && truthy_str p then
               ex' <- path_exists p ;;
               if ex' then unlink p else St.ret tt
             else St.ret tt
         | None => St.ret tt
         end)
        is_OSError
        (St.ret tt) ;;;
      St.modify (set_self (set_entries (fun d => dict_del d test_id))) ;;;
      _save_index
  end.

(** *** [_cleanup_expired] *)

(** [current_time - created], [current_time] being naive. *)
Definition naive_minus (current_time : Z) (d : datetime) : result Z :=
  match d with
  | Naive us => Ok (current_time - us)
  | Aware _ _ =>
      Raise (TypeError "can't subtract offset-naive and offset-aware datetimes")
  end.

Definition parse_created (s : string) : result datetime :=
  match fromisoformat s with
  | Some d => Ok d
  | None => Raise (ValueError "Invalid isoformat string")
  end.

(** The body of the first loop for one entry: does [test_id] go to
    [expired_ids]? *)
Definition entry_expired (current_time ttl_us : Z) (entry : IndexEntry)
  : result bool :=
  rtry
    (s <~ match created entry with
           | Some s => Ok s
           | None => Raise (KeyError "created")
           end ;;
     d <~ parse_created s ;;
     age <~ naive_minus current_time d ;;
     Ok (ttl_us <? age))%res
    (fun e => is_KeyError e || is_ValueError e)
    (Ok true).

Fixpoint expired_ids (current_time ttl_us : Z) (items : dict IndexEntry)
  : result (list string) :=
  match items with
  | [] => Ok []
  | (test_id, entry) :: rest =>
      (b <~ entry_expired current_time ttl_us entry ;;
       ids <~ expired_ids current_time ttl_us rest ;;
       Ok (if b then test_id :: ids else ids))%res
  end.

(** [current_time] is the reading of [datetime.now()]. *)
Definition _cleanup_expired (current_time : Z) : M unit :=
  w <- St.get ;;
  ids <- St.lift (expired_ids current_time (ttl (self w)) (entries (self w))) ;;
  St.for_each ids delete_result ;;;
  St.modify (set_self (set_last_cleanup (Some (isoformat current_time)))) ;;;
  _save_index.

(** *** [generate_test_id]

    [now] is the reading of [datetime.now()], [params_id] is
    [id(params)]. *)
Definition generate_test_id (test_type : string) (now params_id : Z)
  : string :=
  String.substring 0 16
    (sha256_hexdigest
       (test_type +:+ "_" +:+ isoformat now +:+ "_" +:+ str_int params_id)).

(** [_make_serializable]: numpy arrays and scalars become lists and
    numbers; on a JSON document there is nothing to convert. *)
Definition _make_serializable (obj : jval) : jval := obj.

(** *** [cache_result]

    [now_id] and [now_created] are the two readings of [datetime.now()]
    (in [generate_test_id] and for the [created] key); [params_id] is
    [id(test_result)]. *)
Definition cache_result (test_type : string) (test_result : dict jval)
    (raw_data : option (dict jval)) (now_id now_created params_id : Z)
  : M string :=
  let test_id := generate_test_id test_type now_id params_id in
  St.try_except
    (w <- St.get ;;
     let result_file := result_file_of (self w) test_id in
     write_text result_file (json_dumps (JObj test_result)) ;;;
     data_file_path <-
       match raw_data with
       | Some ((_ :: _) as rd) =>
           let data_file := data_file_of (self w) test_id in
           write_text data_file (json_dumps (_make_serializable (JObj rd))) ;;;
           St.ret (Some data_file)
       | _ => St.ret None
       end ;;
     St.modify (set_self (set_entries (fun d =>
       dict_set d test_id
         {| test_type := test_type;
            created := Some (isoformat now_created);
            has_raw_data := match raw_data with Some _ => true | None => false end;
            result_file := result_file;
            data_file := data_file_path |}))) ;;;
     _save_index ;;;
     St.ret test_id)
    is_OSError
    (St.ret ("cache_error_" +:+ test_id)).

(** *** [get_result]

    [None] is Python's [None] (not found). *)
Definition get_result (test_id : string) (include_raw_data : bool)
  : M (option jval) :=
  w <- St.get ;;
  match dict_get (entries (self w)) test_id with
  | None => St.ret None
  | Some entry =>
      St.try_except
        (ex <- path_exists (result_file entry) ;;
         if negb ex then St.ret None
         else
           result <- json_load (result_file entry) ;;
           match data_file entry with
           | Some p =>
               if include_raw_data && has_raw_data entry && truthy_str p then
                 ex' <- path_exists p ;;
                 if ex' then
                   raw <- json_load p ;;
                   match result with
                   | JObj fields =>
                       St.ret (Some (JObj (dict_set fields "raw_data" raw)))
                   | _ =>
                       St.raise
                         (TypeError "object does not support item assignment")
                   end
                 else St.ret (Some result)
               else St.ret (Some result)
           | None => St.ret (Some result)
           end)
        (fun e => is_OSError e || is_JSONDecodeError e)
        (St.ret None)
  end.

(** *** [list_cached_tests] *)

Record CachedTest : Type := {
  ct_test_id : string;
  ct_test_type : string;
  ct_created : string;
  ct_has_raw_data : bool;
}.

(** [sorted(tests, key=lambda x: x["created"], reverse=True)]: stable,
    descending by [created]. *)
Fixpoint insert_desc (x : CachedTest) (sorted : list CachedTest)
  : list CachedTest :=
  match sorted with
  | [] => [x]
  | y :: ys =>
      if String.ltb (ct_created x) (ct_created y)
      then y :: insert_desc x ys
      else x :: y :: ys
  end.

Definition sorted_desc (tests : list CachedTest) : list CachedTest :=
  foldr insert_desc [] tests.

Fixpoint collect_tests (items : dict IndexEntry) : result (list CachedTest) :=
  match items with
  | [] => Ok []
  | (test_id, entry) :: rest =>
      (c <~ match created entry with
             | Some s => Ok s
             | None => Raise (KeyError "created")
             end ;;
       tests <~ collect_tests rest ;;
       Ok ({| ct_test_id := test_id; ct_test_type := test_type entry;
              ct_created := c; ct_has_raw_data := has_raw_data entry |}
           :: tests))%res
  end.

Definition list_cached_tests : M (list CachedTest) :=
  w <- St.get ;;
  tests <- St.lift (collect_tests (entries (self w))) ;;
  St.ret (sorted_desc tests).

(** *** [clear_all] *)
Definition clear_all : M unit :=
  w <- St.get ;;
  St.for_each (dict_keys (entries (self w))) delete_result.

(** *** Predicates used by the properties *)

(** A computation that leaves the cache manager and the files as they
    were, whatever it returns or raises. *)
Definition read_only {A} (m : M A) : Prop := forall w, (m w).2 = w.

(** The [created] string of the entry, if it parses, is a naive
    [datetime] (as every string written by [cache_result] is). *)
Definition naive_created (entry : IndexEntry) : Prop :=
  forall s us off,
    created entry = Some s -> fromisoformat s <> Some (Aware us off).

Definition naive_index (d : dict IndexEntry) : Prop :=
  Forall (fun kv => naive_created kv.2) d.

(** The creation timestamp is missing or cannot be parsed. *)
Definition invalid_created (entry : IndexEntry) : Prop :=
  created entry = None
  \/ exists s, created entry = Some s /\ fromisoformat s = None.

(** No entry other than that of [test_id] names the file [p]. *)
Definition no_other_entry_uses (d : dict IndexEntry) (test_id p : string)
  : Prop :=
  forall k e,
    dict_get d k = Some e -> k <> test_id ->
    result_file e <> p /\ data_file e <> Some p.

(** The index record [cache_result] writes. *)
Definition new_entry (c : CacheManager) (test_type test_id : string)
    (raw_data : option (dict jval)) (now_created : Z) : IndexEntry :=
  {| test_type := test_type;
     created := Some (isoformat now_created);
     has_raw_data := match raw_data with Some _ => true | None => false end;
     result_file := result_file_of c test_id;
     data_file := match raw_data with
                  | Some (_ :: _) => Some (data_file_of c test_id)
                  | _ => None
                  end |}.

(** [raw_data] is given and not empty, so its file is written. *)
Definition writes_raw_data (raw_data : option (dict jval)) : bool :=
  match raw_data with Some (_ :: _) => true | _ => false end.


(** The first loop of the sweep leaves the entry out of [expired_ids]. *)
Definition kept_by_sweep (current_time ttl_us : Z) (entry : IndexEntry)
  : bool :=
  match entry_expired current_time ttl_us entry with
  | Ok false => true
  | _ => false
  end.

(** No element of the listing is followed by one with a greater [created]. *)
Fixpoint descending (tests : list CachedTest) : bool :=
  match tests with
  | a :: (b :: _) as rest =>
      negb (String.ltb (ct_created a) (ct_created b)) && descending rest
  | _ => true
  end.

(** The record [list_cached_tests] makes of the entry of [test_id]. *)
Definition lists_entry (t : CachedTest) (d : dict IndexEntry) : Prop :=
  exists e,
    In (ct_test_id t, e) d
    /\ ct_test_type t = test_type e
    /\ Some (ct_created t) = created e
    /\ ct_has_raw_data t = has_raw_data e.

End WithPlatform.
Arguments world {_}.
End Cache.

(** ** [src/core/base_test.py] *)

(** A one-dimensional [np.ndarray] of floats. *)
Definition sample : Type := list float.

(** [len(x)] *)
Definition len {A} (x : list A) : Z := Z.of_nat (length x).

(** [np.any(np.isnan(data))] *)
Definition any_isnan (data : sample) : bool := existsb PrimFloat.is_nan data.

Inductive TestType : Type :=
| ONE_SAMPLE_T_TEST | TWO_SAMPLE_T_TEST | PAIRED_T_TEST | ONE_WAY_ANOVA
| Z_TEST_MEAN | Z_TEST_PROPORTION | PEARSON_CORRELATION
| MANN_WHITNEY_U | WILCOXON_SIGNED_RANK | KRUSKAL_WALLIS | FRIEDMAN
| CHI_SQUARE_GOODNESS | CHI_SQUARE_INDEPENDENCE | SIGN_TEST
| SPEARMAN_CORRELATION | KENDALL_TAU
| SHAPIRO_WILK | KOLMOGOROV_SMIRNOV | ANDERSON_DARLING | JARQUE_BERA
| LEVENE | BARTLETT | F_TEST_VARIANCE.

(** [TestType.X.value] *)
Definition value (t : TestType) : string :=
  match t with
  | ONE_SAMPLE_T_TEST => "one_sample_t_test"
  | TWO_SAMPLE_T_TEST => "two_sample_t_test"
  | PAIRED_T_TEST => "paired_t_test"
  | ONE_WAY_ANOVA => "one_way_anova"
  | Z_TEST_MEAN => "z_test_mean"
  | Z_TEST_PROPORTION => "z_test_proportion"
  | PEARSON_CORRELATION => "pearson_correlation"
  | MANN_WHITNEY_U => "mann_whitney_u"
  | WILCOXON_SIGNED_RANK => "wilcoxon_signed_rank"
  | KRUSKAL_WALLIS => "kruskal_wallis"
  | FRIEDMAN => "friedman"
  | CHI_SQUARE_GOODNESS => "chi_square_goodness"
  | CHI_SQUARE_INDEPENDENCE => "chi_square_independence"
  | SIGN_TEST => "sign_test"
  | SPEARMAN_CORRELATION => "spearman_correlation"
  | KENDALL_TAU => "kendall_tau"
  | SHAPIRO_WILK => "shapiro_wilk"
  | KOLMOGOROV_SMIRNOV => "kolmogorov_smirnov"
  | ANDERSON_DARLING => "anderson_darling"
  | JARQUE_BERA => "jarque_bera"
  | LEVENE => "levene"
  | BARTLETT => "bartlett"
  | F_TEST_VARIANCE => "f_test_variance"
  end.

Module TestResult.
(** The dataclass [TestResult]. *)
Record t : Type := mk {
  test_name : string;
  test_type : string;
  statistic : float;
  p_value : float;
  alpha : float;
  significant : bool;
  null_hypothesis : string;
  alternative_hypothesis : string;
  decision : string;
  interpretation : string;
  recommendation : string;
  effect_size : option float;
  confidence_interval : option (float * float);
  power : option float;
  sample_sizes : option (dict Z);
  assumptions_met : option (dict bool);
  warnings : option (list string);
  cache_id : option string;
}.

(** The same result with another [cache_id]. *)
Definition with_cache_id (r : t) (id : option string) : t :=
  mk (test_name r) (test_type r) (statistic r) (p_value r) (alpha r)
     (significant r) (null_hypothesis r) (alternative_hypothesis r)
     (decision r) (interpretation r) (recommendation r) (effect_size r)
     (confidence_interval r) (power r) (sample_sizes r) (assumptions_met r)
     (warnings r) id.

(** [None] or a float, a string, a dictionary of integers or of booleans,
    as [json] sees them. *)
Definition opt_float (x : option float) : jval :=
  match x with Some v => JFloat v | None => JNull end.
Definition opt_str (x : option string) : jval :=
  match x with Some v => JStr v | None => JNull end.
Definition opt_sizes (x : option (dict Z)) : jval :=
  match x with
  | Some d => JObj (map (fun kv => (kv.1, JInt kv.2)) d)
  | None => JNull
  end.
Definition opt_flags (x : option (dict bool)) : jval :=
  match x with
  | Some d => JObj (map (fun kv => (kv.1, JBool kv.2)) d)
  | None => JNull
  end.

(** [to_dict].  A confidence interval is a pair, which is true in a
    condition; [self.warnings or []] turns [None] into the empty list. *)
Definition to_dict (r : t) : dict jval :=
  [("test_name", JStr (test_name r));
   ("test_type", JStr (test_type r));
   ("statistics",
    JObj [("test_statistic", JFloat (statistic r));
          ("p_value", JFloat (p_value r));
          ("alpha", JFloat (alpha r));
          ("effect_size", opt_float (effect_size r));
          ("confidence_interval",
           match confidence_interval r with
           | Some (lo, hi) => JArr [JFloat lo; JFloat hi]
           | None => JNull
           end);
          ("power", opt_float (power r))]);
   ("hypothesis",
    JObj [("null", JStr (null_hypothesis r));
          ("alternative", JStr (alternative_hypothesis r));
          ("decision", JStr (decision r));
          ("significant", JBool (significant r))]);
   ("interpretation",
    JObj [("summary", JStr (interpretation r));
          ("recommendation", JStr (recommendation r))]);
   ("metadata",
    JObj [("sample_sizes", opt_sizes (sample_sizes r));
          ("assumptions_met", opt_flags (assumptions_met r));
          ("warnings",
           JArr (map JStr (match warnings r with Some l => l | None => [] end)))]);
   ("cache_id", opt_str (cache_id r))].
End TestResult.

(** [[k for k, v in assumptions.items() if not v]] *)
Fixpoint unmet (assumptions : dict bool) : list string :=
  match assumptions with
  | [] => []
  | (k, v) :: rest => if v then unmet rest else k :: unmet rest
  end.

(** [s.replace('_', ' ').title()] on ASCII text: every letter that follows
    a non-letter is upper-cased, every other letter lower-cased. *)
Definition is_upper (c : ascii) : bool :=
  (65 <=? nat_of_ascii c)%nat && (nat_of_ascii c <=? 90)%nat.
Definition is_lower (c : ascii) : bool :=
  (97 <=? nat_of_ascii c)%nat && (nat_of_ascii c <=? 122)%nat.
Definition to_upper (c : ascii) : ascii :=
  if is_lower c then ascii_of_nat (nat_of_ascii c - 32) else c.
Definition to_lower (c : ascii) : ascii :=
  if is_upper c then ascii_of_nat (nat_of_ascii c + 32) else c.

Fixpoint replace_char (old new : ascii) (s : string) : string :=
  match s with
  | EmptyString => EmptyString
  | String c s' =>
      String (if Ascii.eqb c old then new else c) (replace_char old new s')
  end.

Fixpoint title_from (after_letter : bool) (s : string) : string :=
  match s with
  | EmptyString => EmptyString
  | String c s' =>
      let letter := is_upper c || is_lower c in
      String (if after_letter then to_lower c else to_upper c)
             (title_from letter s')
  end.

Definition title (s : string) : string := title_from false s.

Module BaseHypothesisTest.

(** An instance of a subclass of [BaseHypothesisTest]: its attributes and
    its methods, the abstract ones and the overridable ones alike.  The
    samples are the positional arguments [*args]; the callers of the
    repository pass no keyword arguments.  [cache_manager] tells whether a
    cache manager was injected (it is [None] otherwise). *)
Record t : Type := mk {
  alpha : float;
  cache_manager : bool;
  test_type : TestType;
  validate_input : list sample -> result bool;
  check_assumptions : list sample -> result (dict bool);
  compute_statistic : list sample -> result (float * float);
  interpret_result : float -> float -> list sample -> result string;
  get_null_hypothesis : result string;
  get_alternative_hypothesis : result string;
  calculate_effect_size : list sample -> result (option float);
  calculate_confidence_interval : list sample -> result (option (float * float));
  generate_recommendation : string -> dict bool -> result string;
  get_sample_sizes : list sample -> result (option (dict Z));
}.

(** [test_instance.cache_manager = cache_manager] *)
Definition inject_cache_manager (self : t) : t :=
  mk (alpha self) true (test_type self) (validate_input self)
     (check_assumptions self) (compute_statistic self) (interpret_result self)
     (get_null_hypothesis self) (get_alternative_hypothesis self)
     (calculate_effect_size self) (calculate_confidence_interval self)
     (generate_recommendation self) (get_sample_sizes self).

Definition with_cache (cached : bool) (self : t) : t :=
  if cached then inject_cache_manager self else self.

(** The decision label of step 4 of [run]. *)
Definition decision_of (p_value alpha : float) : string :=
  if PrimFloat.ltb p_value alpha then "reject" else "fail_to_reject".

(** *** Methods of the base class *)

Definition get_test_name (self : t) : string :=
  title (replace_char "_" " " (value (test_type self))).

Definition base_calculate_effect_size (args : list sample)
  : result (option float) := Ok None.

Definition base_calculate_confidence_interval (args : list sample)
  : result (option (float * float)) := Ok None.

Definition base_get_sample_sizes (args : list sample)
  : result (option (dict Z)) := Ok None.

Definition assumption_warning (unmet_assumptions : list string) : string :=
  match unmet_assumptions with
  | [] => ""
  | _ => " WARNING: Assumptions not met: " +:+ join ", " unmet_assumptions
         +:+ ". Consider non-parametric alternatives."
  end.

Definition base_generate_recommendation (decision : string)
    (assumptions : dict bool) : string :=
  let unmet_assumptions := unmet assumptions in
  let warning := assumption_warning unmet_assumptions in
  if String.eqb decision "reject" then
    "Evidence suggests a significant effect. Consider practical significance and collect more data to confirm."
    +:+ warning
  else
    "Insufficient evidence to conclude an effect. Consider increasing sample size or effect size."
    +:+ warning.

Section Run.
Context `{Platform}.
Local Open Scope st_scope.

(** [cache_detailed_results]; [kwargs] is the payload.  The three
    integers are the readings of the clock and of [id] that
    [cache_result] takes. *)
Definition cache_detailed_results (self : t) (kwargs : dict jval)
    (now_id now_created params_id : Z) : St.M Cache.world (option string) :=
  if cache_manager self then
    test_id <- Cache.cache_result (value (test_type self)) kwargs None
                 now_id now_created params_id ;;
    St.ret (Some test_id)
  else St.ret None.

(** [run], the template method. *)
Definition run (self : t) (args : list sample)
    (now_id now_created params_id : Z) : St.M Cache.world TestResult.t :=
  (* 1. Validate input *)
  valid <- St.lift (validate_input self args) ;;
  if negb valid then
    St.raise (ValueError ("Input validation failed for "
                          +:+ value (test_type self)))
  else
    (* 2. Check assumptions *)
    assumptions <- St.lift (check_assumptions self args) ;;
    let warnings := unmet assumptions in
    (* 3. Compute test statistic *)
    sp <- St.lift (compute_statistic self args) ;;
    let statistic := sp.1 in
    let p_value := sp.2 in
    (* 4. Make decision *)
    let significant := PrimFloat.ltb p_value (alpha self) in
    let decision := if significant then "reject" else "fail_to_reject" in
    (* 5. Interpret result *)
    interpretation <- St.lift (interpret_result self statistic p_value args) ;;
    recommendation <- St.lift (generate_recommendation self decision assumptions) ;;
    (* 6. Calculate effect size *)
    effect_size <- St.lift (calculate_effect_size self args) ;;
    (* 7. Calculate confidence interval *)
    ci <- St.lift (calculate_confidence_interval self args) ;;
    (* 8. Cache detailed results *)
    cache_id <- cache_detailed_results self
                  [("statistic", JFloat statistic); ("p_value", JFloat p_value)]
                  now_id now_created params_id ;;
    (* 9. Create result object *)
    null_hypothesis <- St.lift (get_null_hypothesis self) ;;
    alternative_hypothesis <- St.lift (get_alternative_hypothesis self) ;;
    sample_sizes <- St.lift (get_sample_sizes self args) ;;
    St.ret
      (TestResult.mk
         (get_test_name self)
         (value (test_type self))
         statistic
         p_value
         (alpha self)
         significant
         null_hypothesis
         alternative_hypothesis
         decision
         interpretation
         recommendation
         effect_size
         ci
         None
         sample_sizes
         (Some assumptions)
         (match warnings with [] => None | _ => Some warnings end)
         cache_id).
End Run.

End BaseHypothesisTest.

(** ** The statistical procedure library (scipy, numpy) *)

(** The keyword arguments of the constructors, with their defaults. *)
Record TestParams : Type := {
  mu0 : float;
  alternative : string;
  equal_var : bool;
  distribution : string;
  center : string;
}.

Definition default_params : TestParams :=
  {| mu0 := 0%float; alternative := "two-sided"; equal_var := true;
     distribution := "norm"; center := "median" |}.

(** What the test classes ask of scipy and numpy.  [shapiro] and [levene]
    are [stats.shapiro] and [stats.levene] (statistic, p-value).  The test
    statistic, the effect size, the confidence interval and the rendering of
    the interpretation are the library's formulas and Python's number
    formatting; they are taken whole, by class. *)
Class StatsLib : Type := {
  shapiro : sample -> result (float * float);
  levene : list sample -> result (float * float);
  statistic_of : TestType -> TestParams -> list sample -> result (float * float);
  interpretation_of :
    TestType -> float -> TestParams -> float -> float -> list sample
    -> result string;
  effect_size_of : TestType -> TestParams -> list sample -> result (option float);
  confidence_interval_of :
    TestType -> float -> list sample -> result (option (float * float));
  (** [len(np.unique(data))] *)
  np_unique_count : sample -> Z;
  (** [np.percentile(data, q)] *)
  np_percentile : sample -> float -> result float;
}.

(** ** [src/tests/**]: the test classes *)

Module Tests.
Import BaseHypothesisTest.

Section WithLibraries.
Context `{Platform} `{StatsLib}.
Local Open Scope res_scope.

(** Calling a method that takes one sample, or two, with [*args]: the
    interpreter raises [TypeError]; its message, which names the method and
    the count, is worded by the interpreter and stands here as one text. *)
Definition arity_error {A} : result A :=
  Raise (TypeError "wrong number of positional arguments").

Definition on1 {A} (args : list sample) (f : sample -> result A) : result A :=
  match args with [data] => f data | _ => arity_error end.

Definition on2 {A} (args : list sample) (f : sample -> sample -> result A)
  : result A :=
  match args with [a; b] => f a b | _ => arity_error end.

(** [_, p = stats.shapiro(g) if len(g) < 5000 else (0, 1)] *)
Definition shapiro_p_below_5000 (g : sample) : result float :=
  if len g <? 5000 then (wp <~ shapiro g ;; Ok wp.2) else Ok 1%float.

(** [after - before] on arrays, with numpy's broadcasting rule. *)
Definition np_sub (a b : sample) : result sample :=
  if len a =? len b then Ok (zip_with PrimFloat.sub a b)
  else match a, b with
       | [x], _ => Ok (map (fun y => PrimFloat.sub x y) b)
       | _, [y] => Ok (map (fun x => PrimFloat.sub x y) a)
       | _, _ => Raise (ValueError "operands could not be broadcast together")
       end.

(** [{f"group_{i+1}": len(group) for i, group in enumerate(groups)}] *)
Fixpoint group_sizes_from (i : Z) (groups : list sample) : dict Z :=
  match groups with
  | [] => []
  | g :: rest =>
      ("group_" +:+ str_int (i + 1), len g) :: group_sizes_from (i + 1) rest
  end.
Definition group_sizes (groups : list sample) : result (option (dict Z)) :=
  Ok (Some (group_sizes_from 0 groups)).

(** The loop of [validate_input] of the classes that take [*groups]:
    every group has at least [min_len] values and no NaN. *)
Fixpoint groups_valid (min_len : Z) (groups : list sample) : bool :=
  match groups with
  | [] => true
  | group :: rest =>
      if (len group <? min_len) || any_isnan group then false
      else groups_valid min_len rest
  end.

Definition validate_groups (min_len : Z) (groups : list sample) : result bool :=
  if len groups <? 2 then Ok false else Ok (groups_valid min_len groups).

(** [all(len(g) >= n for g in groups)] *)
Definition all_len_ge (n : Z) (groups : list sample) : bool :=
  forallb (fun g => n <=? len g) groups.

(** [get_alternative_hypothesis] of the classes with a side. *)
Definition by_alternative (p : TestParams) (two_sided greater less : string)
  : result string :=
  if String.eqb (alternative p) "two-sided" then Ok two_sided
  else if String.eqb (alternative p) "greater" then Ok greater
  else Ok less.

(** *** [parametric/t_tests.py] *)

Definition OneSampleTTest (alpha : float) (p : TestParams) : t :=
  {| alpha := alpha;
     cache_manager := false;
     test_type := ONE_SAMPLE_T_TEST;
     validate_input args :=
       on1 args (fun data => Ok ((1 <? len data) && negb (any_isnan data)));
     check_assumptions args :=
       on1 args (fun data =>
         is_normal <~ (if len data <? 5000 then
                         wp <~ shapiro data ;; Ok (PrimFloat.ltb 0.05 wp.2)
                       else Ok true) ;;
         Ok [("normality", is_normal || (30 <? len data));
             ("independence", true);
             ("sufficient_sample_size", 2 <=? len data)]);
     compute_statistic := statistic_of ONE_SAMPLE_T_TEST p;
     interpret_result := interpretation_of ONE_SAMPLE_T_TEST alpha p;
     get_null_hypothesis :=
       Ok ("H₀: μ = " +:+ str_float (mu0 p) +:+ " (population mean equals "
           +:+ str_float (mu0 p) +:+ ")");
     get_alternative_hypothesis :=
       by_alternative p
         ("H₁: μ ≠ " +:+ str_float (mu0 p)
          +:+ " (population mean differs from " +:+ str_float (mu0 p) +:+ ")")
         ("H₁: μ > " +:+ str_float (mu0 p)
          +:+ " (population mean is greater than " +:+ str_float (mu0 p) +:+ ")")
         ("H₁: μ < " +:+ str_float (mu0 p)
          +:+ " (population mean is less than " +:+ str_float (mu0 p) +:+ ")");
     calculate_effect_size := effect_size_of ONE_SAMPLE_T_TEST p;
     calculate_confidence_interval :=
       confidence_interval_of ONE_SAMPLE_T_TEST alpha;
     generate_recommendation decision assumptions :=
       Ok (base_generate_recommendation decision assumptions);
     get_sample_sizes args :=
       on1 args (fun data => Ok (Some [("n", len data)])) |}.

Definition TwoSampleTTest (alpha : float) (p : TestParams) : t :=
  {| alpha := alpha;
     cache_manager := false;
     test_type := TWO_SAMPLE_T_TEST;
     validate_input args :=
       on2 args (fun group1 group2 =>
         Ok ((1 <? len group1) && (1 <? len group2)
             && negb (any_isnan group1) && negb (any_isnan group2)));
     check_assumptions args :=
       on2 args (fun group1 group2 =>
         p1 <~ shapiro_p_below_5000 group1 ;;
         p2 <~ shapiro_p_below_5000 group2 ;;
         lev <~ levene [group1; group2] ;;
         Ok [("group1_normality", PrimFloat.ltb 0.05 p1 || (30 <? len group1));
             ("group2_normality", PrimFloat.ltb 0.05 p2 || (30 <? len group2));
             ("equal_variances", PrimFloat.ltb 0.05 lev.2);
             ("independence", true)]);
     compute_statistic := statistic_of TWO_SAMPLE_T_TEST p;
     interpret_result := interpretation_of TWO_SAMPLE_T_TEST alpha p;
     get_null_hypothesis := Ok "H₀: μ₁ = μ₂ (both groups have equal means)";
     get_alternative_hypothesis :=
       by_alternative p
         "H₁: μ₁ ≠ μ₂ (groups have different means)"
         "H₁: μ₁ > μ₂ (group 1 mean is greater)"
         "H₁: μ₁ < μ₂ (group 1 mean is less)";
     calculate_effect_size := effect_size_of TWO_SAMPLE_T_TEST p;
     calculate_confidence_interval := base_calculate_confidence_interval;
     generate_recommendation decision assumptions :=
       Ok (base_generate_recommendation decision assumptions);
     get_sample_sizes args :=
       on2 args (fun group1 group2 =>
         Ok (Some [("group1", len group1); ("group2", len group2)])) |}.

Definition PairedTTest (alpha : float) (p : TestParams) : t :=
  {| alpha := alpha;
     cache_manager := false;
     test_type := PAIRED_T_TEST;
     validate_input args :=
       on2 args (fun before after =>
         Ok ((len before =? len after) && (1 <? len before)
             && negb (any_isnan before) && negb (any_isnan after)));
     check_assumptions args :=
       on2 args (fun before after =>
         differences <~ np_sub after before ;;
         p_norm <~ shapiro_p_below_5000 differences ;;
         Ok [("differences_normality",
              PrimFloat.ltb 0.05 p_norm || (30 <? len differences));
             ("paired_data", len before =? len after);
             ("independence", true)]);
     compute_statistic := statistic_of PAIRED_T_TEST p;
     interpret_result := interpretation_of PAIRED_T_TEST alpha p;
     get_null_hypothesis :=
       Ok "H₀: μ_diff = 0 (no difference between paired observations)";
     get_alternative_hypothesis :=
       by_alternative p
         "H₁: μ_diff ≠ 0 (there is a difference)"
         "H₁: μ_diff > 0 (after is greater than before)"
         "H₁: μ_diff < 0 (after is less than before)";
     calculate_effect_size := effect_size_of PAIRED_T_TEST p;
     calculate_confidence_interval :=
       confidence_interval_of PAIRED_T_TEST alpha;
     generate_recommendation decision assumptions :=
       Ok (base_generate_recommendation decision assumptions);
     get_sample_sizes args :=
       on2 args (fun before after => Ok (Some [("n_pairs", len before)])) |}.

(** *** [parametric/anova.py] *)

(** The normality loop of [OneWayANOVA.check_assumptions]: stop at the
    first group with [p_norm <= 0.05 and len(group) <= 30]. *)
Fixpoint anova_all_normal (groups : list sample) : result bool :=
  match groups with
  | [] => Ok true
  | group :: rest =>
      if len group <? 5000 then
        wp <~ shapiro group ;;
        if PrimFloat.leb wp.2 0.05 && (len group <=? 30) then Ok false
        else anova_all_normal rest
      else anova_all_normal rest
  end.

Definition OneWayANOVA (alpha : float) (p : TestParams) : t :=
  {| alpha := alpha;
     cache_manager := false;
     test_type := ONE_WAY_ANOVA;
     validate_input := validate_groups 2;
     check_assumptions groups :=
       all_normal <~ anova_all_normal groups ;;
       equal_variances <~ (if 2 <=? len groups then
                             wp <~ levene groups ;; Ok (PrimFloat.ltb 0.05 wp.2)
                           else Ok true) ;;
       Ok [("independence", true);
           ("sufficient_groups", 2 <=? len groups);
           ("normality", all_normal);
           ("equal_variances", equal_variances)];
     compute_statistic := statistic_of ONE_WAY_ANOVA p;
     interpret_result := interpretation_of ONE_WAY_ANOVA alpha p;
     get_null_hypothesis :=
       Ok "H₀: μ₁ = μ₂ = ... = μ_k (all group means are equal)";
     get_alternative_hypothesis :=
       Ok "H₁: At least one group mean differs from the others";
     calculate_effect_size := effect_size_of ONE_WAY_ANOVA p;
     calculate_confidence_interval := base_calculate_confidence_interval;
     generate_recommendation decision assumptions :=
       let base_rec := base_generate_recommendation decision assumptions in
       let base_rec :=
         if String.eqb decision "reject" then
           base_rec +:+ " Consider post-hoc tests (Tukey HSD, Bonferroni) to identify which specific groups differ."
         else base_rec in
       let base_rec :=
         if negb (default true (dict_get assumptions "equal_variances")) then
           base_rec +:+ " WARNING: Equal variance assumption violated. Consider Welch's ANOVA or Kruskal-Wallis test."
         else base_rec in
       Ok base_rec;
     get_sample_sizes := group_sizes |}.

(** *** [non_parametric/rank_tests.py] *)

Definition MannWhitneyUTest (alpha : float) (p : TestParams) : t :=
  {| alpha := alpha;
     cache_manager := false;
     test_type := MANN_WHITNEY_U;
     validate_input args :=
       on2 args (fun group1 group2 =>
         Ok ((0 <? len group1) && (0 <? len group2)
             && negb (any_isnan group1) && negb (any_isnan group2)));
     check_assumptions args :=
       on2 args (fun group1 group2 =>
         Ok [("independence", true);
             ("ordinal_or_continuous", true);
             ("sufficient_sample_size",
              (3 <=? len group1) && (3 <=? len group2))]);
     compute_statistic := statistic_of MANN_WHITNEY_U p;
     interpret_result := interpretation_of MANN_WHITNEY_U alpha p;
     get_null_hypothesis :=
       Ok "H₀: The two groups have the same distribution (medians are equal)";
     get_alternative_hypothesis :=
       by_alternative p
         "H₁: The two groups have different distributions (medians differ)"
         "H₁: Group 1 has larger values than Group 2"
         "H₁: Group 1 has smaller values than Group 2";
     calculate_effect_size := base_calculate_effect_size;
     calculate_confidence_interval := base_calculate_confidence_interval;
     generate_recommendation decision assumptions :=
       Ok (base_generate_recommendation decision assumptions);
     get_sample_sizes args :=
       on2 args (fun group1 group2 =>
         Ok (Some [("group1", len group1); ("group2", len group2)])) |}.

Definition WilcoxonSignedRankTest (alpha : float) (p : TestParams) : t :=
  {| alpha := alpha;
     cache_manager := false;
     test_type := WILCOXON_SIGNED_RANK;
     validate_input args :=
       on2 args (fun before after =>
         Ok ((len before =? len after) && (0 <? len before)
             && negb (any_isnan before) && negb (any_isnan after)));
     check_assumptions args :=
       on2 args (fun before after =>
         differences <~ np_sub after before ;;
         let non_zero_diffs :=
           List.filter (fun d => negb (PrimFloat.eqb d 0)) differences in
         Ok [("paired_data", len before =? len after);
             ("ordinal_or_continuous", true);
             ("sufficient_non_zero_differences", 5 <=? len non_zero_diffs)]);
     compute_statistic := statistic_of WILCOXON_SIGNED_RANK p;
     interpret_result := interpretation_of WILCOXON_SIGNED_RANK alpha p;
     get_null_hypothesis := Ok "H₀: The median difference is zero (no change)";
     get_alternative_hypothesis :=
       by_alternative p
         "H₁: The median difference is not zero (there is a change)"
         "H₁: After values are greater than before"
         "H₁: After values are less than before";
     calculate_effect_size := base_calculate_effect_size;
     calculate_confidence_interval := base_calculate_confidence_interval;
     generate_recommendation decision assumptions :=
       Ok (base_generate_recommendation decision assumptions);
     get_sample_sizes args :=
       on2 args (fun before after => Ok (Some [("n_pairs", len before)])) |}.

Definition KruskalWallisTest (alpha : float) (p : TestParams) : t :=
  {| alpha := alpha;
     cache_manager := false;
     test_type := KRUSKAL_WALLIS;
     validate_input := validate_groups 1;
     check_assumptions groups :=
       Ok [("independence", true);
           ("ordinal_or_continuous", true);
           ("sufficient_groups", 2 <=? len groups);
           ("sufficient_sample_size", all_len_ge 5 groups)];
     compute_statistic := statistic_of KRUSKAL_WALLIS p;
     interpret_result := interpretation_of KRUSKAL_WALLIS alpha p;
     get_null_hypothesis :=
       Ok "H₀: All k groups have the same distribution (medians are equal)";
     get_alternative_hypothesis :=
       Ok "H₁: At least one group has a different distribution";
     calculate_effect_size := base_calculate_effect_size;
     calculate_confidence_interval := base_calculate_confidence_interval;
     generate_recommendation decision assumptions :=
       let base_rec := base_generate_recommendation decision assumptions in
       Ok (if String.eqb decision "reject" then
             base_rec +:+ " Consider post-hoc pairwise comparisons (Dunn's test) to identify which groups differ."
           else base_rec);
     get_sample_sizes := group_sizes |}.

(** *** [normality/normality_tests.py] *)

Definition ShapiroWilkTest (alpha : float) (p : TestParams) : t :=
  {| alpha := alpha;
     cache_manager := false;
     test_type := SHAPIRO_WILK;
     validate_input args :=
       on1 args (fun data =>
         Ok ((3 <=? len data) && (len data <=? 5000)
             && negb (any_isnan data)));
     check_assumptions args :=
       on1 args (fun data =>
         Ok [("sufficient_sample_size", (3 <=? len data) && (len data <=? 5000));
             ("no_missing_values", negb (any_isnan data))]);
     compute_statistic args := on1 args shapiro;
     interpret_result := interpretation_of SHAPIRO_WILK alpha p;
     get_null_hypothesis := Ok "H₀: Data follows a normal distribution";
     get_alternative_hypothesis :=
       Ok "H₁: Data does not follow a normal distribution";
     calculate_effect_size := base_calculate_effect_size;
     calculate_confidence_interval := base_calculate_confidence_interval;
     generate_recommendation decision assumptions :=
       Ok (if String.eqb decision "reject" then
             "Data violates normality assumption. Recommendations: (1) Use non-parametric alternatives, (2) Transform data (log, sqrt), (3) Increase sample size (n > 30) for CLT to apply."
           else
             "Data meets normality assumption. Parametric tests are appropriate.");
     get_sample_sizes args :=
       on1 args (fun data => Ok (Some [("n", len data)])) |}.

Definition KolmogorovSmirnovTest (alpha : float) (p : TestParams) : t :=
  {| alpha := alpha;
     cache_manager := false;
     test_type := KOLMOGOROV_SMIRNOV;
     validate_input args :=
       on1 args (fun data => Ok ((5 <=? len data) && negb (any_isnan data)));
     check_assumptions args :=
       on1 args (fun data =>
         Ok [("sufficient_sample_size", 5 <=? len data);
             ("continuous_data", true)]);
     compute_statistic := statistic_of KOLMOGOROV_SMIRNOV p;
     interpret_result := interpretation_of KOLMOGOROV_SMIRNOV alpha p;
     get_null_hypothesis :=
       Ok ("H₀: Data follows a " +:+ distribution p +:+ " distribution");
     get_alternative_hypothesis :=
       Ok ("H₁: Data does not follow a " +:+ distribution p +:+ " distribution");
     calculate_effect_size := base_calculate_effect_size;
     calculate_confidence_interval := base_calculate_confidence_interval;
     generate_recommendation decision assumptions :=
       Ok (base_generate_recommendation decision assumptions);
     get_sample_sizes args :=
       on1 args (fun data => Ok (Some [("n", len data)])) |}.

Definition AndersonDarlingTest (alpha : float) (p : TestParams) : t :=
  {| alpha := alpha;
     cache_manager := false;
     test_type := ANDERSON_DARLING;
     validate_input args :=
       on1 args (fun data => Ok ((7 <=? len data) && negb (any_isnan data)));
     check_assumptions args :=
       on1 args (fun data =>
         Ok [("sufficient_sample_size", 7 <=? len data);
             ("continuous_data", true)]);
     compute_statistic := statistic_of ANDERSON_DARLING p;
     interpret_result := interpretation_of ANDERSON_DARLING alpha p;
     get_null_hypothesis :=
       Ok ("H₀: Data follows a " +:+ distribution p +:+ " distribution");
     get_alternative_hypothesis :=
       Ok ("H₁: Data does not follow a " +:+ distribution p +:+ " distribution");
     calculate_effect_size := base_calculate_effect_size;
     calculate_confidence_interval := base_calculate_confidence_interval;
     generate_recommendation decision assumptions :=
       Ok (base_generate_recommendation decision assumptions);
     get_sample_sizes args :=
       on1 args (fun data => Ok (Some [("n", len data)])) |}.

Definition JarqueBeraTest (alpha : float) (p : TestParams) : t :=
  {| alpha := alpha;
     cache_manager := false;
     test_type := JARQUE_BERA;
     validate_input args :=
       on1 args (fun data => Ok ((7 <=? len data) && negb (any_isnan data)));
     check_assumptions args :=
       on1 args (fun data =>
         Ok [("sufficient_sample_size", 7 <=? len data);
             ("works_best_large_n", 2000 <? len data)]);
     compute_statistic := statistic_of JARQUE_BERA p;
     interpret_result := interpretation_of JARQUE_BERA alpha p;
     get_null_hypothesis :=
       Ok "H₀: Data has normal skewness and kurtosis (follows normal distribution)";
     get_alternative_hypothesis :=
       Ok "H₁: Data has non-normal skewness or kurtosis";
     calculate_effect_size := base_calculate_effect_size;
     calculate_confidence_interval := base_calculate_confidence_interval;
     generate_recommendation decision assumptions :=
       Ok (base_generate_recommendation decision assumptions);
     get_sample_sizes args :=
       on1 args (fun data => Ok (Some [("n", len data)])) |}.

(** *** [variance/variance_tests.py] *)

Definition LeveneTest (alpha : float) (p : TestParams) : t :=
  {| alpha := alpha;
     cache_manager := false;
     test_type := LEVENE;
     validate_input := validate_groups 2;
     check_assumptions groups :=
       Ok [("sufficient_groups", 2 <=? len groups);
           ("sufficient_sample_size", all_len_ge 2 groups);
           ("continuous_data", true)];
     compute_statistic := statistic_of LEVENE p;
     interpret_result := interpretation_of LEVENE alpha p;
     get_null_hypothesis :=
       Ok "H₀: All k groups have equal variances (homoscedasticity)";
     get_alternative_hypothesis :=
       Ok "H₁: At least one group has different variance (heteroscedasticity)";
     calculate_effect_size := base_calculate_effect_size;
     calculate_confidence_interval := base_calculate_confidence_interval;
     generate_recommendation decision assumptions :=
       Ok (if String.eqb decision "reject" then
             "Variances differ significantly. Recommendations: (1) Use Welch's t-test (unequal variances), (2) Use Welch's ANOVA, (3) Transform data (log, sqrt) to stabilize variance, (4) Use non-parametric tests."
           else
             "Equal variance assumption met. Standard parametric tests are appropriate.");
     get_sample_sizes := group_sizes |}.

(** The normality loop of [BartlettTest.check_assumptions]. *)
Fixpoint bartlett_all_normal (groups : list sample) : result bool :=
  match groups with
  | [] => Ok true
  | group :: rest =>
      if len group <? 5000 then
        wp <~ shapiro group ;;
        if PrimFloat.leb wp.2 0.05 then Ok false
        else bartlett_all_normal rest
      else bartlett_all_normal rest
  end.

Definition BartlettTest (alpha : float) (p : TestParams) : t :=
  {| alpha := alpha;
     cache_manager := false;
     test_type := BARTLETT;
     validate_input := validate_groups 2;
     check_assumptions groups :=
       all_normal <~ bartlett_all_normal groups ;;
       Ok [("sufficient_groups", 2 <=? len groups);
           ("sufficient_sample_size", all_len_ge 2 groups);
           ("normality", all_normal)];
     compute_statistic := statistic_of BARTLETT p;
     interpret_result := interpretation_of BARTLETT alpha p;
     get_null_hypothesis := Ok "H₀: All groups have equal variances";
     get_alternative_hypothesis :=
       Ok "H₁: At least one group has different variance";
     calculate_effect_size := base_calculate_effect_size;
     calculate_confidence_interval := base_calculate_confidence_interval;
     generate_recommendation decision assumptions :=
       let base_rec := base_generate_recommendation decision assumptions in
       Ok (if negb (default true (dict_get assumptions "normality")) then
             "WARNING: Bartlett's test requires normality. Data may not be normal. Use Levene's test instead (more robust). "
             +:+ base_rec
           else base_rec);
     get_sample_sizes := group_sizes |}.

Definition FTestVariance (alpha : float) (p : TestParams) : t :=
  {| alpha := alpha;
     cache_manager := false;
     test_type := F_TEST_VARIANCE;
     validate_input args :=
       on2 args (fun group1 group2 =>
         Ok ((2 <=? len group1) && (2 <=? len group2)
             && negb (any_isnan group1) && negb (any_isnan group2)));
     check_assumptions args :=
       on2 args (fun group1 group2 =>
         p1 <~ shapiro_p_below_5000 group1 ;;
         p2 <~ shapiro_p_below_5000 group2 ;;
         Ok [("group1_normality", PrimFloat.ltb 0.05 p1);
             ("group2_normality", PrimFloat.ltb 0.05 p2);
             ("sufficient_sample_size",
              (2 <=? len group1) && (2 <=? len group2))]);
     compute_statistic := statistic_of F_TEST_VARIANCE p;
     interpret_result := interpretation_of F_TEST_VARIANCE alpha p;
     get_null_hypothesis := Ok "H₀: σ₁² = σ₂² (variances are equal)";
     get_alternative_hypothesis :=
       by_alternative p
         "H₁: σ₁² ≠ σ₂² (variances are different)"
         "H₁: σ₁² > σ₂² (variance 1 is greater)"
         "H₁: σ₁² < σ₂² (variance 1 is less)";
     calculate_effect_size := base_calculate_effect_size;
     calculate_confidence_interval := base_calculate_confidence_interval;
     generate_recommendation decision assumptions :=
       let base_rec := base_generate_recommendation decision assumptions in
       Ok (if negb (default true (dict_get assumptions "group1_normality"))
              || negb (default true (dict_get assumptions "group2_normality"))
           then
             "WARNING: F-test requires normality. Use Levene's test instead (more robust). "
             +:+ base_rec
           else base_rec);
     get_sample_sizes args :=
       on2 args (fun group1 group2 =>
         Ok (Some [("group1", len group1); ("group2", len group2)])) |}.

(** *** [TEST_REGISTRY] of [mcp_server.py] *)
Definition TEST_REGISTRY : dict (float -> TestParams -> t) :=
  [("one_sample_t_test", OneSampleTTest);
   ("two_sample_t_test", TwoSampleTTest);
   ("paired_t_test", PairedTTest);
   ("one_way_anova", OneWayANOVA);
   ("mann_whitney_u", MannWhitneyUTest);
   ("wilcoxon_signed_rank", WilcoxonSignedRankTest);
   ("kruskal_wallis", KruskalWallisTest);
   ("shapiro_wilk", ShapiroWilkTest);
   ("kolmogorov_smirnov", KolmogorovSmirnovTest);
   ("anderson_darling", AndersonDarlingTest);
   ("jarque_bera", JarqueBeraTest);
   ("levene", LeveneTest);
   ("bartlett", BartlettTest);
   ("f_test_variance", FTestVariance)].

(** A test instance as [run_hypothesis_test] makes it: built by a class of
    the registry, with or without the cache manager injected. *)
Inductive registered : t -> Prop :=
| registered_plain name cls alpha p :
    In (name, cls) TEST_REGISTRY -> registered (cls alpha p)
| registered_cached name cls alpha p :
    In (name, cls) TEST_REGISTRY ->
    registered (inject_cache_manager (cls alpha p)).


End WithLibraries.
End Tests.

(** ** [src/utils/test_suggester.py] *)

Module TestSuggester.

Record DataCharacteristics : Type := {
  n_samples : Z;
  n_groups : Z;
  is_paired : bool;
  is_normal : bool;
  equal_variances : bool;
  data_type : string;
  has_outliers : bool;
  sample_size_adequate : bool;
}.

(** The dictionary a suggestion method returns; [warning] and [post_hoc]
    are the keys only some branches set. *)
Record Suggestion : Type := {
  primary_test : string;
  test_name : string;
  reason : string;
  confidence : string;
  parameters : dict jval;
  alternative_tests : list string;
  assumptions_met : bool;
  warning : option string;
  post_hoc : option string;
}.

(** [int / int] and the conversion of a length to a float. *)
Definition float_of_Z (z : Z) : float := PrimFloat.of_uint63 (Uint63.of_Z z).

Section WithLibraries.
Context `{Platform} `{StatsLib}.
Local Open Scope res_scope.

Fixpoint _check_normality (data_groups : list sample) : result bool :=
  match data_groups with
  | [] => Ok true
  | group :: rest =>
      if (3 <=? len group) && (len group <=? 5000) then
        wp <~ shapiro group ;;
        if PrimFloat.ltb wp.2 0.05 && (len group <? 30) then Ok false
        else _check_normality rest
      else _check_normality rest
  end.

(** The bare [except:] catches whatever [stats.levene] raises. *)
Definition _check_equal_variances (data_groups : list sample) : result bool :=
  if len data_groups <? 2 then Ok true
  else
    rtry (wp <~ levene data_groups ;; Ok (PrimFloat.leb 0.05 wp.2))
         (fun _ => true)
         (Ok true).

Definition _infer_data_type (data : sample) : string :=
  let unique_values := np_unique_count data in
  let n := len data in
  if unique_values <=? 10 then "ordinal"
  else if PrimFloat.ltb (PrimFloat.div (float_of_Z unique_values) (float_of_Z n))
            0.05
       then "nominal"
       else "continuous".

Fixpoint _check_outliers (data_groups : list sample) : result bool :=
  match data_groups with
  | [] => Ok false
  | group :: rest =>
      q1 <~ np_percentile group 25 ;;
      q3 <~ np_percentile group 75 ;;
      let iqr := PrimFloat.sub q3 q1 in
      let lower_bound := PrimFloat.sub q1 (PrimFloat.mul 1.5 iqr) in
      let upper_bound := PrimFloat.add q3 (PrimFloat.mul 1.5 iqr) in
      let outliers :=
        len (List.filter
               (fun x => PrimFloat.ltb x lower_bound
                         || PrimFloat.ltb upper_bound x) group) in
      if 0 <? outliers then Ok true else _check_outliers rest
  end.

(** [min(sample_sizes)] of a non-empty list *)
Definition min_of (x : Z) (xs : list Z) : Z := fold_left Z.min xs x.
(** [sum(sample_sizes)] *)
Definition sum_of (xs : list Z) : Z := fold_left Z.add xs 0.

Definition analyze_data (data_groups : list sample)
  : result DataCharacteristics :=
  match data_groups with
  | [] => Raise (ValueError "At least one data group required")
  | first :: others =>
      let n_groups := len data_groups in
      let sample_sizes := map len data_groups in
      let total_n := sum_of sample_sizes in
      let min_n := min_of (len first) (map len others) in
      let is_paired :=
        match sample_sizes with
        | [s0; s1] => (s0 =? s1) && (s0 <? 100)
        | _ => false
        end in
      is_normal <~ _check_normality data_groups ;;
      equal_variances <~ (if 2 <=? n_groups
                          then _check_equal_variances data_groups
                          else Ok true) ;;
      let data_type := _infer_data_type first in
      has_outliers <~ _check_outliers data_groups ;;
      let sample_size_adequate :=
        (30 <=? min_n) || ((20 <=? min_n) && is_normal) in
      Ok {| n_samples := total_n;
            n_groups := n_groups;
            is_paired := is_paired;
            is_normal := is_normal;
            equal_variances := equal_variances;
            data_type := data_type;
            has_outliers := has_outliers;
            sample_size_adequate := sample_size_adequate |}
  end.

(** [mu0] is [kwargs.get('mu0', None)]; a zero [mu0] is false in
    [{"mu0": mu0} if mu0 else {}]. *)
Definition _suggest_one_sample_test (chars : DataCharacteristics)
    (mu0 : option float) : Suggestion :=
  if String.eqb (data_type chars) "continuous" then
    if is_normal chars || sample_size_adequate chars then
      {| primary_test := "one_sample_t_test";
         test_name := "One-Sample T-Test";
         reason := "Data is continuous and approximately normal (or n ≥ 30)";
         confidence := "high";
         parameters := match mu0 with
                       | Some m => if PrimFloat.eqb m 0 then []
                                   else [("mu0", JFloat m)]
                       | None => []
                       end;
         alternative_tests := ["sign_test"; "wilcoxon_signed_rank"];
         assumptions_met := true;
         warning := None;
         post_hoc := None |}
    else
      {| primary_test := "wilcoxon_signed_rank";
         test_name := "Wilcoxon Signed-Rank Test";
         reason := "Data is continuous but not normal with small sample size";
         confidence := "high";
         parameters := [];
         alternative_tests := ["sign_test"];
         assumptions_met := true;
         warning := None;
         post_hoc := None |}
  else
    {| primary_test := "sign_test";
       test_name := "Sign Test";
       reason := "Data is ordinal/nominal";
       confidence := "medium";
       parameters := [];
       alternative_tests := [];
       assumptions_met := true;
       warning := None;
       post_hoc := None |}.

Definition suggestion (primary name why : string) (params : dict jval)
    (alts : list string) (met : bool) (warn hoc : option string)
  : Suggestion :=
  {| primary_test := primary; test_name := name; reason := why;
     confidence := "high"; parameters := params; alternative_tests := alts;
     assumptions_met := met; warning := warn; post_hoc := hoc |}.

Definition _suggest_two_sample_test (chars : DataCharacteristics)
  : Suggestion :=
  if is_paired chars then
    if String.eqb (data_type chars) "continuous" then
      if is_normal chars || sample_size_adequate chars then
        suggestion "paired_t_test" "Paired T-Test"
          "Paired data, continuous, and approximately normal"
          [] ["wilcoxon_signed_rank"] true None None
      else
        suggestion "wilcoxon_signed_rank" "Wilcoxon Signed-Rank Test"
          "Paired data, continuous, but not normal with small sample"
          [] ["sign_test"] true None None
    else
      suggestion "wilcoxon_signed_rank" "Wilcoxon Signed-Rank Test"
        "Paired ordinal data" [] ["sign_test"] true None None
  else
    if String.eqb (data_type chars) "continuous" then
      if is_normal chars || sample_size_adequate chars then
        if equal_variances chars then
          suggestion "two_sample_t_test" "Independent Two-Sample T-Test"
            "Independent groups, continuous, normal, equal variances"
            [("equal_var", JBool true)] ["mann_whitney_u"] true None None
        else
          suggestion "two_sample_t_test" "Welch's T-Test"
            "Independent groups, continuous, normal, but unequal variances"
            [("equal_var", JBool false)] ["mann_whitney_u"] false
            (Some "Equal variance assumption violated - using Welch's test")
            None
      else
        suggestion "mann_whitney_u" "Mann-Whitney U Test"
          "Independent groups, continuous, but not normal with small sample"
          [] [] true None None
    else
      suggestion "mann_whitney_u" "Mann-Whitney U Test"
        "Independent groups with ordinal data" [] [] true None None.

Definition _suggest_multi_sample_test (chars : DataCharacteristics)
  : Suggestion :=
  let k := str_int (n_groups chars) in
  if String.eqb (data_type chars) "continuous" then
    if is_normal chars || sample_size_adequate chars then
      if equal_variances chars then
        suggestion "one_way_anova" "One-Way ANOVA"
          (k +:+ " groups, continuous, normal, equal variances")
          [] ["kruskal_wallis"] true None
          (Some "Consider Tukey HSD if significant")
      else
        suggestion "kruskal_wallis" "Kruskal-Wallis Test"
          (k +:+ " groups, continuous, but unequal variances")
          [] [] false
          (Some "Equal variance assumption violated - using non-parametric test")
          (Some "Consider Dunn's test if significant")
    else
      suggestion "kruskal_wallis" "Kruskal-Wallis Test"
        (k +:+ " groups, continuous, not normal with small sample")
        [] [] true None (Some "Consider Dunn's test if significant")
  else
    suggestion "kruskal_wallis" "Kruskal-Wallis Test"
      (k +:+ " groups with ordinal data")
      [] [] true None (Some "Consider Dunn's test if significant").

Definition suggest_test (data_groups : list sample) (mu0 : option float)
  : result Suggestion :=
  chars <~ analyze_data data_groups ;;
  if n_groups chars =? 1 then Ok (_suggest_one_sample_test chars mu0)
  else if n_groups chars =? 2 then Ok (_suggest_two_sample_test chars)
  else Ok (_suggest_multi_sample_test chars).

(** [suggest_normality_test]; the dictionaries it returns have different
    keys, so they are JSON objects here. *)
Definition suggest_normality_test (data : sample) : dict jval :=
  let n := len data in
  if n <? 7 then
    [("primary_test", JNull);
     ("reason", JStr "Sample size too small for normality testing (n < 7)");
     ("recommendation", JStr "Assume non-normal and use non-parametric tests")]
  else if n <=? 50 then
    [("primary_test", JStr "shapiro_wilk");
     ("test_name", JStr "Shapiro-Wilk Test");
     ("reason", JStr "Most powerful for small to moderate samples (n ≤ 50)");
     ("confidence", JStr "high");
     ("alternative_tests",
      JArr [JStr "kolmogorov_smirnov"; JStr "anderson_darling"])]
  else if n <=? 5000 then
    [("primary_test", JStr "shapiro_wilk");
     ("test_name", JStr "Shapiro-Wilk Test");
     ("reason", JStr "Good for moderate samples");
     ("confidence", JStr "high");
     ("alternative_tests", JArr [JStr "anderson_darling"; JStr "jarque_bera"])]
  else
    [("primary_test", JStr "jarque_bera");
     ("test_name", JStr "Jarque-Bera Test");
     ("reason", JStr "Best for large samples (n > 5000)");
     ("confidence", JStr "high");
     ("alternative_tests", JArr [JStr "anderson_darling"])].

(** [suggest_variance_test] *)
Definition suggest_variance_test (data_groups : list sample)
  : result (dict jval) :=
  let n_groups := len data_groups in
  if n_groups <? 2 then
    Ok [("primary_test", JNull);
        ("reason", JStr "Need at least 2 groups to test variance equality")]
  else
    chars <~ analyze_data data_groups ;;
    if is_normal chars then
      if n_groups =? 2 then
        Ok [("primary_test", JStr "f_test_variance");
            ("test_name", JStr "F-Test for Variance");
            ("reason", JStr "Two normal groups - F-test is most powerful");
            ("confidence", JStr "high");
            ("alternative_tests", JArr [JStr "levene"]);
            ("warning",
             JStr "Sensitive to non-normality - consider Levene's test if normality questionable")]
      else
        Ok [("primary_test", JStr "bartlett");
            ("test_name", JStr "Bartlett's Test");
            ("reason",
             JStr (str_int n_groups
                   +:+ " normal groups - Bartlett's is most powerful"));
            ("confidence", JStr "high");
            ("alternative_tests", JArr [JStr "levene"]);
            ("warning",
             JStr "Sensitive to non-normality - consider Levene's test if normality questionable")]
    else
      Ok [("primary_test", JStr "levene");
          ("test_name", JStr "Levene's Test");
          ("reason",
           JStr "Data not normal or normality uncertain - Levene's is robust");
          ("confidence", JStr "high");
          ("alternative_tests", JArr []);
          ("parameters", JObj [("center", JStr "median")])].

(** The data are continuous and normal, or continuous and of adequate size:
    the condition of the parametric branches. *)
Definition parametric_ok (chars : DataCharacteristics) : bool :=
  String.eqb (data_type chars) "continuous"
  && (is_normal chars || sample_size_adequate chars).

(** The tests a suggestion names: the primary one and the alternatives. *)
Definition names_test (suggestion : dict jval) (name : string) : Prop :=
  dict_get suggestion "primary_test" = Some (JStr name)
  \/ exists alts,
       dict_get suggestion "alternative_tests" = Some (JArr alts)
       /\ In (JStr name) alts.

End WithLibraries.
End TestSuggester.

(** ** [src/mcp_server.py]: the cache tools *)

Module Server.
Section WithPlatform.
Context `{Platform}.
Local Open Scope st_scope.

(** [get_cached_result], on the module's cache manager. *)
Definition get_cached_result (cache_id : string) (include_raw_data : bool)
  : St.M Cache.world jval :=
  result <- Cache.get_result cache_id include_raw_data ;;
  match result with
  | None => St.ret (JObj [("error", JStr "Cache entry not found or expired")])
  | Some r => St.ret r
  end.

End WithPlatform.
End Server.

(** ** A reference platform

    Small executable stand-ins for the external libraries, on which the
    model can be run: JSON text is the document itself, a digest is 64
    hexadecimal characters read off the input, a timestamp is printed as its
    count of microseconds (with a leading [Z] when it is offset-aware), and
    the statistical procedures return fixed values. *)

Module Demo.

Definition hex_digit (n : nat) : ascii :=
  match String.get (n mod 16) "0123456789abcdef" with
  | Some c => c
  | None => "0"%char
  end.

(** Exactly [n] hexadecimal characters. *)
Fixpoint hex_fill (n : nat) (s : string) : string :=
  match n with
  | O => EmptyString
  | S n' =>
      match s with
      | EmptyString => String "0" (hex_fill n' EmptyString)
      | String c s' => String (hex_digit (nat_of_ascii c)) (hex_fill n' s')
      end
  end.

Definition hexdigest (s : string) : string := hex_fill 64 s.

Fixpoint digits_of (fuel : nat) (n : Z) (acc : string) : string :=
  match fuel with
  | O => acc
  | S fuel' =>
      let acc' := String (ascii_of_nat (48 + Z.to_nat (n mod 10))) acc in
      if n / 10 =? 0 then acc' else digits_of fuel' (n / 10) acc'
  end.

Definition decimal (n : Z) : string :=
  if n <? 0 then "-" +:+ digits_of 64 (- n) "" else digits_of 64 n "".

Fixpoint parse_digits (acc : Z) (s : string) : option Z :=
  match s with
  | EmptyString => Some acc
  | String c s' =>
      let d := nat_of_ascii c in
      if (48 <=? d)%nat && (d <=? 57)%nat
      then parse_digits (10 * acc + Z.of_nat (d - 48)) s'
      else None
  end.

Definition parse_timestamp (s : string) : option datetime :=
  match s with
  | EmptyString => None
  | String "Z"%char (String c s') =>
      match parse_digits 0 (String c s') with
      | Some n => Some (Aware n 0)
      | None => None
      end
  | _ =>
      match parse_digits 0 s with
      | Some n => Some (Naive n)
      | None => None
      end
  end.

Definition platform : Platform :=
  {| text := jval;
     json_dumps := fun v => v;
     json_loads := fun v => Some v;
     undecodable := fun _ => false;
     sha256_hexdigest := hexdigest;
     isoformat := decimal;
     fromisoformat := parse_timestamp;
     str_int := decimal;
     str_float := fun _ => "x" |}.

(** [len(np.unique(data))] by pairwise comparison. *)
Fixpoint unique_count (data : sample) : Z :=
  match data with
  | [] => 0
  | x :: rest =>
      if existsb (PrimFloat.eqb x) rest then unique_count rest
      else 1 + unique_count rest
  end.

Definition stats : StatsLib :=
  {| shapiro := fun data =>
       if len data <? 3 then Raise (ValueError "Data must be at least length 3.")
       else Ok (0.97%float, 0.5%float);
     levene := fun _ => Ok (0.4%float, 0.5%float);
     statistic_of := fun _ _ _ => Ok (2.096%float, 0.042%float);
     interpretation_of := fun _ _ _ _ _ _ => Ok "interpretation";
     effect_size_of := fun _ _ _ => Ok None;
     confidence_interval_of := fun _ _ _ => Ok None;
     np_unique_count := unique_count;
     np_percentile := fun data _ =>
       match data with
       | [] => Raise (ValueError "empty array")
       | x :: _ => Ok x
       end |}.

(** A cache directory holding one well-formed entry written long ago, one
    entry without a [created] key and one whose [created] is not a
    timestamp. *)
Definition cache_manager : Cache.CacheManager :=
  {| Cache.cache_dir := "/tmp/mcp-hypothesis-cache";
     Cache.ttl_hours := 24;
     Cache.entries :=
       [("00000000000000aa",
         {| Cache.test_type := "paired_t_test";
            Cache.created := Some "1000";
            Cache.has_raw_data := false;
            Cache.result_file :=
              "/tmp/mcp-hypothesis-cache/test_results/00000000000000aa.json";
            Cache.data_file := None |});
        ("00000000000000bb",
         {| Cache.test_type := "levene";
            Cache.created := None;
            Cache.has_raw_data := false;
            Cache.result_file :=
              "/tmp/mcp-hypothesis-cache/test_results/00000000000000bb.json";
            Cache.data_file := None |});
        ("00000000000000cc",
         {| Cache.test_type := "bartlett";
            Cache.created := Some "yesterday";
            Cache.has_raw_data := false;
            Cache.result_file :=
              "/tmp/mcp-hypothesis-cache/test_results/00000000000000cc.json";
            Cache.data_file := None |})];
     Cache.last_cleanup := None |}.

Definition world : @Cache.world platform :=
  {| Cache.self := cache_manager;
     Cache.files :=
       {[ "/tmp/mcp-hypothesis-cache/test_results/00000000000000aa.json" :=
            JObj [("p_value", JFloat 0.5)] ]};
     Cache.denied := fun _ _ => false |}.

(** The same directory on a disk that refuses every write. *)
Definition read_only_world : @Cache.world platform :=
  {| Cache.self := cache_manager;
     Cache.files := Cache.files world;
     Cache.denied :=
       fun op _ => match op with Cache.OpWrite => true | _ => false end |}.

(** The directory with two well-formed entries. *)
Definition tidy_world : @Cache.world platform :=
  Cache.set_self
    (Cache.set_entries (fun _ =>
       [("00000000000000aa",
         {| Cache.test_type := "paired_t_test";
            Cache.created := Some "1000";
            Cache.has_raw_data := false;
            Cache.result_file :=
              "/tmp/mcp-hypothesis-cache/test_results/00000000000000aa.json";
            Cache.data_file := None |});
        ("00000000000000dd",
         {| Cache.test_type := "levene";
            Cache.created := Some "3000";
            Cache.has_raw_data := false;
            Cache.result_file :=
              "/tmp/mcp-hypothesis-cache/test_results/00000000000000dd.json";
            Cache.data_file := None |})]))
    world.

(** The directory with an entry whose timestamp carries an offset. *)
Definition aware_world : @Cache.world platform :=
  Cache.set_self
    (Cache.set_entries (fun d =>
       (d ++ [("00000000000000ee",
               {| Cache.test_type := "bartlett";
                  Cache.created := Some "Z2000";
                  Cache.has_raw_data := false;
                  Cache.result_file :=
                    "/tmp/mcp-hypothesis-cache/test_results/00000000000000ee.json";
                  Cache.data_file := None |})])%list))
    world.

(** Forty-five daily sales figures around 5150. *)
Definition sales : sample :=
  (List.repeat 5150%float 20 ++ List.repeat 5100%float 15
   ++ List.repeat 5230%float 10)%list.

(** Twelve distinct weights. *)
Definition weights : sample :=
  [61.2; 58.4; 70.1; 66.3; 59.9; 72.5; 64.0; 68.8; 63.1; 57.6; 69.4; 65.7]%float.

#[local] Existing Instance platform.
#[local] Existing Instance stats.

Definition one_sample_t_test : BaseHypothesisTest.t :=
  Tests.OneSampleTTest 0.05 default_params.

Definition mann_whitney_u : BaseHypothesisTest.t :=
  Tests.MannWhitneyUTest 0.05 default_params.

Definition paired_t_test : BaseHypothesisTest.t :=
  Tests.PairedTTest 0.05 default_params.

Definition shapiro_wilk : BaseHypothesisTest.t :=
  Tests.ShapiroWilkTest 0.05 default_params.

End Demo.

(* ===================================================================== *)
(** * Part II: properties                                                 *)
(* ===================================================================== *)

(** ** Dictionaries *)

Section DictFacts.
Context {V : Type}.
Implicit Types (d : dict V) (k : string) (v : V).

Lemma dict_get_del_eq d k : dict_get (dict_del d k) k = None.
Proof.
  induction d as [|[k' v'] d IH]; simpl; [done|].
  destruct (String.eqb k' k) eqn:E; simpl; [done|]. by rewrite E.
Qed.

Lemma dict_get_del_ne d k k' :
  k <> k' -> dict_get (dict_del d k) k' = dict_get d k'.
Proof.
  intros Hne. induction d as [|[k0 v0] d IH]; simpl; [done|].
  destruct (String.eqb k0 k) eqn:E; simpl.
  - apply String.eqb_eq in E as ->.
    destruct (String.eqb k k') eqn:E'; [|done].
    by apply String.eqb_eq in E'.
  - by rewrite IH.
Qed.

Lemma dict_get_set_eq d k v : dict_get (dict_set d k v) k = Some v.
Proof.
  induction d as [|[k' v'] d IH]; simpl.
  - by rewrite String.eqb_refl.
  - destruct (String.eqb k' k) eqn:E; simpl; by rewrite E.
Qed.

Lemma dict_get_set_ne d k k' v :
  k <> k' -> dict_get (dict_set d k v) k' = dict_get d k'.
Proof.
  intros Hne. induction d as [|[k0 v0] d IH]; simpl.
  - destruct (String.eqb k k') eqn:E; [|done]. by apply String.eqb_eq in E.
  - destruct (String.eqb k0 k) eqn:E; simpl; [|by rewrite IH].
    apply String.eqb_eq in E as ->.
    destruct (String.eqb k k') eqn:E'; [|done]. by apply String.eqb_eq in E'.
Qed.

Lemma dict_del_absent d k : dict_get d k = None -> dict_del d k = d.
Proof.
  induction d as [|[k' v'] d IH]; simpl; [done|].
  destruct (String.eqb k' k); [done|]. intros Hd. by rewrite IH.
Qed.
End DictFacts.

(** ** Strings *)

Section StringFacts.
Implicit Types (a b c s : string).

Lemma str_app_cons x a b : String x a +:+ b = String x (a +:+ b).
Proof. done. Qed.

Lemma str_app_nil b : "" +:+ b = b.
Proof. done. Qed.

Lemma str_app_assoc a b c : (a +:+ b) +:+ c = a +:+ (b +:+ c).
Proof.
  induction a as [|x a IH]; [done|]. by rewrite !str_app_cons, IH.
Qed.

Lemma str_length_app a b :
  String.length (a +:+ b) = (String.length a + String.length b)%nat.
Proof.
  induction a as [|x a IH]; [done|]. rewrite str_app_cons. simpl.
  by rewrite IH.
Qed.

Lemma str_length_substring_le n s :
  (String.length (String.substring 0 n s) <= n)%nat.
Proof.
  revert s. induction n as [|n IH]; intros [|x s]; simpl; try lia.
  specialize (IH s). lia.
Qed.

Lemma str_length_substring n s :
  (n <= String.length s)%nat -> String.length (String.substring 0 n s) = n.
Proof.
  revert s. induction n as [|n IH]; intros [|x s]; simpl; try lia.
  intros Hn. rewrite IH; lia.
Qed.





End StringFacts.

(** ** The result cache *)

Section CacheFacts.
Context `{Platform}.
Import Cache.
Implicit Types (w : world) (c : CacheManager) (e : IndexEntry).

Ltac st_unfold :=
  unfold St.bind, St.try_except, St.ret, St.raise, St.get, St.lift,
    St.modify in *.

(** *** Read-only computations *)

Lemma read_only_ret {A} (a : A) : read_only (St.ret a).
Proof. done. Qed.
Lemma read_only_raise {A} x : read_only (St.raise (A:=A) x).
Proof. done. Qed.
Lemma read_only_get : read_only (St.get (S:=world)).
Proof. done. Qed.
Lemma read_only_lift {A} (r : result A) : read_only (St.lift r).
Proof. done. Qed.
Lemma read_only_bind {A B} (m : St.M world A) (k : A -> St.M world B) :
  read_only m -> (forall a, read_only (k a)) -> read_only (St.bind m k).
Proof.
  intros Hm Hk w. unfold St.bind. specialize (Hm w).
  destruct (m w) as [[a|x] w']; simpl in *; subst; [apply Hk|done].
Qed.
Lemma read_only_try {A} (m h : St.M world A) catches :
  read_only m -> read_only h -> read_only (St.try_except m catches h).
Proof.
  intros Hm Hh w. unfold St.try_except. specialize (Hm w).
  destruct (m w) as [[a|x] w']; simpl in *; subst; [done|].
  destruct (catches x); [apply Hh|done].
Qed.
Lemma read_only_path_exists p : read_only (path_exists p).
Proof. done. Qed.
Lemma read_only_read_text p : read_only (read_text p).
Proof. intros w. unfold read_text. repeat case_match; done. Qed.

Ltac read_only_step :=
  first
    [ apply read_only_ret | apply read_only_raise | apply read_only_get
    | apply read_only_lift | apply read_only_path_exists
    | apply read_only_read_text
    | apply read_only_bind; [|intros ?]
    | apply read_only_try
    | case_match ].

Lemma read_only_json_load p : read_only (json_load p).
Proof. unfold json_load. repeat read_only_step. Qed.

Lemma read_only_get_result test_id inc : read_only (get_result test_id inc).
Proof.
  unfold get_result.
  repeat first [apply read_only_json_load | read_only_step].
Qed.

Lemma read_only_list_cached_tests : read_only list_cached_tests.
Proof. unfold list_cached_tests. repeat read_only_step. Qed.

(** C9. Cache reads are free of side effects: whatever the state, also when
    the identifier is not in the index, when a backing file is missing or
    unreadable, and when the listing raises, [get_result] and
    [list_cached_tests] leave the cache manager (its index, every entry) and
    every file as they were. *)
Theorem cache_reads_change_nothing
    (test_id : string) (include_raw_data : bool) (w : world) :
  let after_get := (get_result test_id include_raw_data w).2 in
  let after_list := (list_cached_tests w).2 in
  (after_get = w
   /\ entries (self after_get) = entries (self w)
   /\ files after_get = files w)
  /\ (after_list = w
      /\ entries (self after_list) = entries (self w)
      /\ files after_list = files w).
Proof.
  simpl. rewrite (read_only_get_result test_id include_raw_data w).
  by rewrite (read_only_list_cached_tests w).
Qed.

(** *** What the writers do *)

Lemma save_index_run w :
  _save_index w =
  (Ok tt,
   if denied w OpWrite (index_file (self w)) then w
   else set_files (insert (index_file (self w))
                     (json_dumps (index_json (self w)))) w).
Proof.
  unfold _save_index, write_text. st_unfold.
  by destruct (denied w OpWrite (index_file (self w))).
Qed.

Lemma save_index_self w : self (_save_index w).2 = self w.
Proof. rewrite save_index_run. simpl. by case_match. Qed.

Lemma save_index_denied w : denied (_save_index w).2 = denied w.
Proof. rewrite save_index_run. simpl. by case_match. Qed.

Lemma save_index_idem w :
  _save_index (_save_index w).2 = (Ok tt, (_save_index w).2).
Proof.
  rewrite !save_index_run. simpl.
  destruct (denied w OpWrite (index_file (self w))) eqn:E.
  - by rewrite E.
  - simpl. rewrite E. unfold set_files. simpl. by rewrite insert_insert_eq.
Qed.

Lemma set_entries_absent c test_id :
  dict_get (entries c) test_id = None ->
  set_entries (fun d => dict_del d test_id) c = c.
Proof.
  intros Hd. destruct c as [cd th en lc]. unfold set_entries. simpl in *.
  by rewrite dict_del_absent.
Qed.

(** [delete_result] never raises; it removes the key from the index and
    leaves the configuration alone. *)
Lemma delete_result_run test_id w :
  exists w',
    delete_result test_id w = (Ok tt, w')
    /\ self w' = set_entries (fun d => dict_del d test_id) (self w)
    /\ denied w' = denied w.
Proof.
  unfold delete_result. st_unfold. simpl.
  destruct (dict_get (entries (self w)) test_id) as [e|] eqn:Hd.
  2: { exists w. by rewrite set_entries_absent. }
  match goal with
  | |- context [let (_, _) := ?m in _] =>
      assert (exists w0, m = (Ok tt, w0) /\ self w0 = self w
                         /\ denied w0 = denied w) as (w0 & -> & Hs & Hdn)
  end.
  { unfold path_exists, unlink. simpl.
    repeat first [ case_match | simplify_eq/= ]; eauto 10. }
  rewrite save_index_run. eexists. split; [reflexivity|].
  case_match; simpl; rewrite ?Hs, ?Hdn; done.
Qed.

Lemma for_each_delete_run ids w :
  exists w',
    St.for_each ids delete_result w = (Ok tt, w')
    /\ self w' = set_entries (fun d => foldl dict_del d ids) (self w)
    /\ denied w' = denied w.
Proof.
  revert w. induction ids as [|test_id ids IH]; intros w; simpl.
  - exists w. split; [done|]. split; [by destruct (self w)|done].
  - st_unfold.
    destruct (delete_result_run test_id w) as (w1 & -> & Hs1 & Hd1).
    destruct (IH w1) as (w2 & -> & Hs2 & Hd2).
    exists w2. split; [done|]. rewrite Hs2, Hs1, Hd2, Hd1. done.
Qed.

(** *** The expiry sweep *)

Lemma mem_In k ids : mem k ids = true <-> In k ids.
Proof.
  unfold mem. rewrite existsb_exists. split.
  - intros (x & Hin & Heq). by apply String.eqb_eq in Heq as ->.
  - intros Hin. exists k. by rewrite String.eqb_refl.
Qed.

Lemma dict_del_filter {V} (d : dict V) k :
  dict_del d k = List.filter (fun kv => negb (String.eqb kv.1 k)) d.
Proof.
  induction d as [|[k' v] d IH]; simpl; [done|].
  destruct (String.eqb k' k); simpl; by rewrite IH.
Qed.

Lemma foldl_dict_del_filter {V} (d : dict V) ids :
  foldl dict_del d ids = List.filter (fun kv => negb (mem kv.1 ids)) d.
Proof.
  revert d. induction ids as [|k ids IH]; intros d; simpl.
  - induction d as [|kv d IHd]; simpl; [done|]. by rewrite <- IHd.
  - rewrite IH, dict_del_filter.
    induction d as [|[k' v] d IHd]; simpl; [done|].
    destruct (String.eqb k' k) eqn:E; simpl; [done|].
    destruct (mem k' ids); simpl; by rewrite IHd.
Qed.

Lemma expired_ids_inv now t d ids :
  expired_ids now t d = Ok ids ->
  Forall (fun kv => exists b, entry_expired now t kv.2 = Ok b
                              /\ (b = true -> In kv.1 ids)) d.
Proof.
  revert ids. induction d as [|[k e] d IH]; intros ids; simpl; [by constructor|].
  destruct (entry_expired now t e) as [b|x] eqn:Eb; simpl; [|done].
  destruct (expired_ids now t d) as [ids'|x] eqn:Ed; simpl; [|done].
  intros [= <-]. constructor.
  - exists b. split; [done|]. intros ->. by left.
  - eapply Forall_impl; [by apply IH|].
    intros [k' e'] (b' & Hb' & Hin). exists b'. split; [done|].
    intros Hb. destruct b; [right|]; by apply Hin.
Qed.

(** Once the expired identifiers are removed, nothing is left to expire
    at the same instant. *)
Lemma expired_ids_after now t d ids :
  expired_ids now t d = Ok ids ->
  expired_ids now t (foldl dict_del d ids) = Ok [].
Proof.
  intros Hx. apply expired_ids_inv in Hx. rewrite foldl_dict_del_filter.
  induction Hx as [|[k e] d (b & Hb & Hin) _ IH]; simpl; [done|].
  simpl in Hb, Hin. destruct (mem k ids) eqn:Em; simpl; [done|].
  rewrite Hb. simpl. rewrite IH. simpl.
  destruct b; [|done].
  specialize (Hin eq_refl). apply mem_In in Hin. congruence.
Qed.

Lemma cleanup_run_ok now w ids :
  expired_ids now (ttl (self w)) (entries (self w)) = Ok ids ->
  exists wd,
    St.for_each ids delete_result w = (Ok tt, wd)
    /\ _cleanup_expired now w =
       _save_index (set_self (set_last_cleanup (Some (isoformat now))) wd).
Proof.
  intros Hx. unfold _cleanup_expired. st_unfold. rewrite Hx.
  destruct (for_each_delete_run ids w) as (wd & -> & _). by exists wd.
Qed.

Lemma cleanup_run_raise now w x :
  expired_ids now (ttl (self w)) (entries (self w)) = Raise x ->
  _cleanup_expired now w = (Raise x, w).
Proof. intros Hx. unfold _cleanup_expired. st_unfold. by rewrite Hx. Qed.

Lemma set_last_cleanup_id v w :
  last_cleanup (self w) = v -> set_self (set_last_cleanup v) w = w.
Proof. destruct w as [[cd th en lc] fs dn]. simpl. by intros ->. Qed.

Lemma save_index_fst w : (_save_index w).1 = Ok tt.
Proof. by rewrite save_index_run. Qed.

(** The world after a completed sweep: the index without the expired
    identifiers, stamped with the time of the sweep. *)
Lemma cleanup_self now w ids :
  expired_ids now (ttl (self w)) (entries (self w)) = Ok ids ->
  (_cleanup_expired now w).1 = Ok tt
  /\ self (_cleanup_expired now w).2 =
     set_last_cleanup (Some (isoformat now))
       (set_entries (fun d => foldl dict_del d ids) (self w))
  /\ denied (_cleanup_expired now w).2 = denied w.
Proof.
  intros Hx. destruct (cleanup_run_ok now w ids Hx) as (wd & Hfor & ->).
  destruct (for_each_delete_run ids w) as (wd' & Hfor' & Hs & Hd).
  rewrite Hfor in Hfor'. injection Hfor' as <-.
  rewrite save_index_fst, save_index_self, save_index_denied. simpl.
  by rewrite Hs, Hd.
Qed.

(** C5. The expiry sweep is idempotent: run again at the same instant, the
    sweep ends as the first run did and leaves the world (the index, its
    entries and every file) as the first run left it; after a completed
    first run the second finds no identifier to delete. *)
Theorem cleanup_expired_idempotent (current_time : Z) (w : world) :
  let first := _cleanup_expired current_time w in
  let second := _cleanup_expired current_time first.2 in
  second = first
  /\ entries (self second.2) = entries (self first.2)
  /\ (first.1 = Ok tt ->
      expired_ids current_time (ttl (self first.2)) (entries (self first.2))
      = Ok []).
Proof.
  simpl.
  destruct (expired_ids current_time (ttl (self w)) (entries (self w)))
    as [ids|x] eqn:Hx.
  - destruct (cleanup_self current_time w ids Hx) as (H1 & Hs & Hd).
    assert (expired_ids current_time
              (ttl (self (_cleanup_expired current_time w).2))
              (entries (self (_cleanup_expired current_time w).2)) = Ok [])
      as Hx'.
    { rewrite Hs. simpl. unfold ttl in *. simpl.
      by apply expired_ids_after. }
    assert (_cleanup_expired current_time (_cleanup_expired current_time w).2
            = _cleanup_expired current_time w) as Heq.
    { destruct (cleanup_run_ok _ _ _ Hx') as (wd' & Hfor & ->).
      simpl in Hfor. injection Hfor as <-.
      rewrite set_last_cleanup_id by (by rewrite Hs).
      destruct (cleanup_run_ok _ _ _ Hx) as (wd & _ & ->).
      rewrite save_index_idem.
      pose proof (save_index_fst
        (set_self (set_last_cleanup (Some (isoformat current_time))) wd)) as Hf.
      destruct (_save_index _) as [r w']. simpl in *. by subst. }
    rewrite Heq. done.
  - rewrite (cleanup_run_raise _ _ _ Hx). simpl.
    rewrite (cleanup_run_raise _ _ _ Hx). simpl. done.
Qed.

Lemma dict_get_In {V} (d : dict V) k v : dict_get d k = Some v -> In (k, v) d.
Proof.
  induction d as [|[k' v'] d IH]; simpl; [done|].
  destruct (String.eqb k' k) eqn:E.
  - apply String.eqb_eq in E as ->. intros [= ->]. by left.
  - intros Hd. right. by apply IH.
Qed.

Lemma dict_get_foldl_del {V} (d : dict V) ids k :
  In k ids -> dict_get (foldl dict_del d ids) k = None.
Proof.
  intros Hin%mem_In. rewrite foldl_dict_del_filter.
  induction d as [|[k' v] d IH]; simpl; [done|].
  destruct (mem k' ids) eqn:Em; simpl; [done|].
  destruct (String.eqb k' k) eqn:E; [|done].
  apply String.eqb_eq in E as ->. congruence.
Qed.

Lemma entry_expired_invalid now t e :
  invalid_created e -> entry_expired now t e = Ok true.
Proof.
  unfold entry_expired, parse_created.
  intros [->|(s & -> & Hs)]; simpl; [done|]. by rewrite Hs.
Qed.

Lemma entry_expired_total now t e :
  naive_created e -> exists b, entry_expired now t e = Ok b.
Proof.
  unfold entry_expired, parse_created. intros Hn.
  destruct (created e) as [s|] eqn:Hc; simpl; [|by eauto].
  destruct (fromisoformat s) as [[us|us off]|] eqn:Hp; simpl; eauto.
  by destruct (Hn s us off).
Qed.

Lemma expired_ids_total now t d :
  naive_index d -> exists ids, expired_ids now t d = Ok ids.
Proof.
  induction 1 as [|[k e] d He _ [ids IH]]; simpl; [by eauto|].
  destruct (entry_expired_total now t e He) as [b ->]. simpl.
  rewrite IH. simpl. eauto.
Qed.

(** *** Paths *)

Lemma result_file_ne_data_file c test_id :
  result_file_of c test_id <> data_file_of c test_id.
Proof.
  unfold result_file_of, data_file_of, test_results_dir.
  rewrite !str_app_assoc. intros Hp.
  apply String.app_inj in Hp. rewrite !str_app_cons, !str_app_nil in Hp.
  simplify_eq.
Qed.

Lemma result_file_ne_index_file c test_id :
  result_file_of c test_id <> index_file c.
Proof.
  unfold result_file_of, index_file, test_results_dir.
  rewrite !str_app_assoc. intros Hp. apply String.app_inj in Hp.
  rewrite !str_app_cons in Hp. done.
Qed.

(** *** [cache_result] and [get_result] *)

Lemma cache_result_run_ok test_type test_result raw_data now_id now_created
    params_id w :
  let test_id := generate_test_id test_type now_id params_id in
  denied w OpWrite (result_file_of (self w) test_id) = false ->
  (writes_raw_data raw_data = true ->
   denied w OpWrite (data_file_of (self w) test_id) = false) ->
  exists w1,
    cache_result test_type test_result raw_data now_id now_created params_id w
    = (Ok test_id, w1)
    /\ self w1 =
       set_entries (fun d => dict_set d test_id
                     (new_entry (self w) test_type test_id raw_data now_created))
         (self w)
    /\ denied w1 = denied w
    /\ files w1 !! result_file_of (self w) test_id
       = Some (json_dumps (JObj test_result)).
Proof.
  intros test_id Hres Hdata. unfold cache_result. fold test_id.
  unfold write_text. st_unfold. simpl. rewrite Hres.
  assert (forall f, index_file (set_entries f (self w)) = index_file (self w))
    as Hidx by done.
  pose proof (result_file_ne_index_file (self w) test_id) as Hne1.
  pose proof (result_file_ne_data_file (self w) test_id) as Hne2.
  destruct raw_data as [[|kv rd]|]; simpl in *;
    rewrite ?Hdata by done;
    rewrite save_index_run; simpl; rewrite Hidx;
    (eexists; split; [reflexivity|]);
    case_match; simpl; (split; [done|]); (split; [done|]);
    by simplify_map_eq.
Qed.

Lemma get_result_absent test_id inc w :
  dict_get (entries (self w)) test_id = None ->
  get_result test_id inc w = (Ok None, w).
Proof. intros Hd. unfold get_result. st_unfold. by rewrite Hd. Qed.

Lemma json_load_run p (txt : text) v w :
  denied w OpRead p = false -> files w !! p = Some txt ->
  json_loads txt = Some v -> json_load p w = (Ok v, w).
Proof.
  intros Hr Hf Hl. unfold json_load, read_text. st_unfold.
  by rewrite Hr, Hf, Hl.
Qed.

Lemma get_result_plain test_id e (txt : text) v w :
  dict_get (entries (self w)) test_id = Some e ->
  denied w OpRead (result_file e) = false ->
  files w !! result_file e = Some txt ->
  json_loads txt = Some v ->
  get_result test_id false w = (Ok (Some v), w).
Proof.
  intros Hd Hr Hf Hl. unfold get_result, path_exists. st_unfold.
  rewrite Hd, Hf. rewrite bool_decide_eq_true_2 by eauto. simpl.
  rewrite (json_load_run _ txt v) by done. by destruct (data_file e).
Qed.

Lemma naive_index_set d test_id e :
  naive_index d -> naive_created e -> naive_index (dict_set d test_id e).
Proof.
  intros Hd He. induction Hd as [|[k e'] d Hk Hd IH]; simpl.
  - by repeat constructor.
  - destruct (String.eqb k test_id); constructor; done.
Qed.

(** An entry that the first loop finds expired is gone after the sweep. *)
Lemma cleanup_removes now w test_id e :
  dict_get (entries (self w)) test_id = Some e ->
  entry_expired now (ttl (self w)) e = Ok true ->
  naive_index (entries (self w)) ->
  exists ids,
    expired_ids now (ttl (self w)) (entries (self w)) = Ok ids
    /\ In test_id ids
    /\ (_cleanup_expired now w).1 = Ok tt
    /\ dict_get (entries (self (_cleanup_expired now w).2)) test_id = None.
Proof.
  intros Hget Hexp Hnaive.
  destruct (expired_ids_total now (ttl (self w)) _ Hnaive) as [ids Hx].
  exists ids. split; [done|].
  assert (In test_id ids) as Hin.
  { pose proof (expired_ids_inv _ _ _ _ Hx) as Hall.
    rewrite List.Forall_forall in Hall.
    destruct (Hall _ (dict_get_In _ _ _ Hget)) as (b & Hb & Hyes).
    simpl in *. rewrite Hexp in Hb. injection Hb as <-. by apply Hyes. }
  split; [done|].
  destruct (cleanup_self now w ids Hx) as (H1 & Hs & _).
  split; [done|]. rewrite Hs. simpl. by apply dict_get_foldl_del.
Qed.

(** X30. In the first loop of an expiry sweep an index entry whose
    [created] key is missing, or holds a string that is not a timestamp,
    counts as expired whatever the time and the time-to-live are: its
    identifier is in the list handed to [delete_result] whenever that loop
    completes, and whenever the sweep returns the entry is no longer in the
    index. *)
Theorem invalid_created_is_swept
    (current_time : Z) (w : world) (test_id : string) (entry : IndexEntry) :
  dict_get (entries (self w)) test_id = Some entry ->
  invalid_created entry ->
  (forall now' ttl', entry_expired now' ttl' entry = Ok true)
  /\ (forall ids,
        expired_ids current_time (ttl (self w)) (entries (self w)) = Ok ids ->
        In test_id ids)
  /\ ((_cleanup_expired current_time w).1 = Ok tt ->
      dict_get (entries (self (_cleanup_expired current_time w).2)) test_id
      = None).
Proof.
  intros Hget Hinv.
  assert (forall ids,
            expired_ids current_time (ttl (self w)) (entries (self w)) = Ok ids ->
            In test_id ids) as Hlisted.
  { intros ids Hx. pose proof (expired_ids_inv _ _ _ _ Hx) as Hall.
    rewrite List.Forall_forall in Hall.
    destruct (Hall _ (dict_get_In _ _ _ Hget)) as (b & Hb & Hyes).
    simpl in *. rewrite (entry_expired_invalid _ _ _ Hinv) in Hb.
    injection Hb as <-. by apply Hyes. }
  split; [|split; [done|]].
  - intros now' ttl'. by apply entry_expired_invalid.
  - intros Hok.
    destruct (expired_ids current_time (ttl (self w)) (entries (self w)))
      as [ids|x] eqn:Hx.
    + destruct (cleanup_self current_time w ids Hx) as (_ & Hs & _).
      rewrite Hs. simpl. apply dict_get_foldl_del. by apply Hlisted.
    + by rewrite (cleanup_run_raise _ _ _ Hx) in Hok.
Qed.

(** *** Entries and files that a sweep keeps *)

Lemma dict_keys_set_elem {V} (d : dict V) k v k0 :
  k0 ∈ dict_keys (dict_set d k v) -> k0 = k \/ k0 ∈ dict_keys d.
Proof.
  unfold dict_keys. induction d as [|[k' v'] d IH]; simpl.
  - rewrite elem_of_cons. intros [->|Hin]; [by left|by right].
  - destruct (String.eqb k' k) eqn:E; simpl; rewrite !elem_of_cons.
    + intros [->|Hin]; right; [by left|by right].
    + intros [->|Hin]; [right; by left|].
      destruct (IH Hin) as [->|Hin']; [by left|right; by right].
Qed.

Lemma dict_keys_set_NoDup {V} (d : dict V) k v :
  NoDup (dict_keys d) -> NoDup (dict_keys (dict_set d k v)).
Proof.
  induction d as [|[k' v'] d IH]; simpl.
  - intros _. apply NoDup_singleton.
  - unfold dict_keys in *. simpl. rewrite NoDup_cons. intros [Hk Hd].
    destruct (String.eqb k' k) eqn:E; simpl; rewrite NoDup_cons.
    + done.
    + split; [|by apply IH]. apply String.eqb_neq in E.
      intros Hin. destruct (dict_keys_set_elem d k v k' Hin) as [->|Hin'];
        [done|by apply Hk].
Qed.

Lemma dict_get_unique {V} (d : dict V) k v :
  NoDup (dict_keys d) -> In (k, v) d -> dict_get d k = Some v.
Proof.
  unfold dict_keys. induction d as [|[k' v'] d IH]; simpl; [done|].
  rewrite NoDup_cons. intros [Hk Hd] [[= -> ->]|Hin].
  - by rewrite String.eqb_refl.
  - destruct (String.eqb k' k) eqn:E; [|by apply IH].
    apply String.eqb_eq in E as ->. destruct Hk.
    apply list_elem_of_In. by apply (in_map fst) in Hin.
Qed.

Lemma expired_ids_In now t d ids k :
  expired_ids now t d = Ok ids -> In k ids ->
  exists e, In (k, e) d /\ entry_expired now t e = Ok true.
Proof.
  revert ids. induction d as [|[k' e'] d IH]; intros ids; simpl.
  - by intros [= <-].
  - destruct (entry_expired now t e') as [b|x] eqn:Eb; simpl; [|done].
    destruct (expired_ids now t d) as [ids'|x] eqn:Ed; simpl; [|done].
    intros [= <-] Hin. destruct b.
    + destruct Hin as [<-|Hin]; [by eauto|].
      destruct (IH ids' eq_refl Hin) as (e & He & Hx). eauto.
    + destruct (IH ids' eq_refl Hin) as (e & He & Hx). eauto.
Qed.

Lemma dict_get_foldl_del_ne {V} (d : dict V) ids k :
  ~ In k ids -> dict_get (foldl dict_del d ids) k = dict_get d k.
Proof.
  revert d. induction ids as [|k' ids IH]; intros d Hnin; simpl; [done|].
  rewrite IH by (intros Hin; apply Hnin; by right).
  apply dict_get_del_ne. intros ->. apply Hnin. by left.
Qed.

(** [delete_result] touches the files of the entry it deletes and the index
    file, no other. *)
Lemma delete_result_keeps_file k w p :
  (forall e, dict_get (entries (self w)) k = Some e ->
             result_file e <> p /\ data_file e <> Some p) ->
  p <> index_file (self w) ->
  files (delete_result k w).2 !! p = files w !! p.
Proof.
  intros Hfiles Hidx. unfold delete_result. st_unfold. simpl.
  destruct (dict_get (entries (self w)) k) as [e|] eqn:Hd; [|done].
  destruct (Hfiles e eq_refl) as [Hr Hdf].
  match goal with
  | |- context [let (_, _) := ?m in _] =>
      assert (exists w0, m = (Ok tt, w0) /\ self w0 = self w
                         /\ denied w0 = denied w
                         /\ files w0 !! p = files w !! p)
        as (w0 & -> & Hs & Hdn & Hf)
  end.
  { unfold path_exists, unlink. simpl.
    repeat first [ case_match | simplify_eq/= ]; eexists;
      (split; [reflexivity|]); simpl; repeat split; try done;
      rewrite ?lookup_delete_ne by congruence; done. }
  rewrite save_index_run. simpl. rewrite Hs, Hdn.
  change (index_file (set_entries _ (self w))) with (index_file (self w)).
  case_match; simpl; [done|]. by rewrite lookup_insert_ne.
Qed.

Lemma for_each_delete_keeps_file ids w p :
  (forall k e, In k ids -> dict_get (entries (self w)) k = Some e ->
               result_file e <> p /\ data_file e <> Some p) ->
  p <> index_file (self w) ->
  files (St.for_each ids delete_result w).2 !! p = files w !! p.
Proof.
  revert w. induction ids as [|k ids IH]; intros w Hfiles Hidx; simpl; [done|].
  st_unfold.
  pose proof (delete_result_keeps_file k w p
                (fun e => Hfiles k e (or_introl eq_refl)) Hidx) as Hk.
  destruct (delete_result_run k w) as (w1 & Hrun & Hs1 & _).
  rewrite Hrun in *. simpl in Hk. rewrite <- Hk. apply IH.
  - intros k' e Hin Hget. rewrite Hs1 in Hget. simpl in Hget.
    destruct (decide (k = k')) as [->|Hne].
    + by rewrite dict_get_del_eq in Hget.
    + rewrite dict_get_del_ne in Hget by done. apply (Hfiles k' e); [by right|done].
  - by rewrite Hs1.
Qed.

(** A sweep keeps an entry that is not expired, and its result file when no
    other entry names it. *)
Lemma cleanup_keeps now w test_id e :
  NoDup (dict_keys (entries (self w))) ->
  naive_index (entries (self w)) ->
  dict_get (entries (self w)) test_id = Some e ->
  entry_expired now (ttl (self w)) e = Ok false ->
  no_other_entry_uses (entries (self w)) test_id (result_file e) ->
  result_file e <> index_file (self w) ->
  (_cleanup_expired now w).1 = Ok tt
  /\ dict_get (entries (self (_cleanup_expired now w).2)) test_id = Some e
  /\ files (_cleanup_expired now w).2 !! result_file e = files w !! result_file e
  /\ denied (_cleanup_expired now w).2 = denied w.
Proof.
  intros Hnodup Hnaive Hget Hfresh Hother Hidx.
  destruct (expired_ids_total now (ttl (self w)) _ Hnaive) as [ids Hx].
  assert (~ In test_id ids) as Hnin.
  { intros Hin. destruct (expired_ids_In _ _ _ _ _ Hx Hin) as (e' & He' & Hexp).
    rewrite (dict_get_unique _ _ _ Hnodup He') in Hget. congruence. }
  destruct (cleanup_self now w ids Hx) as (H1 & Hs & Hd).
  split; [done|]. split; [|split; [|done]].
  - rewrite Hs. simpl. by rewrite dict_get_foldl_del_ne.
  - destruct (cleanup_run_ok now w ids Hx) as (wd & Hfor & ->).
    pose proof (for_each_delete_keeps_file ids w (result_file e)) as Hkeep.
    rewrite Hfor in Hkeep. simpl in Hkeep.
    destruct (for_each_delete_run ids w) as (wd' & Hfor' & Hsd & Hdd).
    rewrite Hfor in Hfor'. injection Hfor' as <-.
    rewrite save_index_run. simpl. rewrite Hsd.
    change (index_file (set_last_cleanup _ (set_entries _ (self w))))
      with (index_file (self w)).
    case_match; simpl; rewrite ?lookup_insert_ne by done; apply Hkeep; try done.
    all: intros k e' Hin Hk; apply (Hother k e' Hk); by intros ->.
Qed.

(** C3. Cache round trip.  When the files of [cache_result] can be written
    and the result file can be read, [cache_result] returns the generated
    identifier and [get_result] on it returns the payload that was written,
    and still does after an expiry sweep run before the time-to-live has
    passed; after [delete_result] on the identifier, or after an expiry sweep
    run once the time-to-live has passed, [get_result] returns not-found. *)
Theorem cache_round_trip
    (test_type : string) (test_result : dict jval)
    (raw_data : option (dict jval)) (now_id now_created params_id : Z)
    (w : world) :
  (forall v, json_loads (json_dumps v) = Some v) ->
  let test_id := generate_test_id test_type now_id params_id in
  denied w OpWrite (result_file_of (self w) test_id) = false ->
  (writes_raw_data raw_data = true ->
   denied w OpWrite (data_file_of (self w) test_id) = false) ->
  denied w OpRead (result_file_of (self w) test_id) = false ->
  let written :=
    cache_result test_type test_result raw_data now_id now_created params_id w in
  written.1 = Ok test_id
  /\ get_result test_id false written.2
     = (Ok (Some (JObj test_result)), written.2)
  /\ (forall now,
        fromisoformat (isoformat now_created) = Some (Naive now_created) ->
        naive_index (entries (self w)) ->
        NoDup (dict_keys (entries (self w))) ->
        no_other_entry_uses (entries (self w)) test_id
          (result_file_of (self w) test_id) ->
        now - now_created <= ttl (self w) ->
        let swept := _cleanup_expired now written.2 in
        swept.1 = Ok tt
        /\ get_result test_id false swept.2
           = (Ok (Some (JObj test_result)), swept.2))
  /\ (forall inc,
        let deleted := delete_result test_id written.2 in
        deleted.1 = Ok tt
        /\ get_result test_id inc deleted.2 = (Ok None, deleted.2))
  /\ (forall now inc,
        fromisoformat (isoformat now_created) = Some (Naive now_created) ->
        naive_index (entries (self w)) ->
        ttl (self w) < now - now_created ->
        let swept := _cleanup_expired now written.2 in
        swept.1 = Ok tt
        /\ get_result test_id inc swept.2 = (Ok None, swept.2)).
Proof.
  intros Hjson test_id Hres Hdata Hread written.
  destruct (cache_result_run_ok test_type test_result raw_data now_id
              now_created params_id w Hres Hdata)
    as (w1 & Hrun & Hself & Hden & Hfile).
  fold test_id in Hrun, Hself, Hfile. subst written. rewrite Hrun. simpl.
  set (e := new_entry (self w) test_type test_id raw_data now_created) in *.
  assert (dict_get (entries (self w1)) test_id = Some e) as Hget.
  { rewrite Hself. simpl. apply dict_get_set_eq. }
  assert (fromisoformat (isoformat now_created) = Some (Naive now_created) ->
          naive_index (entries (self w)) -> naive_index (entries (self w1)))
    as Hnaive1.
  { intros Hiso Hnaive. rewrite Hself. simpl. apply naive_index_set; [done|].
    intros s us off [= <-]. by rewrite Hiso. }
  assert (ttl (self w1) = ttl (self w)) as Httl by (by rewrite Hself).
  split; [done|]. split; [|split; [|split]].
  - eapply get_result_plain; [exact Hget| | |apply Hjson]; simpl.
    + by rewrite Hden.
    + done.
  - intros now Hiso Hnaive Hnodup Hother Hyoung.
    destruct (cleanup_keeps now w1 test_id e) as (Hok & Hkept & Hfiles & Hden');
      try done.
    + rewrite Hself. simpl. by apply dict_keys_set_NoDup.
    + by apply Hnaive1.
    + unfold entry_expired, parse_created. simpl. rewrite Hiso. simpl.
      f_equal. apply Z.ltb_ge. by rewrite Httl.
    + intros k e' Hk Hne. rewrite Hself in Hk. simpl in Hk.
      rewrite dict_get_set_ne in Hk by done. by apply (Hother k e').
    + rewrite Hself. exact (result_file_ne_index_file (self w) test_id).
    + split; [done|].
      eapply get_result_plain; [exact Hkept| | |apply Hjson]; simpl.
      * by rewrite Hden', Hden.
      * simpl in Hfiles. by rewrite Hfiles.
  - intros inc.
    destruct (delete_result_run test_id w1) as (w2 & -> & Hs2 & _). simpl.
    split; [done|]. apply get_result_absent. rewrite Hs2. simpl.
    apply dict_get_del_eq.
  - intros now inc Hiso Hnaive Hold.
    destruct (cleanup_removes now w1 test_id _ Hget) as (ids & _ & _ & Hok & Hgone).
    + unfold entry_expired, parse_created. simpl. rewrite Hiso. simpl.
      f_equal. apply Z.ltb_lt. by rewrite Httl.
    + by apply Hnaive1.
    + split; [done|]. by apply get_result_absent.
Qed.

(** *** Failed writes *)

(** When a write of [cache_result] is refused the call still returns: its
    value is the sentinel, and the index gets no entry. *)
Lemma cache_result_write_fails test_type test_result raw_data now_id
    now_created params_id w :
  let test_id := generate_test_id test_type now_id params_id in
  denied w OpWrite (result_file_of (self w) test_id) = true
  \/ (writes_raw_data raw_data = true
      /\ denied w OpWrite (data_file_of (self w) test_id) = true) ->
  exists w1,
    cache_result test_type test_result raw_data now_id now_created params_id w
    = (Ok ("cache_error_" +:+ test_id), w1)
    /\ self w1 = self w.
Proof.
  intros test_id Hfail. unfold cache_result. fold test_id.
  unfold write_text. st_unfold. simpl.
  destruct (denied w OpWrite (result_file_of (self w) test_id)) eqn:Hres; simpl.
  { by eexists. }
  destruct Hfail as [|[Hraw Hdata]]; [done|].
  destruct raw_data as [[|kv rd]|]; simpl in *; try done.
  rewrite Hdata. simpl. by eexists.
Qed.

Lemma cache_result_returns test_type test_result raw_data now_id now_created
    params_id w :
  exists id w1,
    cache_result test_type test_result raw_data now_id now_created params_id w
    = (Ok id, w1).
Proof.
  set (test_id := generate_test_id test_type now_id params_id).
  destruct (denied w OpWrite (result_file_of (self w) test_id)) eqn:Hres.
  { destruct (cache_result_write_fails test_type test_result raw_data now_id
                now_created params_id w) as (w1 & Hr & _); [by left|].
    rewrite Hr. eauto. }
  pose proof (cache_result_run_ok test_type test_result raw_data now_id
                now_created params_id w) as Hok.
  simpl in Hok. fold test_id in Hok.
  destruct (writes_raw_data raw_data) eqn:Hraw.
  - destruct (denied w OpWrite (data_file_of (self w) test_id)) eqn:Hdata.
    + destruct (cache_result_write_fails test_type test_result raw_data now_id
                  now_created params_id w) as (w1 & Hr & _); [by right|].
      rewrite Hr. eauto.
    + destruct Hok as (w1 & Hr & _); [done|done|]. rewrite Hr. eauto.
  - destruct Hok as (w1 & Hr & _); [done|done|]. rewrite Hr. eauto.
Qed.

(** With digests of 64 characters an identifier has 16 characters and a
    sentinel 28: no sentinel is an identifier. *)
Lemma sentinel_is_no_identifier test_type now_id params_id test_type' now_id'
    params_id' :
  (forall s, String.length (sha256_hexdigest s) = 64%nat) ->
  "cache_error_" +:+ generate_test_id test_type now_id params_id
  <> generate_test_id test_type' now_id' params_id'.
Proof.
  intros Hsha Heq. apply (f_equal String.length) in Heq.
  rewrite str_length_app in Heq. unfold generate_test_id in Heq.
  rewrite !str_length_substring in Heq by (rewrite Hsha; lia).
  simpl in Heq. lia.
Qed.

End CacheFacts.

(** ** The execution pipeline *)

Section PipelineFacts.
Context `{Platform}.
Import BaseHypothesisTest.
Implicit Types (self : BaseHypothesisTest.t) (args : list sample)
  (w : Cache.world) (r : TestResult.t).

Ltac st_unfold :=
  unfold St.bind, St.try_except, St.ret, St.raise, St.get, St.lift,
    St.modify in *.

(** What a run that returns a result went through. *)
Lemma run_inv self args now_id now_created params_id w r w' :
  run self args now_id now_created params_id w = (Ok r, w') ->
  exists assumptions statistic p_value,
    validate_input self args = Ok true
    /\ check_assumptions self args = Ok assumptions
    /\ compute_statistic self args = Ok (statistic, p_value)
    /\ generate_recommendation self (decision_of p_value (alpha self)) assumptions
       = Ok (TestResult.recommendation r)
    /\ TestResult.statistic r = statistic
    /\ TestResult.p_value r = p_value
    /\ TestResult.alpha r = alpha self
    /\ TestResult.significant r = PrimFloat.ltb p_value (alpha self)
    /\ TestResult.decision r = decision_of p_value (alpha self)
    /\ TestResult.assumptions_met r = Some assumptions
    /\ TestResult.test_type r = value (test_type self).
Proof.
  unfold run, decision_of. st_unfold.
  destruct (validate_input self args) as [[|]|x]; simpl; [|done..].
  destruct (check_assumptions self args) as [assumptions|x]; simpl; [|done].
  destruct (compute_statistic self args) as [[statistic p_value]|x]; simpl;
    [|done].
  destruct (interpret_result self _ _ _) as [interpretation|x]; simpl; [|done].
  destruct (generate_recommendation self _ _) as [recommendation|x] eqn:Hrec;
    simpl; [|done].
  destruct (calculate_effect_size self args) as [effect_size|x]; simpl; [|done].
  destruct (calculate_confidence_interval self args) as [ci|x]; simpl; [|done].
  destruct (cache_detailed_results self _ _ _ _ w) as [[cache_id|x] w1]; [|done].
  destruct (get_null_hypothesis self) as [h0|x]; simpl; [|done].
  destruct (get_alternative_hypothesis self) as [h1|x]; simpl; [|done].
  destruct (get_sample_sizes self args) as [sizes|x]; simpl; [|done].
  intros [= <- <-]. exists assumptions, statistic, p_value. simpl.
  repeat split; done.
Qed.

(** C1. Every result a pipeline run produces, for whatever test strategy
    and on an input that passed validation, has
    [significant = (p_value < alpha)] (strict), and its decision is "reject"
    exactly when it is significant and "fail_to_reject" otherwise. *)
Theorem run_significance_invariant
    self args (now_id now_created params_id : Z) w r w' :
  validate_input self args = Ok true ->
  run self args now_id now_created params_id w = (Ok r, w') ->
  TestResult.significant r
  = PrimFloat.ltb (TestResult.p_value r) (TestResult.alpha r)
  /\ (TestResult.decision r = "reject" <-> TestResult.significant r = true)
  /\ (TestResult.decision r = "fail_to_reject"
      <-> TestResult.significant r = false).
Proof.
  intros _ Hrun.
  destruct (run_inv _ _ _ _ _ _ _ _ Hrun)
    as (a & st & pv & _ & _ & _ & _ & _ & Hp & Ha & Hs & Hd & _).
  rewrite Hp, Ha, Hs, Hd. unfold decision_of.
  destruct (PrimFloat.ltb pv (alpha self)); repeat split; done.
Qed.

(** A run on an input that fails validation raises [ValueError] naming the
    test type, and touches neither the cache nor its files. *)
Lemma run_invalid self args now_id now_created params_id w :
  validate_input self args = Ok false ->
  run self args now_id now_created params_id w
  = (Raise (ValueError ("Input validation failed for "
                        +:+ value (test_type self))), w).
Proof. intros Hv. unfold run. st_unfold. by rewrite Hv. Qed.

Lemma run_with_cache_invalid cached self args now_id now_created params_id w :
  validate_input self args = Ok false ->
  run (with_cache cached self) args now_id now_created params_id w
  = (Raise (ValueError ("Input validation failed for "
                        +:+ value (test_type self))), w).
Proof.
  intros Hv. destruct cached; simpl.
  - exact (run_invalid (inject_cache_manager self) _ _ _ _ _ Hv).
  - by apply run_invalid.
Qed.

(** A run with the cache manager injected, whose cache write is refused,
    returns what the run without cache manager returns, with the sentinel as
    [cache_id]. *)
Lemma run_survives_failed_write self args now_id now_created params_id w r w0 :
  cache_manager self = false ->
  run self args now_id now_created params_id w = (Ok r, w0) ->
  Cache.denied w Cache.OpWrite
    (Cache.result_file_of (Cache.self w)
       (Cache.generate_test_id (value (test_type self)) now_id params_id)) = true ->
  exists w',
    run (inject_cache_manager self) args now_id now_created params_id w
    = (Ok (TestResult.with_cache_id r
             (Some ("cache_error_"
                    +:+ Cache.generate_test_id (value (test_type self))
                          now_id params_id))), w').
Proof.
  intros Hcm Hrun Hden. unfold run in *. st_unfold. simpl.
  destruct (validate_input self args) as [[|]|x]; simpl in *; [|done..].
  destruct (check_assumptions self args) as [assumptions|x]; simpl in *; [|done].
  destruct (compute_statistic self args) as [[statistic p_value]|x]; simpl in *;
    [|done].
  destruct (interpret_result self _ _ _) as [interpretation|x]; simpl in *;
    [|done].
  destruct (generate_recommendation self _ _) as [recommendation|x];
    simpl in *; [|done].
  destruct (calculate_effect_size self args) as [effect_size|x]; simpl in *;
    [|done].
  destruct (calculate_confidence_interval self args) as [ci|x]; simpl in *;
    [|done].
  unfold cache_detailed_results in *. rewrite Hcm in Hrun. simpl in *.
  st_unfold.
  destruct (cache_result_write_fails (value (test_type self))
              [("statistic", JFloat statistic); ("p_value", JFloat p_value)]
              None now_id now_created params_id w) as (w1 & Hc & _);
    [by left|].
  rewrite Hc. simpl.
  destruct (get_null_hypothesis self) as [h0|x]; simpl in *; [|done].
  destruct (get_alternative_hypothesis self) as [h1|x]; simpl in *; [|done].
  destruct (get_sample_sizes self args) as [sizes|x]; simpl in *; [|done].
  injection Hrun as <- <-. by eexists.
Qed.

(** C7. A failed write of the payload or of the raw-data file does not make
    [cache_result] raise: it returns the sentinel ["cache_error_" + test_id],
    which no identifier equals, and leaves the index alone; a pipeline run
    whose cache write fails still returns its result, with the sentinel as
    cache identifier. *)
Theorem cache_write_failure_is_soft :
  (forall s, String.length (sha256_hexdigest s) = 64%nat) ->
  (forall test_type test_result raw_data now_id now_created params_id w,
     let test_id := Cache.generate_test_id test_type now_id params_id in
     Cache.denied w Cache.OpWrite
       (Cache.result_file_of (Cache.self w) test_id) = true
     \/ (Cache.writes_raw_data raw_data = true
         /\ Cache.denied w Cache.OpWrite
              (Cache.data_file_of (Cache.self w) test_id) = true) ->
     (exists w1,
        Cache.cache_result test_type test_result raw_data now_id now_created
          params_id w
        = (Ok ("cache_error_" +:+ test_id), w1)
        /\ Cache.self w1 = Cache.self w)
     /\ forall test_type' now_id' params_id',
          "cache_error_" +:+ test_id
          <> Cache.generate_test_id test_type' now_id' params_id')
  /\ (forall self args now_id now_created params_id w r w0,
        cache_manager self = false ->
        run self args now_id now_created params_id w = (Ok r, w0) ->
        let test_id :=
          Cache.generate_test_id (value (test_type self)) now_id params_id in
        Cache.denied w Cache.OpWrite
          (Cache.result_file_of (Cache.self w) test_id) = true ->
        exists w',
          run (inject_cache_manager self) args now_id now_created params_id w
          = (Ok (TestResult.with_cache_id r (Some ("cache_error_" +:+ test_id))),
             w')).
Proof.
  intros Hsha. split.
  - intros test_type test_result raw_data now_id now_created params_id w
      test_id Hfail.
    split.
    + by apply cache_result_write_fails.
    + intros. by apply sentinel_is_no_identifier.
  - intros self args now_id now_created params_id w r w0 Hcm Hrun test_id Hden.
    by apply (run_survives_failed_write self args _ _ _ w r w0).
Qed.

End PipelineFacts.

(** ** The test classes *)

Section TestsFacts.
Context `{Platform} `{StatsLib}.
Import BaseHypothesisTest Tests.
Implicit Types (args : list sample) (w : Cache.world) (r : TestResult.t).

Lemma len_neq {A} (a b : list A) :
  length a <> length b -> (len a =? len b) = false.
Proof. intros Hne. apply Z.eqb_neq. unfold len. lia. Qed.

(** C2. The paired strategies (paired t-test, Wilcoxon signed-rank) refuse
    two arrays of unequal length: [validate_input] returns false and the
    run raises the validation error naming the variant; no result is
    produced and the cache is left untouched, with or without a cache
    manager injected. *)
Theorem paired_rejects_unequal_length
    (alpha : float) (p : TestParams) (cached : bool) (before after : sample)
    (now_id now_created params_id : Z) w :
  length before <> length after ->
  (validate_input (PairedTTest alpha p) [before; after] = Ok false
   /\ run (with_cache cached (PairedTTest alpha p)) [before; after]
          now_id now_created params_id w
      = (Raise (ValueError "Input validation failed for paired_t_test"), w))
  /\ (validate_input (WilcoxonSignedRankTest alpha p) [before; after] = Ok false
      /\ run (with_cache cached (WilcoxonSignedRankTest alpha p)) [before; after]
             now_id now_created params_id w
         = (Raise (ValueError "Input validation failed for wilcoxon_signed_rank"),
            w)).
Proof.
  intros Hne.
  assert (validate_input (PairedTTest alpha p) [before; after] = Ok false) as H1.
  { simpl. by rewrite len_neq. }
  assert (validate_input (WilcoxonSignedRankTest alpha p) [before; after]
          = Ok false) as H2.
  { simpl. by rewrite len_neq. }
  split; (split; [done|]).
  - by rewrite run_with_cache_invalid.
  - by rewrite run_with_cache_invalid.
Qed.

(** C10. The Shapiro-Wilk strategy also has an upper size limit: on a
    NaN-free sample of more than 5000 observations [validate_input] returns
    false, and the run raises the validation error. *)
Theorem shapiro_rejects_large_sample
    (alpha : float) (p : TestParams) (cached : bool) (data : sample)
    (now_id now_created params_id : Z) w :
  any_isnan data = false ->
  5000 < len data ->
  validate_input (ShapiroWilkTest alpha p) [data] = Ok false
  /\ run (with_cache cached (ShapiroWilkTest alpha p)) [data]
         now_id now_created params_id w
     = (Raise (ValueError "Input validation failed for shapiro_wilk"), w).
Proof.
  intros _ Hlen.
  assert (validate_input (ShapiroWilkTest alpha p) [data] = Ok false) as Hv.
  { simpl. replace (len data <=? 5000) with false by (symmetry; apply Z.leb_gt; lia).
    by rewrite andb_false_r. }
  split; [done|]. by rewrite run_with_cache_invalid.
Qed.

(** *** Recommendations *)




Lemma groups_valid_all_len_ge n groups :
  groups_valid n groups = true -> all_len_ge n groups = true.
Proof.
  induction groups as [|g groups IH]; simpl; [done|].
  destruct (len g <? n) eqn:E; simpl; [done|].
  destruct (any_isnan g); [done|]. intros Hg.
  rewrite IH by done. rewrite andb_true_r. apply Z.leb_le.
  apply Z.ltb_ge in E. lia.
Qed.

(** Validation leaves the Shapiro-Wilk and Levene classes no assumption to
    miss. *)
Lemma shapiro_assumptions_met alpha p args a :
  validate_input (ShapiroWilkTest alpha p) args = Ok true ->
  check_assumptions (ShapiroWilkTest alpha p) args = Ok a ->
  unmet a = [].
Proof.
  simpl. unfold on1. destruct args as [|data [|]]; try done.
  intros [= Hv] [= <-]. simpl.
  apply andb_prop in Hv as [Hv ->]. by rewrite Hv.
Qed.

Lemma levene_assumptions_met alpha p args a :
  validate_input (LeveneTest alpha p) args = Ok true ->
  check_assumptions (LeveneTest alpha p) args = Ok a ->
  unmet a = [].
Proof.
  simpl. unfold validate_groups.
  destruct (len args <? 2) eqn:E; [done|].
  intros [= Hv] [= <-]. simpl.
  rewrite (groups_valid_all_len_ge _ _ Hv).
  apply Z.ltb_ge in E. by replace (2 <=? len args) with true
    by (symmetry; apply Z.leb_le; lia).
Qed.








End TestsFacts.

(** ** The suggestion engine *)

Section SuggesterFacts.
Context `{Platform} `{StatsLib}.
Import TestSuggester.

Lemma analyze_data_single data chars :
  analyze_data [data] = Ok chars -> n_groups chars = 1.
Proof.
  unfold analyze_data, rbind.
  destruct (_check_normality [data]) as [normal|x]; [|done].
  replace (2 <=? len [data]) with false by done.
  destruct (_check_outliers [data]) as [outliers|x]; [|done].
  by intros [= <-].
Qed.

(** C8. On a single group the suggestion engine takes the one-sample branch:
    continuous data that is normal or adequately sized gets the one-sample
    t-test, continuous data that is neither gets the Wilcoxon signed-rank
    test, and data that is not continuous gets the sign test. *)
Theorem suggest_one_sample_branch
    (data : sample) (mu0 : option float) (chars : DataCharacteristics) :
  analyze_data [data] = Ok chars ->
  exists s,
    suggest_test [data] mu0 = Ok s
    /\ s = _suggest_one_sample_test chars mu0
    /\ (data_type chars = "continuous" ->
        is_normal chars = true \/ sample_size_adequate chars = true ->
        primary_test s = "one_sample_t_test")
    /\ (data_type chars = "continuous" ->
        is_normal chars = false -> sample_size_adequate chars = false ->
        primary_test s = "wilcoxon_signed_rank")
    /\ (data_type chars <> "continuous" -> primary_test s = "sign_test").
Proof.
  intros Ha. exists (_suggest_one_sample_test chars mu0).
  split.
  { unfold suggest_test. rewrite Ha. simpl.
    by rewrite (analyze_data_single _ _ Ha). }
  split; [done|]. unfold _suggest_one_sample_test.
  repeat split.
  - intros -> [->| ->]; simpl; [done|]. by rewrite orb_true_r.
  - by intros -> -> ->.
  - intros Hne. apply String.eqb_neq in Hne. by rewrite Hne.
Qed.

End SuggesterFacts.

(** ** More on the result cache *)

Section CacheContracts.
Context `{Platform}.
Import Cache.
Implicit Types (w : world) (c : CacheManager) (e : IndexEntry).

Ltac st_unfold :=
  unfold St.bind, St.try_except, St.ret, St.raise, St.get, St.lift,
    St.modify in *.

(** *** [delete_result] *)

Lemma delete_result_absent test_id w :
  dict_get (entries (self w)) test_id = None ->
  delete_result test_id w = (Ok tt, w).
Proof. intros Hd. unfold delete_result. st_unfold. by rewrite Hd. Qed.

(** X1. On an identifier that is not in the index [delete_result]
    returns at once and changes nothing.  Whenever [delete_result] returns,
    the identifier is not in the index afterwards and [get_result] on it
    returns not-found, while every other identifier has the entry it had. *)
Theorem delete_result_forgets (test_id : string) (w : world) :
  let after := delete_result test_id w in
  (dict_get (entries (self w)) test_id = None -> after = (Ok tt, w))
  /\ (after.1 = Ok tt ->
      dict_get (entries (self after.2)) test_id = None
      /\ (forall k, k <> test_id ->
            dict_get (entries (self after.2)) k = dict_get (entries (self w)) k)
      /\ (forall inc, get_result test_id inc after.2 = (Ok None, after.2))).
Proof.
  intros after. subst after. split.
  - apply delete_result_absent.
  - intros _.
    destruct (delete_result_run test_id w) as (w' & Hrun & Hs & _).
    rewrite Hrun. simpl.
    assert (dict_get (entries (self w')) test_id = None) as Hgone.
    { rewrite Hs. simpl. apply dict_get_del_eq. }
    split; [done|]. split.
    + intros k Hne. rewrite Hs. simpl. apply dict_get_del_ne. congruence.
    + intros inc. by apply get_result_absent.
Qed.

(** The file part of [delete_result], when the entry has a result file on
    disk. *)
Lemma delete_result_unlinks test_id e w :
  dict_get (entries (self w)) test_id = Some e ->
  result_file e <> index_file (self w) ->
  denied w OpUnlink (result_file e) = false ->
  files (delete_result test_id w).2 !! result_file e = None.
Proof.
  intros Hd Hidx Hun. unfold delete_result. st_unfold. simpl. rewrite Hd.
  match goal with
  | |- context [let (_, _) := ?m in _] =>
      assert (exists w0, m = (Ok tt, w0) /\ self w0 = self w
                         /\ denied w0 = denied w
                         /\ files w0 !! result_file e = None)
        as (w0 & -> & Hs & Hdn & Hf)
  end.
  { unfold path_exists, unlink. simpl.
    destruct (files w !! result_file e) as [txt|] eqn:Hfile.
    - rewrite bool_decide_eq_true_2 by eauto. simpl. rewrite Hun, Hfile. simpl.
      assert (forall q, delete q (delete (result_file e) (files w))
                        !! result_file e = None) as Hdel.
      { intros q. destruct (decide (q = result_file e)) as [->|Hne].
        - apply lookup_delete_eq.
        - rewrite lookup_delete_ne by done. apply lookup_delete_eq. }
      repeat first [ case_match | simplify_eq/= ]; eexists;
        (split; [reflexivity|]); simpl; repeat split; try done;
        rewrite ?Hdel, ?lookup_delete_eq; done.
    - rewrite bool_decide_eq_false_2 by (by intros [? ?]). simpl.
      assert (forall q, delete q (files w) !! result_file e = None) as Hdel.
      { intros q. destruct (decide (q = result_file e)) as [->|Hne].
        - apply lookup_delete_eq.
        - by rewrite lookup_delete_ne. }
      repeat first [ case_match | simplify_eq/= ]; eexists;
        (split; [reflexivity|]); simpl; repeat split; try done;
        rewrite ?Hdel; done. }
  rewrite save_index_run. simpl. rewrite Hs, Hdn.
  change (index_file (set_entries _ (self w))) with (index_file (self w)).
  case_match; simpl; [done|]. by rewrite lookup_insert_ne.
Qed.

Lemma delete_result_refused test_id e w p :
  dict_get (entries (self w)) test_id = Some e ->
  is_Some (files w !! result_file e) ->
  denied w OpUnlink (result_file e) = true ->
  p <> index_file (self w) ->
  files (delete_result test_id w).2 !! p = files w !! p.
Proof.
  intros Hd Hex Hun Hidx. unfold delete_result. st_unfold. simpl. rewrite Hd.
  unfold path_exists, unlink. simpl.
  rewrite bool_decide_eq_true_2 by done. simpl. rewrite Hun. simpl.
  rewrite save_index_run. simpl.
  change (index_file (set_entries _ (self w))) with (index_file (self w)).
  case_match; simpl; [done|]. by rewrite lookup_insert_ne.
Qed.

(** X2. The files of a deleted entry.  When the unlink is allowed the
    result file is gone after [delete_result], whether or not it existed.
    When the result file exists and its unlink is refused, the failure is
    swallowed: the entry leaves the index all the same, while no file other
    than the index file changes, so the result file and the raw-data file
    stay behind without an entry. *)
Theorem delete_result_files (test_id : string) (e : IndexEntry) (w : world) :
  dict_get (entries (self w)) test_id = Some e ->
  result_file e <> index_file (self w) ->
  let after := (delete_result test_id w).2 in
  (denied w OpUnlink (result_file e) = false ->
   files after !! result_file e = None)
  /\ (is_Some (files w !! result_file e) ->
      denied w OpUnlink (result_file e) = true ->
      dict_get (entries (self after)) test_id = None
      /\ forall p, p <> index_file (self w) -> files after !! p = files w !! p).
Proof.
  intros Hd Hidx after. subst after. split.
  - intros Hun. by apply (delete_result_unlinks test_id e).
  - intros Hex Hun. split.
    + destruct (delete_result_run test_id w) as (w' & -> & Hs & _). simpl.
      rewrite Hs. simpl. apply dict_get_del_eq.
    + intros p Hp. by apply (delete_result_refused test_id e).
Qed.

(** *** [clear_all] *)

Lemma mem_dict_keys {V} (d : dict V) k v :
  In (k, v) d -> mem k (dict_keys d) = true.
Proof.
  intros Hin. apply mem_In. unfold dict_keys.
  by apply (in_map fst) in Hin.
Qed.

Lemma filter_none {A} (f : A -> bool) (l : list A) :
  (forall x, In x l -> f x = false) -> List.filter f l = [].
Proof.
  induction l as [|x l IH]; simpl; [done|]. intros Hall.
  rewrite (Hall x) by (by left). apply IH. intros y Hy. apply Hall. by right.
Qed.

(** X3. Whenever [clear_all] returns, the index is empty: [get_result]
    returns not-found for every identifier and the listing of the cached
    tests is empty, while the configuration of the cache manager is kept.
    On an empty index [clear_all] returns at once and changes nothing. *)
Theorem clear_all_empties (w : world) :
  let after := clear_all w in
  (entries (self w) = [] -> after = (Ok tt, w))
  /\ (after.1 = Ok tt ->
      entries (self after.2) = []
      /\ cache_dir (self after.2) = cache_dir (self w)
      /\ ttl_hours (self after.2) = ttl_hours (self w)
      /\ (forall test_id inc,
            get_result test_id inc after.2 = (Ok None, after.2))
      /\ list_cached_tests after.2 = (Ok [], after.2)).
Proof.
  intros after. subst after. unfold clear_all. st_unfold. split.
  { by intros ->. }
  intros _.
  destruct (for_each_delete_run (dict_keys (entries (self w))) w)
    as (w' & -> & Hs & _). simpl.
  assert (entries (self w') = []) as Hnil.
  { rewrite Hs. simpl. rewrite foldl_dict_del_filter. apply filter_none.
    intros [k e] Hin. simpl. by rewrite (mem_dict_keys _ k e). }
  split; [done|]. rewrite Hs. simpl.
  split; [done|]. split; [done|]. split.
  - intros test_id inc. apply get_result_absent. by rewrite Hnil.
  - unfold list_cached_tests. st_unfold. by rewrite Hnil.
Qed.

(** *** [list_cached_tests] *)

Lemma ltb_asym (a b : string) : String.ltb a b = true -> String.ltb b a = false.
Proof.
  unfold String.ltb. rewrite (String.compare_antisym b a).
  by destruct (String.compare a b).
Qed.

Lemma insert_desc_perm x l : insert_desc x l ≡ₚ x :: l.
Proof.
  induction l as [|y l IH]; simpl; [done|].
  destruct (String.ltb (ct_created x) (ct_created y)); [|done].
  rewrite IH. apply Permutation_swap.
Qed.

Lemma sorted_desc_perm l : sorted_desc l ≡ₚ l.
Proof.
  unfold sorted_desc. induction l as [|x l IH]; simpl; [done|].
  rewrite insert_desc_perm. by rewrite IH.
Qed.

Lemma insert_desc_descending x l :
  descending l = true -> descending (insert_desc x l) = true.
Proof.
  induction l as [|y l IH]; simpl; [done|].
  destruct (String.ltb (ct_created x) (ct_created y)) eqn:E.
  - intros Hd. destruct l as [|z l]; simpl in *.
    + by rewrite (ltb_asym _ _ E).
    + apply andb_prop in Hd as [Hyz Hd].
      destruct (String.ltb (ct_created x) (ct_created z)) eqn:E'.
      * rewrite Hyz. simpl. apply IH. exact Hd.
      * rewrite (ltb_asym _ _ E). simpl. rewrite E'. simpl. exact Hd.
  - intros Hd. simpl. rewrite E. simpl. exact Hd.
Qed.

Lemma sorted_desc_descending l : descending (sorted_desc l) = true.
Proof.
  unfold sorted_desc. induction l as [|x l IH]; simpl; [done|].
  by apply insert_desc_descending.
Qed.

Lemma collect_tests_ok (d : dict IndexEntry) :
  Forall (fun kv => created kv.2 <> None) d ->
  exists tests,
    collect_tests d = Ok tests
    /\ map ct_test_id tests = dict_keys d
    /\ Forall (fun t => lists_entry t d) tests.
Proof.
  induction 1 as [|[k e] d Hc Hd (tests & Hrun & Hkeys & Hall)]; simpl.
  - by exists [].
  - simpl in Hc. destruct (created e) as [s|] eqn:Hs; [|done]. simpl.
    rewrite Hrun. simpl. eexists. split; [reflexivity|]. simpl.
    split; [by rewrite Hkeys|]. constructor.
    + exists e. simpl. split; [by left|]. by rewrite Hs.
    + eapply Forall_impl; [exact Hall|]. intros t (e' & Hin & Hrest).
      exists e'. split; [by right|done].
Qed.

Lemma collect_tests_raise (d : dict IndexEntry) k e :
  In (k, e) d -> created e = None -> collect_tests d = Raise (KeyError "created").
Proof.
  induction d as [|[k' e'] d IH]; simpl; [done|].
  intros [[= -> ->]|Hin] Hnone.
  - by rewrite Hnone.
  - destruct (created e'); simpl; [|done]. by rewrite IH.
Qed.

(** X4. When every entry of the index has a [created] key,
    [list_cached_tests] returns one record for each identifier of the index
    (the identifiers of the listing are those of the index, rearranged),
    each record carries the type, the timestamp and the raw-data flag of the
    entry of its identifier, and the listing is in descending order of
    [created]; the cache is left as it was. *)
Theorem list_cached_tests_sorted (w : world) :
  Forall (fun kv => created kv.2 <> None) (entries (self w)) ->
  exists listed,
    list_cached_tests w = (Ok listed, w)
    /\ map ct_test_id listed ≡ₚ dict_keys (entries (self w))
    /\ Forall (fun t => lists_entry t (entries (self w))) listed
    /\ descending listed = true.
Proof.
  intros Hall.
  destruct (collect_tests_ok _ Hall) as (tests & Hrun & Hkeys & Hent).
  exists (sorted_desc tests). unfold list_cached_tests. st_unfold.
  rewrite Hrun. split; [done|]. split; [|split].
  - rewrite <- Hkeys. apply Permutation_map. apply sorted_desc_perm.
  - rewrite List.Forall_forall in *. intros t Hin. apply Hent.
    apply list_elem_of_In. rewrite <- (sorted_desc_perm tests).
    by apply list_elem_of_In.
  - apply sorted_desc_descending.
Qed.

(** X5. An index entry without a [created] key makes [list_cached_tests]
    raise [KeyError], where the expiry sweep would have deleted the entry;
    the cache is left as it was. *)
Theorem list_cached_tests_missing_created
    (w : world) (test_id : string) (e : IndexEntry) :
  In (test_id, e) (entries (self w)) ->
  created e = None ->
  list_cached_tests w = (Raise (KeyError "created"), w)
  /\ forall now t, entry_expired now t e = Ok true.
Proof.
  intros Hin Hnone. split.
  - unfold list_cached_tests. st_unfold.
    by rewrite (collect_tests_raise _ _ _ Hin Hnone).
  - intros now t. apply entry_expired_invalid. by left.
Qed.


(** *** Raw data *)

Lemma data_file_ne_index_file c test_id : data_file_of c test_id <> index_file c.
Proof.
  unfold data_file_of, index_file, test_results_dir.
  rewrite !str_app_assoc. intros Hp. apply String.app_inj in Hp.
  rewrite !str_app_cons in Hp. done.
Qed.

Lemma data_file_truthy c test_id : truthy_str (data_file_of c test_id) = true.
Proof.
  unfold truthy_str. apply negb_true_iff, String.eqb_neq. intros Hp.
  apply (f_equal String.length) in Hp. unfold data_file_of in Hp.
  rewrite !str_length_app in Hp. simpl in Hp. lia.
Qed.

Lemma cache_result_run_raw test_type test_result kv rd now_id now_created
    params_id w :
  let test_id := generate_test_id test_type now_id params_id in
  let raw_data := Some (kv :: rd) in
  denied w OpWrite (result_file_of (self w) test_id) = false ->
  denied w OpWrite (data_file_of (self w) test_id) = false ->
  exists w1,
    cache_result test_type test_result raw_data now_id now_created params_id w
    = (Ok test_id, w1)
    /\ self w1 =
       set_entries (fun d => dict_set d test_id
                     (new_entry (self w) test_type test_id raw_data now_created))
         (self w)
    /\ denied w1 = denied w
    /\ files w1 !! result_file_of (self w) test_id
       = Some (json_dumps (JObj test_result))
    /\ files w1 !! data_file_of (self w) test_id
       = Some (json_dumps (JObj (kv :: rd))).
Proof.
  intros test_id raw_data Hres Hdata. unfold cache_result. fold test_id.
  unfold write_text. st_unfold. simpl. rewrite Hres. simpl. rewrite Hdata.
  assert (forall f, index_file (set_entries f (self w)) = index_file (self w))
    as Hidx by done.
  pose proof (result_file_ne_index_file (self w) test_id) as Hne1.
  pose proof (result_file_ne_data_file (self w) test_id) as Hne2.
  pose proof (data_file_ne_index_file (self w) test_id) as Hne3.
  simpl. rewrite save_index_run. simpl. rewrite Hidx.
  eexists. split; [reflexivity|].
  case_match; simpl; (split; [done|]); (split; [done|]);
    split; by simplify_map_eq.
Qed.

(** X6. Raw data round trip.  When [cache_result] is given a non-empty
    [raw_data] and both of its files can be written and read, [get_result]
    with [include_raw_data] returns the payload with the raw data under the
    key ["raw_data"] (replacing a value the payload had under that key),
    and without [include_raw_data] it returns the payload alone. *)
Theorem cache_round_trip_raw_data
    (test_type : string) (test_result : dict jval) (kv : string * jval)
    (rd : dict jval) (now_id now_created params_id : Z) (w : world) :
  (forall v, json_loads (json_dumps v) = Some v) ->
  let test_id := generate_test_id test_type now_id params_id in
  denied w OpWrite (result_file_of (self w) test_id) = false ->
  denied w OpWrite (data_file_of (self w) test_id) = false ->
  denied w OpRead (result_file_of (self w) test_id) = false ->
  denied w OpRead (data_file_of (self w) test_id) = false ->
  let written :=
    cache_result test_type test_result (Some (kv :: rd)) now_id now_created
      params_id w in
  written.1 = Ok test_id
  /\ get_result test_id true written.2
     = (Ok (Some (JObj (dict_set test_result "raw_data" (JObj (kv :: rd))))),
        written.2)
  /\ dict_get (dict_set test_result "raw_data" (JObj (kv :: rd))) "raw_data"
     = Some (JObj (kv :: rd))
  /\ get_result test_id false written.2
     = (Ok (Some (JObj test_result)), written.2).
Proof.
  intros Hjson test_id Hres Hdata Hread Hreadd written.
  destruct (cache_result_run_raw test_type test_result kv rd now_id
              now_created params_id w Hres Hdata)
    as (w1 & Hrun & Hself & Hden & Hfile & Hfiled).
  fold test_id in Hrun, Hself, Hfile, Hfiled. subst written. rewrite Hrun. simpl.
  set (e := new_entry (self w) test_type test_id (Some (kv :: rd)) now_created)
    in *.
  assert (dict_get (entries (self w1)) test_id = Some e) as Hget.
  { rewrite Hself. simpl. apply dict_get_set_eq. }
  split; [done|]. split; [|split].
  - unfold get_result, path_exists. st_unfold. rewrite Hget. simpl.
    rewrite Hfile. rewrite bool_decide_eq_true_2 by eauto. simpl.
    rewrite (json_load_run _ (json_dumps (JObj test_result)) (JObj test_result))
      by (by rewrite ?Hden).
    rewrite data_file_truthy. simpl. rewrite Hfiled.
    rewrite bool_decide_eq_true_2 by eauto. simpl.
    rewrite (json_load_run _ (json_dumps (JObj (kv :: rd))) (JObj (kv :: rd)))
      by (by rewrite ?Hden).
    done.
  - apply dict_get_set_eq.
  - eapply get_result_plain; [exact Hget| | |apply Hjson]; simpl.
    + by rewrite Hden.
    + done.
Qed.

(** *** Reads that find no usable file *)

(** X7. [get_result] on an identifier of the index whose result file is
    missing, cannot be opened, or holds text that is not a JSON document
    returns not-found instead of raising, and [get_cached_result] of the
    server then answers with its error object.  A result file that is not
    valid UTF-8 is another matter: the [UnicodeDecodeError] of the read is
    not among the exceptions [get_result] catches, and comes out of
    [get_result] and of [get_cached_result].  Nothing is changed in either
    case. *)
Theorem get_result_unusable_file
    (test_id : string) (e : IndexEntry) (include_raw_data : bool) (w : world) :
  dict_get (entries (self w)) test_id = Some e ->
  (files w !! result_file e = None
   \/ denied w OpRead (result_file e) = true
   \/ (exists txt, files w !! result_file e = Some txt
                   /\ json_loads txt = None /\ undecodable txt = false) ->
   get_result test_id include_raw_data w = (Ok None, w)
   /\ Server.get_cached_result test_id include_raw_data w
      = (Ok (JObj [("error", JStr "Cache entry not found or expired")]), w))
  /\ (denied w OpRead (result_file e) = false ->
      (exists txt, files w !! result_file e = Some txt
                   /\ json_loads txt = None /\ undecodable txt = true) ->
      get_result test_id include_raw_data w = (Raise UnicodeDecodeError, w)
      /\ Server.get_cached_result test_id include_raw_data w
         = (Raise UnicodeDecodeError, w)).
Proof.
  intros Hd. split.
  - intros Hcase.
    assert (get_result test_id include_raw_data w = (Ok None, w)) as Hget.
    { unfold get_result, path_exists, json_load, read_text. st_unfold.
      rewrite Hd. simpl.
      destruct Hcase as [Hnone|[Hden|(txt & Hf & Hl & Hu)]].
      - rewrite Hnone. by rewrite bool_decide_eq_false_2 by (by intros [? ?]).
      - destruct (files w !! result_file e) as [txt|] eqn:Hf.
        + rewrite bool_decide_eq_true_2 by eauto. simpl. by rewrite Hden.
        + by rewrite bool_decide_eq_false_2 by (by intros [? ?]).
      - rewrite Hf. rewrite bool_decide_eq_true_2 by eauto. simpl.
        destruct (denied w OpRead (result_file e)); simpl; [done|].
        rewrite Hf. simpl. by rewrite Hl, Hu. }
    split; [done|]. unfold Server.get_cached_result. st_unfold. by rewrite Hget.
  - intros Hden (txt & Hf & Hl & Hu).
    assert (get_result test_id include_raw_data w
            = (Raise UnicodeDecodeError, w)) as Hget.
    { unfold get_result, path_exists, json_load, read_text. st_unfold.
      rewrite Hd. simpl. rewrite Hf.
      rewrite bool_decide_eq_true_2 by eauto. simpl.
      rewrite Hden. simpl. rewrite Hf. simpl. by rewrite Hl, Hu. }
    split; [done|]. unfold Server.get_cached_result. st_unfold. by rewrite Hget.
Qed.

(** *** The expiry sweep, entry by entry *)

Lemma filter_ext_In {A} (f g : A -> bool) (l : list A) :
  (forall x, In x l -> f x = g x) -> List.filter f l = List.filter g l.
Proof.
  induction l as [|x l IH]; simpl; [done|]. intros Hall.
  rewrite (Hall x) by (by left). rewrite IH; [done|].
  intros y Hy. apply Hall. by right.
Qed.

Lemma kept_by_sweep_spec now t e :
  kept_by_sweep now t e = true
  <-> exists s us,
        created e = Some s /\ fromisoformat s = Some (Naive us) /\ now - us <= t.
Proof.
  unfold kept_by_sweep, entry_expired, parse_created, naive_minus, rtry, rbind.
  destruct (created e) as [s|]; simpl.
  - destruct (fromisoformat s) as [[us|us off]|] eqn:Hf; simpl.
    + destruct (t <? now - us) eqn:E.
      * split; [done|]. intros (s' & us' & [= <-] & Hf' & Hle).
        rewrite Hf in Hf'. injection Hf' as <-. apply Z.ltb_lt in E. lia.
      * split; [|done]. intros _. exists s, us. apply Z.ltb_ge in E. done.
    + split; [done|]. intros (s' & us' & [= <-] & Hf' & _). congruence.
    + split; [done|]. intros (s' & us' & [= <-] & Hf' & _). congruence.
  - split; [done|]. by intros (s' & us' & ? & _).
Qed.

(** X8. Whenever an expiry sweep returns, it has left exactly the entries
    that are not expired, in the order they had; [last_cleanup] is the time
    of the sweep and the configuration is kept.  An entry is not expired
    when its [created] parses to a time that lies at most the time-to-live
    back. *)
Theorem cleanup_keeps_exactly_the_fresh (current_time : Z) (w : world) :
  NoDup (dict_keys (entries (self w))) ->
  let swept := _cleanup_expired current_time w in
  swept.1 = Ok tt ->
  entries (self swept.2)
  = List.filter (fun kv => kept_by_sweep current_time (ttl (self w)) kv.2)
      (entries (self w))
  /\ last_cleanup (self swept.2) = Some (isoformat current_time)
  /\ cache_dir (self swept.2) = cache_dir (self w)
  /\ ttl_hours (self swept.2) = ttl_hours (self w)
  /\ (forall e,
        kept_by_sweep current_time (ttl (self w)) e = true
        <-> exists s us,
              created e = Some s
              /\ fromisoformat s = Some (Naive us)
              /\ current_time - us <= ttl (self w)).
Proof.
  intros Hnodup swept. subst swept. intros Hok.
  destruct (expired_ids current_time (ttl (self w)) (entries (self w)))
    as [ids|x] eqn:Hx; [|by rewrite (cleanup_run_raise _ _ _ Hx) in Hok].
  destruct (cleanup_self current_time w ids Hx) as (H1 & Hs & _).
  rewrite Hs. simpl.
  split; [|repeat split; try done; apply kept_by_sweep_spec].
  rewrite foldl_dict_del_filter. apply filter_ext_In. intros [k e] Hin. simpl.
  pose proof (expired_ids_inv _ _ _ _ Hx) as Hall.
  rewrite List.Forall_forall in Hall.
  destruct (Hall _ Hin) as (b & Hb & Hyes). simpl in *.
  unfold kept_by_sweep. rewrite Hb. destruct b.
  - by rewrite (proj2 (mem_In k ids) (Hyes eq_refl)).
  - destruct (mem k ids) eqn:Hmem; [|done]. apply mem_In in Hmem.
    destruct (expired_ids_In _ _ _ _ _ Hx Hmem) as (e' & He' & Hexp).
    pose proof (dict_get_unique _ _ _ Hnodup He') as Hg.
    pose proof (dict_get_unique _ _ _ Hnodup Hin) as Hg'.
    congruence.
Qed.

Lemma entry_expired_raises now t e x :
  entry_expired now t e = Raise x ->
  x = TypeError "can't subtract offset-naive and offset-aware datetimes".
Proof.
  unfold entry_expired, parse_created, naive_minus, rtry, rbind.
  destruct (created e) as [s|]; simpl; [|done].
  destruct (fromisoformat s) as [[us|us off]|]; simpl; try done.
  by intros [= <-].
Qed.

Lemma expired_ids_aware now t (d : dict IndexEntry) k e s us off :
  In (k, e) d -> created e = Some s -> fromisoformat s = Some (Aware us off) ->
  expired_ids now t d
  = Raise (TypeError "can't subtract offset-naive and offset-aware datetimes").
Proof.
  intros Hin Hs Hiso. induction d as [|[k' e'] d IH]; simpl; [done|].
  destruct Hin as [[= -> ->]|Hin].
  - unfold entry_expired, parse_created. rewrite Hs. simpl. by rewrite Hiso.
  - destruct (entry_expired now t e') as [b|x] eqn:Eb; simpl.
    + by rewrite IH.
    + by rewrite (entry_expired_raises _ _ _ _ Eb).
Qed.

(** X9. One offset-aware [created] timestamp anywhere in the index makes
    the sweep raise [TypeError] before anything is deleted: the cache
    manager and the files are as they were, entries that are expired
    included, and [last_cleanup] is not updated. *)
Theorem cleanup_offset_aware_raises
    (current_time : Z) (w : world) (test_id : string) (e : IndexEntry)
    (s : string) (us off : Z) :
  In (test_id, e) (entries (self w)) ->
  created e = Some s ->
  fromisoformat s = Some (Aware us off) ->
  _cleanup_expired current_time w
  = (Raise (TypeError "can't subtract offset-naive and offset-aware datetimes"),
     w).
Proof.
  intros Hin Hs Hiso. apply cleanup_run_raise.
  by apply (expired_ids_aware _ _ _ test_id e s us off).
Qed.

(** C6. The sweep does not delete every entry whose creation timestamp is
    missing or cannot be parsed.  On an index that also holds an
    offset-aware timestamp the first loop raises [TypeError], which its
    [except] clause does not list: the sweep ends there with the cache
    manager and the files as they were, and the entry without a usable
    timestamp stays in the index, although the loop counts such an entry as
    expired. *)
Theorem cleanup_aware_index_keeps_invalid_entry
    (current_time : Z) (w : world) (test_id : string) (entry : IndexEntry)
    (other : string) (e : IndexEntry) (s : string) (us off : Z) :
  dict_get (entries (self w)) test_id = Some entry ->
  invalid_created entry ->
  In (other, e) (entries (self w)) ->
  created e = Some s ->
  fromisoformat s = Some (Aware us off) ->
  let swept := _cleanup_expired current_time w in
  entry_expired current_time (ttl (self w)) entry = Ok true
  /\ swept.1
     = Raise (TypeError "can't subtract offset-naive and offset-aware datetimes")
  /\ swept.2 = w
  /\ dict_get (entries (self swept.2)) test_id = Some entry.
Proof.
  intros Hget Hinv Hin Hs Hiso swept. subst swept.
  rewrite (cleanup_run_raise current_time w _
             (expired_ids_aware _ _ _ other e s us off Hin Hs Hiso)).
  simpl. split; [by apply entry_expired_invalid|]. by repeat split.
Qed.

(** *** The index file *)






(** *** Two writes under one identifier *)

Lemma dict_set_length_present {V} (d : dict V) k v v' :
  dict_get d k = Some v' -> length (dict_set d k v) = length d.
Proof.
  induction d as [|[k0 v0] d IH]; simpl; [done|].
  destruct (String.eqb k0 k); simpl; [done|]. intros Hd. by rewrite IH.
Qed.

(** X28. The last write wins.  When two calls of [cache_result] generate
    the same identifier (the same clock reading and object identity, or a
    collision of the digest prefix) and the result file can be written and
    read, [get_result] returns the payload of the second call; the second
    call adds no entry to the index, and the two calls together leave the
    entry of every other identifier as it was and the identifiers of the
    index free of duplicates. *)
Theorem cache_result_last_write_wins
    (type1 type2 : string) (result1 result2 : dict jval)
    (now_id1 now_created1 params_id1 now_id2 now_created2 params_id2 : Z)
    (w : world) :
  (forall v, json_loads (json_dumps v) = Some v) ->
  let test_id := generate_test_id type1 now_id1 params_id1 in
  generate_test_id type2 now_id2 params_id2 = test_id ->
  denied w OpWrite (result_file_of (self w) test_id) = false ->
  denied w OpRead (result_file_of (self w) test_id) = false ->
  let first :=
    (cache_result type1 result1 None now_id1 now_created1 params_id1 w).2 in
  let second :=
    (cache_result type2 result2 None now_id2 now_created2 params_id2 first).2 in
  get_result test_id false second = (Ok (Some (JObj result2)), second)
  /\ length (entries (self second)) = length (entries (self first))
  /\ (forall k, k <> test_id ->
        dict_get (entries (self second)) k = dict_get (entries (self w)) k)
  /\ (NoDup (dict_keys (entries (self w))) ->
      NoDup (dict_keys (entries (self second)))).
Proof.
  intros Hjson test_id Hsame Hwrite Hread first second.
  destruct (cache_result_run_ok type1 result1 None now_id1 now_created1
              params_id1 w Hwrite) as (w1 & Hrun1 & Hself1 & Hden1 & _);
    [done|].
  fold test_id in Hrun1, Hself1. subst first second. rewrite Hrun1. simpl.
  assert (result_file_of (self w1) test_id = result_file_of (self w) test_id)
    as Hpath by (by rewrite Hself1).
  destruct (cache_result_run_ok type2 result2 None now_id2 now_created2
              params_id2 w1) as (w2 & Hrun2 & Hself2 & Hden2 & Hfile2).
  { by rewrite Hsame, Hpath, Hden1. }
  { done. }
  rewrite Hsame in Hrun2, Hself2, Hfile2. rewrite Hrun2. simpl.
  split; [|split; [|split]].
  - eapply get_result_plain; [| | |apply Hjson].
    + rewrite Hself2. simpl. apply dict_get_set_eq.
    + simpl. by rewrite Hden2, Hden1, Hpath.
    + simpl. exact Hfile2.
  - rewrite Hself2. simpl.
    eapply dict_set_length_present. rewrite Hself1. simpl.
    apply dict_get_set_eq.
  - intros k Hne. rewrite Hself2. simpl.
    rewrite dict_get_set_ne by congruence. rewrite Hself1. simpl.
    apply dict_get_set_ne. congruence.
  - intros Hnodup. rewrite Hself2. simpl. apply dict_keys_set_NoDup.
    rewrite Hself1. simpl. by apply dict_keys_set_NoDup.
Qed.

End CacheContracts.

(** ** More on the pipeline *)

Section PipelineContracts.
Context `{Platform}.
Import BaseHypothesisTest.
Implicit Types (self : BaseHypothesisTest.t) (args : list sample)
  (w : Cache.world) (r : TestResult.t).

Ltac st_unfold :=
  unfold St.bind, St.try_except, St.ret, St.raise, St.get, St.lift,
    St.modify in *.

(** The steps of [run] before the cache write, one after the other. *)
Ltac run_steps self args :=
  destruct (validate_input self args) as [[|]|?]; simpl in *; try done;
  destruct (check_assumptions self args) as [?assumptions|?]; simpl in *;
    try done;
  destruct (compute_statistic self args) as [[?statistic ?p_value]|?];
    simpl in *; try done;
  destruct (interpret_result self _ _ _) as [?interpretation|?]; simpl in *;
    try done;
  destruct (generate_recommendation self _ _) as [?recommendation|?];
    simpl in *; try done;
  destruct (calculate_effect_size self args) as [?effect_size|?]; simpl in *;
    try done;
  destruct (calculate_confidence_interval self args) as [?ci|?]; simpl in *;
    try done.

Ltac run_tail self args :=
  destruct (get_null_hypothesis self) as [?h0|?]; simpl in *; try done;
  destruct (get_alternative_hypothesis self) as [?h1|?]; simpl in *; try done;
  destruct (get_sample_sizes self args) as [?sizes|?]; simpl in *; try done.

(** X12. A test instance without a cache manager never touches the cache:
    whatever the run returns or raises, the cache manager and the files are
    as they were, and a result it returns has no cache identifier. *)
Theorem run_without_cache_manager
    self args (now_id now_created params_id : Z) w :
  cache_manager self = false ->
  let out := run self args now_id now_created params_id w in
  out.2 = w /\ (forall r, out.1 = Ok r -> TestResult.cache_id r = None).
Proof.
  intros Hcm out. subst out. unfold run, cache_detailed_results.
  rewrite Hcm. st_unfold.
  run_steps self args; try (split; [done|by intros]).
  run_tail self args; try (split; [done|by intros]).
  split; [done|]. by intros r [= <-].
Qed.

Lemma get_result_no_data test_id e (txt : text) v inc w :
  dict_get (Cache.entries (Cache.self w)) test_id = Some e ->
  Cache.data_file e = None ->
  Cache.denied w Cache.OpRead (Cache.result_file e) = false ->
  Cache.files w !! Cache.result_file e = Some txt ->
  json_loads txt = Some v ->
  Cache.get_result test_id inc w = (Ok (Some v), w).
Proof.
  intros Hd Hnone Hr Hf Hl. unfold Cache.get_result, Cache.path_exists.
  st_unfold. rewrite Hd, Hf. rewrite bool_decide_eq_true_2 by eauto. simpl.
  rewrite (json_load_run _ txt v) by done. by rewrite Hnone.
Qed.

(** X13. What the pipeline caches.  A run with the cache manager injected
    that returns a result, on a disk where the result file can be written
    and read, returns the generated identifier as [cache_id], and
    [get_result] on that identifier returns an object with exactly the two
    keys ["statistic"] and ["p_value"] holding the values of the result,
    with or without [include_raw_data]. *)
Theorem run_caches_statistic_and_p_value
    self args (now_id now_created params_id : Z) w r :
  (forall v, json_loads (json_dumps v) = Some v) ->
  cache_manager self = true ->
  let test_id :=
    Cache.generate_test_id (value (test_type self)) now_id params_id in
  Cache.denied w Cache.OpWrite (Cache.result_file_of (Cache.self w) test_id)
  = false ->
  Cache.denied w Cache.OpRead (Cache.result_file_of (Cache.self w) test_id)
  = false ->
  let out := run self args now_id now_created params_id w in
  out.1 = Ok r ->
  TestResult.cache_id r = Some test_id
  /\ forall include_raw_data,
       Cache.get_result test_id include_raw_data out.2
       = (Ok (Some (JObj [("statistic", JFloat (TestResult.statistic r));
                          ("p_value", JFloat (TestResult.p_value r))])),
          out.2).
Proof.
  intros Hjson Hcm test_id Hwrite Hread out. subst out.
  unfold run, cache_detailed_results. rewrite Hcm. st_unfold.
  run_steps self args.
  destruct (cache_result_run_ok (value (test_type self))
              [("statistic", JFloat statistic); ("p_value", JFloat p_value)]
              None now_id now_created params_id w Hwrite)
    as (w1 & Hrun & Hself & Hden & Hfile); [done|].
  fold test_id in Hrun, Hself, Hfile. rewrite Hrun. simpl.
  run_tail self args. intros [= <-]. simpl. split; [done|].
  intros inc.
  eapply (get_result_no_data test_id
            (Cache.new_entry (Cache.self w) (value (test_type self)) test_id
               None now_created)).
  - rewrite Hself. simpl. apply dict_get_set_eq.
  - done.
  - simpl. by rewrite Hden.
  - simpl. exact Hfile.
  - apply Hjson.
Qed.

Lemma cache_detailed_results_returns self kwargs now_id now_created params_id
    w :
  exists id w1,
    cache_detailed_results self kwargs now_id now_created params_id w
    = (Ok id, w1).
Proof.
  unfold cache_detailed_results. destruct (cache_manager self).
  - st_unfold.
    destruct (cache_result_returns (value (test_type self)) kwargs None now_id
                now_created params_id w) as (id & w1 & ->).
    by eauto.
  - by eexists _, _.
Qed.

(** A run raises before the cache write or not at all, when the last three
    methods return on a validated input. *)
Lemma run_raise_frame self args now_id now_created params_id w x :
  (validate_input self args = Ok true ->
   exists h0 h1 sizes,
     get_null_hypothesis self = Ok h0
     /\ get_alternative_hypothesis self = Ok h1
     /\ get_sample_sizes self args = Ok sizes) ->
  (run self args now_id now_created params_id w).1 = Raise x ->
  (run self args now_id now_created params_id w).2 = w.
Proof.
  intros Htail. unfold run. st_unfold.
  destruct (validate_input self args) as [[|]|?] eqn:Hv; simpl in *; try done.
  destruct (Htail eq_refl) as (h0 & h1 & sizes & Hh0 & Hh1 & Hsz).
  destruct (check_assumptions self args) as [?assumptions|?]; simpl in *;
    try done.
  destruct (compute_statistic self args) as [[?statistic ?p_value]|?];
    simpl in *; try done.
  destruct (interpret_result self _ _ _) as [?interpretation|?]; simpl in *;
    try done.
  destruct (generate_recommendation self _ _) as [?recommendation|?];
    simpl in *; try done.
  destruct (calculate_effect_size self args) as [?effect_size|?]; simpl in *;
    try done.
  destruct (calculate_confidence_interval self args) as [?ci|?]; simpl in *;
    try done.
  destruct (cache_detailed_results_returns self
              [("statistic", JFloat statistic); ("p_value", JFloat p_value)]
              now_id now_created params_id w) as (id & w1 & ->).
  rewrite Hh0, Hh1, Hsz. simpl. done.
Qed.

(** The [warnings] of a result are the unmet assumptions, [None] when
    there is none. *)
Lemma run_warnings self args now_id now_created params_id w r :
  (run self args now_id now_created params_id w).1 = Ok r ->
  exists a,
    validate_input self args = Ok true
    /\ check_assumptions self args = Ok a
    /\ TestResult.assumptions_met r = Some a
    /\ TestResult.warnings r
       = match unmet a with [] => None | _ => Some (unmet a) end.
Proof.
  unfold run. st_unfold.
  destruct (validate_input self args) as [[|]|?]; simpl in *; try done.
  destruct (check_assumptions self args) as [a|?]; simpl in *; try done.
  destruct (compute_statistic self args) as [[?statistic ?p_value]|?];
    simpl in *; try done.
  destruct (interpret_result self _ _ _) as [?interpretation|?]; simpl in *;
    try done.
  destruct (generate_recommendation self _ _) as [?recommendation|?];
    simpl in *; try done.
  destruct (calculate_effect_size self args) as [?effect_size|?]; simpl in *;
    try done.
  destruct (calculate_confidence_interval self args) as [?ci|?]; simpl in *;
    try done.
  destruct (cache_detailed_results self _ _ _ _ w) as [[?|?] ?]; simpl;
    try done.
  run_tail self args. intros [= <-]. by exists a.
Qed.

End PipelineContracts.

(** ** More on the test classes *)

Section RegistryFacts.
Context `{Platform} `{StatsLib}.
Import BaseHypothesisTest Tests.
Implicit Types (args : list sample) (w : Cache.world) (r : TestResult.t).

Ltac st_unfold :=
  unfold St.bind, St.try_except, St.ret, St.raise, St.get, St.lift,
    St.modify in *.

Ltac each_class Hin :=
  unfold TEST_REGISTRY in Hin; simpl in Hin;
  repeat destruct Hin as [Hin|Hin]; try done;
  injection Hin as <- <-.

Lemma by_alternative_returns p a b c : exists s, by_alternative p a b c = Ok s.
Proof. unfold by_alternative. repeat case_match; eauto. Qed.

Lemma registry_tail_returns name cls alpha p args :
  In (name, cls) TEST_REGISTRY ->
  validate_input (cls alpha p) args = Ok true ->
  exists h0 h1 sizes,
    get_null_hypothesis (cls alpha p) = Ok h0
    /\ get_alternative_hypothesis (cls alpha p) = Ok h1
    /\ get_sample_sizes (cls alpha p) args = Ok sizes.
Proof.
  intros Hin. each_class Hin; simpl; unfold on1, on2, group_sizes, arity_error;
    intros Hv;
    try (destruct args as [|a [|b [|c args]]]; try done);
    try match goal with
        | |- context [by_alternative ?p ?a ?b ?c] =>
            destruct (by_alternative_returns p a b c) as [s ->]
        end;
    by eexists _, _, _.
Qed.

(** X14. For every registered test class a run gives a result or leaves
    the cache alone: when the run raises (validation failed, or the library
    raised in one of the steps), the cache manager and the files are as they
    were; no entry is written for a run that returned no result. *)
Theorem registered_run_is_atomic
    (self : BaseHypothesisTest.t) args (now_id now_created params_id : Z) w x :
  registered self ->
  (run self args now_id now_created params_id w).1 = Raise x ->
  (run self args now_id now_created params_id w).2 = w.
Proof.
  intros [name cls alpha p Hin|name cls alpha p Hin]; apply run_raise_frame;
    intros Hv.
  - by apply (registry_tail_returns name).
  - exact (registry_tail_returns name cls alpha p args Hin Hv).
Qed.

Lemma groups_valid_clean n groups :
  0 < n -> groups_valid n groups = true ->
  Forall (fun g => any_isnan g = false /\ 0 < len g) groups.
Proof.
  intros Hn. induction groups as [|g groups IH]; simpl; [by constructor|].
  destruct (len g <? n) eqn:E; simpl; [done|].
  destruct (any_isnan g) eqn:En; [done|]. intros Hg.
  constructor; [|by apply IH]. apply Z.ltb_ge in E. split; [done|lia].
Qed.

Lemma validate_groups_clean n groups :
  0 < n -> validate_groups n groups = Ok true ->
  groups <> [] /\ Forall (fun g => any_isnan g = false /\ 0 < len g) groups.
Proof.
  intros Hn. unfold validate_groups.
  destruct (len groups <? 2) eqn:E; [done|]. intros [= Hv]. split.
  - intros ->. done.
  - by apply (groups_valid_clean n).
Qed.

Ltac clean_sample :=
  first
    [ by apply negb_true_iff
    | repeat match goal with
             | H : (_ <? _) = true |- _ => apply Z.ltb_lt in H
             | H : (_ <=? _) = true |- _ => apply Z.leb_le in H
             | H : (_ =? _) = true |- _ => apply Z.eqb_eq in H
             end; lia ].

Lemma registry_validates_clean name cls alpha p args :
  In (name, cls) TEST_REGISTRY ->
  validate_input (cls alpha p) args = Ok true ->
  args <> [] /\ Forall (fun g => any_isnan g = false /\ 0 < len g) args.
Proof.
  intros Hin. each_class Hin; simpl; unfold on1, on2, arity_error;
    try (apply validate_groups_clean; lia);
    (destruct args as [|a [|b [|c args]]]; try done);
    intros [= Hv]; repeat (apply andb_prop in Hv as [Hv ?]);
    (split; [done|]); repeat constructor; clean_sample.
Qed.

(** X15. For every registered test class, an input that [validate_input]
    accepts has at least one sample, and no sample in it is empty or holds a
    NaN. *)
Theorem validated_input_is_clean (self : BaseHypothesisTest.t) args :
  registered self ->
  validate_input self args = Ok true ->
  args <> [] /\ Forall (fun g => any_isnan g = false /\ 0 < len g) args.
Proof.
  intros [name cls alpha p Hin|name cls alpha p Hin] Hv.
  - by apply (registry_validates_clean name cls alpha p).
  - exact (registry_validates_clean name cls alpha p args Hin Hv).
Qed.

Lemma registry_key name cls alpha p :
  In (name, cls) TEST_REGISTRY ->
  value (test_type (cls alpha p)) = name
  /\ BaseHypothesisTest.alpha (cls alpha p) = alpha
  /\ cache_manager (cls alpha p) = false.
Proof. intros Hin. by each_class Hin. Qed.

(** X16. The key of a class in the registry is the value of its test
    type: the result of a run of the class registered under [name], with or
    without the cache manager, has [name] as [test_type], the title-cased
    [name] as [test_name] and the [alpha] the instance was built with; and no
    key occurs twice in the registry. *)
Theorem registry_key_is_test_type
    (name : string) (cls : float -> TestParams -> BaseHypothesisTest.t)
    (alpha : float) (p : TestParams) (cached : bool) args
    (now_id now_created params_id : Z) w r :
  In (name, cls) TEST_REGISTRY ->
  (run (with_cache cached (cls alpha p)) args now_id now_created params_id w).1
  = Ok r ->
  TestResult.test_type r = name
  /\ TestResult.test_name r = title (replace_char "_" " " name)
  /\ TestResult.alpha r = alpha
  /\ NoDup (dict_keys TEST_REGISTRY).
Proof.
  intros Hin Hrun.
  destruct (registry_key name cls alpha p Hin) as (Hname & Halpha & _).
  assert (NoDup (dict_keys TEST_REGISTRY)) as Hnodup.
  { apply (bool_decide_unpack _). vm_compute. reflexivity. }
  revert Hrun. unfold run. st_unfold.
  destruct cached; simpl;
    (destruct (validate_input (cls alpha p) args) as [[|]|?]; simpl in *;
       try done;
     destruct (check_assumptions (cls alpha p) args) as [?a|?]; simpl in *;
       try done;
     destruct (compute_statistic (cls alpha p) args) as [[? ?]|?];
       simpl in *; try done;
     destruct (interpret_result (cls alpha p) _ _ _) as [?|?]; simpl in *;
       try done;
     destruct (generate_recommendation (cls alpha p) _ _) as [?|?];
       simpl in *; try done;
     destruct (calculate_effect_size (cls alpha p) args) as [?|?]; simpl in *;
       try done;
     destruct (calculate_confidence_interval (cls alpha p) args) as [?|?];
       simpl in *; try done;
     match goal with
     | |- context [cache_detailed_results ?s ?k ?a ?b ?c ?w] =>
         destruct (cache_detailed_results s k a b c w) as [[?|?] ?];
         simpl in *; try done
     end;
     destruct (get_null_hypothesis (cls alpha p)) as [?|?]; simpl in *;
       try done;
     destruct (get_alternative_hypothesis (cls alpha p)) as [?|?];
       simpl in *; try done;
     destruct (get_sample_sizes (cls alpha p) args) as [?|?]; simpl in *;
       try done;
     intros [= <-]; simpl; unfold get_test_name; simpl;
     rewrite ?Hname, ?Halpha; done).
Qed.

Lemma ks_assumptions_met alpha p args a :
  validate_input (KolmogorovSmirnovTest alpha p) args = Ok true ->
  check_assumptions (KolmogorovSmirnovTest alpha p) args = Ok a ->
  unmet a = [].
Proof.
  simpl. unfold on1. destruct args as [|data [|]]; try done.
  intros [= Hv] [= <-]. simpl.
  apply andb_prop in Hv as [Hv _]. by rewrite Hv.
Qed.

Lemma ad_assumptions_met alpha p args a :
  validate_input (AndersonDarlingTest alpha p) args = Ok true ->
  check_assumptions (AndersonDarlingTest alpha p) args = Ok a ->
  unmet a = [].
Proof.
  simpl. unfold on1. destruct args as [|data [|]]; try done.
  intros [= Hv] [= <-]. simpl.
  apply andb_prop in Hv as [Hv _]. by rewrite Hv.
Qed.

(** X17. The Shapiro-Wilk, Kolmogorov-Smirnov, Anderson-Darling and Levene
    classes check in [check_assumptions] nothing that [validate_input] has
    not checked already: every result of a run of these classes has all its
    assumptions met and [warnings] set to [None]. *)
Theorem validated_classes_never_warn
    (cls : float -> TestParams -> BaseHypothesisTest.t)
    (alpha : float) (p : TestParams) (cached : bool) args
    (now_id now_created params_id : Z) w r :
  In cls [ShapiroWilkTest; KolmogorovSmirnovTest; AndersonDarlingTest;
          LeveneTest] ->
  (run (with_cache cached (cls alpha p)) args now_id now_created params_id w).1
  = Ok r ->
  TestResult.warnings r = None
  /\ exists a, TestResult.assumptions_met r = Some a /\ unmet a = [].
Proof.
  intros Hin Hrun.
  destruct (run_warnings _ _ _ _ _ _ _ Hrun) as (a & Hv & Hc & Ha & Hw).
  assert (unmet a = []) as Hu.
  { simpl in Hin. destruct Hin as [<-|[<-|[<-|[<-|[]]]]]; destruct cached.
    - exact (shapiro_assumptions_met alpha p args a Hv Hc).
    - exact (shapiro_assumptions_met alpha p args a Hv Hc).
    - exact (ks_assumptions_met alpha p args a Hv Hc).
    - exact (ks_assumptions_met alpha p args a Hv Hc).
    - exact (ad_assumptions_met alpha p args a Hv Hc).
    - exact (ad_assumptions_met alpha p args a Hv Hc).
    - exact (levene_assumptions_met alpha p args a Hv Hc).
    - exact (levene_assumptions_met alpha p args a Hv Hc). }
  rewrite Hw, Hu. split; [done|]. by exists a.
Qed.

(** X18. The Jarque-Bera class counts a sample of at most 2000 values as
    an unmet assumption: every result of a run on such a sample carries the
    warning ["works_best_large_n"], and that warning alone. *)
Theorem jarque_bera_warns_on_small_sample
    (alpha : float) (p : TestParams) (cached : bool) (data : sample)
    (now_id now_created params_id : Z) w r :
  len data <= 2000 ->
  (run (with_cache cached (JarqueBeraTest alpha p)) [data]
       now_id now_created params_id w).1 = Ok r ->
  TestResult.warnings r = Some ["works_best_large_n"].
Proof.
  intros Hlen Hrun.
  destruct (run_warnings _ _ _ _ _ _ _ Hrun) as (a & Hv & Hc & _ & Hw).
  rewrite Hw. clear Hw Hrun.
  assert (a = [("sufficient_sample_size", true);
               ("works_best_large_n", false)]) as ->; [|done].
  destruct cached; simpl in Hv, Hc; injection Hv as Hv; injection Hc as <-;
    apply andb_prop in Hv as [Hv _]; rewrite Hv;
    by replace (2000 <? len data) with false by (symmetry; apply Z.ltb_ge; lia).
Qed.

Lemma len_zip_with_sub (a b : sample) :
  len a = len b -> len (zip_with PrimFloat.sub a b) = len a.
Proof.
  unfold len. intros Hlen. rewrite length_zip_with. lia.
Qed.

Lemma one_sample_large_met alpha p args a :
  Forall (fun g => 30 < len g) args ->
  check_assumptions (OneSampleTTest alpha p) args = Ok a -> unmet a = [].
Proof.
  simpl. unfold on1, rbind. destruct args as [|data [|]]; try done.
  intros Hall. inversion Hall as [|? ? Hlen _]; subst.
  assert ((30 <? len data) = true) as H30 by (apply Z.ltb_lt; lia).
  assert ((2 <=? len data) = true) as H2 by (apply Z.leb_le; lia).
  rewrite H30, H2.
  destruct (len data <? 5000); [destruct (shapiro data) as [wp|x]|]; simpl;
    try done; intros [= <-]; simpl; by rewrite ?orb_true_r.
Qed.

Lemma paired_large_met alpha p args a :
  Forall (fun g => 30 < len g) args ->
  validate_input (PairedTTest alpha p) args = Ok true ->
  check_assumptions (PairedTTest alpha p) args = Ok a -> unmet a = [].
Proof.
  simpl. unfold on2, rbind, np_sub, shapiro_p_below_5000.
  destruct args as [|before [|after [|]]]; try done.
  intros Hall [= Hv]. inversion Hall as [|? ? Hlen _]; subst.
  repeat (apply andb_prop in Hv as [Hv ?]).
  pose proof Hv as Heq. apply Z.eqb_eq in Heq.
  replace (len after =? len before) with true
    by (symmetry; apply Z.eqb_eq; lia).
  rewrite Hv.
  assert ((30 <? len (zip_with PrimFloat.sub after before)) = true) as H30.
  { rewrite len_zip_with_sub by lia. apply Z.ltb_lt. lia. }
  rewrite H30.
  destruct (len (zip_with PrimFloat.sub after before) <? 5000);
    [destruct (shapiro _) as [wp|x]|]; simpl; try done;
    intros [= <-]; simpl; by rewrite ?orb_true_r.
Qed.

(** X29. The one-sample and the paired t-test on more than 30
    observations never warn: with samples of more than 30 values each, the
    normality assumption counts as met whatever the Shapiro-Wilk test says,
    so that every result of a run has all its assumptions met and
    [warnings] set to [None]. *)
Theorem large_sample_t_tests_never_warn
    (cls : float -> TestParams -> BaseHypothesisTest.t)
    (alpha : float) (p : TestParams) (cached : bool) args
    (now_id now_created params_id : Z) w r :
  In cls [OneSampleTTest; PairedTTest] ->
  Forall (fun g => 30 < len g) args ->
  (run (with_cache cached (cls alpha p)) args now_id now_created params_id w).1
  = Ok r ->
  TestResult.warnings r = None
  /\ exists a, TestResult.assumptions_met r = Some a /\ unmet a = [].
Proof.
  intros Hin Hlarge Hrun.
  destruct (run_warnings _ _ _ _ _ _ _ Hrun) as (a & Hv & Hc & Ha & Hw).
  assert (unmet a = []) as Hu.
  { simpl in Hin. destruct Hin as [<-|[<-|[]]]; destruct cached.
    - exact (one_sample_large_met alpha p args a Hlarge Hc).
    - exact (one_sample_large_met alpha p args a Hlarge Hc).
    - exact (paired_large_met alpha p args a Hlarge Hv Hc).
    - exact (paired_large_met alpha p args a Hlarge Hv Hc). }
  rewrite Hw, Hu. split; [done|]. by exists a.
Qed.

End RegistryFacts.

(** ** More on the suggestion engine *)

Section SuggesterTables.
Context `{Platform} `{StatsLib}.
Import BaseHypothesisTest Tests TestSuggester.

(** *** What [analyze_data] reports *)

Lemma analyze_data_inv data_groups chars :
  analyze_data data_groups = Ok chars ->
  exists first others normal variances outliers,
    data_groups = first :: others
    /\ _check_normality data_groups = Ok normal
    /\ _check_outliers data_groups = Ok outliers
    /\ (if 2 <=? len data_groups then _check_equal_variances data_groups
        else Ok true) = Ok variances
    /\ chars =
       {| n_samples := sum_of (map len data_groups);
          n_groups := len data_groups;
          is_paired := match map len data_groups with
                       | [s0; s1] => (s0 =? s1) && (s0 <? 100)
                       | _ => false
                       end;
          is_normal := normal;
          equal_variances := variances;
          data_type := _infer_data_type first;
          has_outliers := outliers;
          sample_size_adequate :=
            (30 <=? min_of (len first) (map len others))
            || ((20 <=? min_of (len first) (map len others)) && normal) |}.
Proof.
  unfold analyze_data. destruct data_groups as [|first others]; [done|].
  unfold rbind.
  destruct (_check_normality (first :: others)) as [normal|x]; [|done].
  destruct (if 2 <=? len (first :: others)
            then _check_equal_variances (first :: others) else Ok true)
    as [variances|x]; [|done].
  destruct (_check_outliers (first :: others)) as [outliers|x]; [|done].
  intros [= <-]. by exists first, others, normal, variances, outliers.
Qed.

Lemma fold_left_min_le (xs : list Z) (x : Z) :
  fold_left Z.min xs x <= x /\ Forall (fun y => fold_left Z.min xs x <= y) xs.
Proof.
  revert x. induction xs as [|y xs IH]; intros x; simpl.
  - split; [lia|constructor].
  - destruct (IH (Z.min x y)) as [Hle Hall]. split; [lia|].
    constructor; [lia|done].
Qed.

Lemma fold_left_min_ge (xs : list Z) (x b : Z) :
  b <= x -> Forall (fun y => b <= y) xs -> b <= fold_left Z.min xs x.
Proof.
  revert x. induction xs as [|y xs IH]; intros x Hx Hall; simpl; [done|].
  inversion Hall; subst. apply IH; [lia|done].
Qed.

Lemma fold_left_add (xs : list Z) (x : Z) :
  fold_left Z.add xs x = x + fold_left Z.add xs 0.
Proof.
  revert x. induction xs as [|y xs IH]; intros x; cbn [fold_left]; [lia|].
  rewrite (IH (x + y)), (IH (0 + y)). lia.
Qed.

Lemma sum_of_len (groups : list sample) :
  sum_of (map len groups) = len (concat groups).
Proof.
  unfold sum_of.
  induction groups as [|g groups IH]; simpl; [done|].
  rewrite fold_left_add, IH. unfold len. rewrite length_app. lia.
Qed.

(** X19. What [analyze_data] reports.  Without a group it raises
    [ValueError], and so does [suggest_test].  On a result, [n_groups] is
    the number of groups and [n_samples] the number of values of all groups
    together; the data are taken as paired exactly when there are two
    groups of one length below 100; the sample size is adequate only if
    every group has 20 values or more, and is adequate as soon as every
    group has 30; a single group has equal variances. *)
Theorem analyze_data_reports :
  (analyze_data [] = Raise (ValueError "At least one data group required")
   /\ forall mu0,
        suggest_test [] mu0
        = Raise (ValueError "At least one data group required"))
  /\ (forall data_groups chars,
        analyze_data data_groups = Ok chars ->
        n_groups chars = len data_groups
        /\ n_samples chars = len (concat data_groups)
        /\ (is_paired chars = true <->
            exists a b,
              data_groups = [a; b] /\ len a = len b /\ len a < 100)
        /\ (sample_size_adequate chars = true ->
            Forall (fun g => 20 <= len g) data_groups)
        /\ (Forall (fun g => 30 <= len g) data_groups ->
            sample_size_adequate chars = true)
        /\ (len data_groups = 1 -> equal_variances chars = true)).
Proof.
  split.
  - split; [done|]. by intros mu0.
  - intros data_groups chars Ha.
    destruct (analyze_data_inv _ _ Ha)
      as (first & others & normal & variances & outliers & -> & _ & _ & Hvar
          & ->).
    simpl. split; [done|]. split; [apply (sum_of_len (first :: others))|].
    unfold min_of.
    destruct (fold_left_min_le (map len others) (len first)) as [Hle Hall].
    split; [|split; [|split]].
    + split.
      * destruct others as [|b [|c others]]; try done. simpl.
        intros Hp. apply andb_prop in Hp as [He Hl].
        apply Z.eqb_eq in He. apply Z.ltb_lt in Hl. by exists first, b.
      * intros (a & b & [= -> ->] & He & Hl). simpl.
        apply andb_true_intro. split; [by apply Z.eqb_eq|by apply Z.ltb_lt].
    + intros Had.
      assert (20 <= fold_left Z.min (map len others) (len first)) as Hmin.
      { apply orb_prop in Had as [Had|Had].
        - apply Z.leb_le in Had. lia.
        - apply andb_prop in Had as [Had _]. by apply Z.leb_le in Had. }
      constructor; [lia|].
      rewrite Forall_map in Hall. eapply Forall_impl; [exact Hall|].
      simpl. intros g Hg. lia.
    + intros Hbig. inversion Hbig as [|g gs Hfirst Hothers]; subst.
      apply orb_true_intro. left. apply Z.leb_le.
      apply fold_left_min_ge; [done|]. by rewrite Forall_map.
    + intros Hone. destruct others; [|unfold len in Hone; simpl in Hone; lia].
      simpl in Hvar. by injection Hvar as <-.
Qed.

(** *** The two-sample and the multi-sample branch *)

Lemma analyze_data_n_groups data_groups chars :
  analyze_data data_groups = Ok chars -> n_groups chars = len data_groups.
Proof.
  intros Ha.
  destruct (analyze_data_inv _ _ Ha) as (? & ? & ? & ? & ? & _ & _ & _ & _ & ->).
  done.
Qed.

(** X20. On two groups the suggestion engine takes the two-sample branch,
    whatever [mu0] is.  Paired data get the paired t-test when the
    parametric condition holds (continuous, and normal or of adequate size)
    and the Wilcoxon signed-rank test otherwise; unpaired data get the
    two-sample t-test when it holds and the Mann-Whitney U test otherwise.
    The two-sample t-test comes with [equal_var] set to the outcome of the
    variance check, and with a warning exactly when the variances are
    unequal. *)
Theorem suggest_two_sample_branch
    (a b : sample) (mu0 : option float) (chars : DataCharacteristics) :
  analyze_data [a; b] = Ok chars ->
  exists s,
    suggest_test [a; b] mu0 = Ok s
    /\ s = _suggest_two_sample_test chars
    /\ primary_test s
       = (if is_paired chars
          then if parametric_ok chars then "paired_t_test"
               else "wilcoxon_signed_rank"
          else if parametric_ok chars then "two_sample_t_test"
               else "mann_whitney_u")
    /\ (primary_test s = "two_sample_t_test" ->
        parameters s = [("equal_var", JBool (equal_variances chars))]
        /\ assumptions_met s = equal_variances chars
        /\ (warning s = None <-> equal_variances chars = true)).
Proof.
  intros Ha. exists (_suggest_two_sample_test chars). split.
  { unfold suggest_test. rewrite Ha. simpl.
    by rewrite (analyze_data_n_groups _ _ Ha). }
  split; [done|].
  unfold _suggest_two_sample_test, parametric_ok.
  destruct (is_paired chars), (String.eqb (data_type chars) "continuous"),
    (is_normal chars), (sample_size_adequate chars), (equal_variances chars);
    simpl; (split; [done|]); intros; try done; by repeat split.
Qed.

(** X21. On three groups or more the suggestion engine takes the
    multi-sample branch, whatever [mu0] is: one-way ANOVA when the
    parametric condition holds and the variances are equal, the
    Kruskal-Wallis test in every other case; a post-hoc test is always
    named, and there is a warning exactly when the parametric condition
    holds but the variances are unequal. *)
Theorem suggest_multi_sample_branch
    (a b c : sample) (more : list sample) (mu0 : option float)
    (chars : DataCharacteristics) :
  analyze_data (a :: b :: c :: more) = Ok chars ->
  exists s,
    suggest_test (a :: b :: c :: more) mu0 = Ok s
    /\ s = _suggest_multi_sample_test chars
    /\ primary_test s
       = (if parametric_ok chars && equal_variances chars
          then "one_way_anova" else "kruskal_wallis")
    /\ post_hoc s <> None
    /\ (warning s <> None <->
        parametric_ok chars = true /\ equal_variances chars = false).
Proof.
  intros Ha. exists (_suggest_multi_sample_test chars). split.
  { unfold suggest_test. rewrite Ha. simpl.
    rewrite (analyze_data_n_groups _ _ Ha).
    assert (3 <= len (a :: b :: c :: more)) as Hlen
      by (unfold len; simpl; lia).
    replace (len (a :: b :: c :: more) =? 1) with false
      by (symmetry; apply Z.eqb_neq; lia).
    by replace (len (a :: b :: c :: more) =? 2) with false
      by (symmetry; apply Z.eqb_neq; lia). }
  split; [done|].
  unfold _suggest_multi_sample_test, parametric_ok.
  destruct (String.eqb (data_type chars) "continuous"),
    (is_normal chars), (sample_size_adequate chars), (equal_variances chars);
    simpl; (split; [done|]); (split; [done|]); split; try done;
    by intros [? ?].
Qed.

(** *** Suggestions and the registry *)

Lemma suggest_test_inv data_groups mu0 s :
  suggest_test data_groups mu0 = Ok s ->
  exists chars,
    analyze_data data_groups = Ok chars
    /\ s = (if len data_groups =? 1 then _suggest_one_sample_test chars mu0
            else if len data_groups =? 2 then _suggest_two_sample_test chars
                 else _suggest_multi_sample_test chars).
Proof.
  unfold suggest_test.
  destruct (analyze_data data_groups) as [chars|x] eqn:Ha; simpl; [|done].
  rewrite (analyze_data_n_groups _ _ Ha). intros Hs. exists chars.
  split; [done|]. by repeat case_match; injection Hs as <-.
Qed.

(** X22. For two groups or more the suggested test can be looked up and
    called: its name is a key of the registry, and [validate_input] of the
    registered class takes that number of samples (it returns a verdict, it
    does not raise). *)
Theorem suggestion_is_registered
    (data_groups : list sample) (mu0 : option float) (s : Suggestion) :
  2 <= len data_groups ->
  suggest_test data_groups mu0 = Ok s ->
  exists cls,
    dict_get TEST_REGISTRY (primary_test s) = Some cls
    /\ forall alpha p,
         exists verdict, validate_input (cls alpha p) data_groups = Ok verdict.
Proof.
  intros Hlen Hs. destruct (suggest_test_inv _ _ _ Hs) as (chars & _ & ->).
  replace (len data_groups =? 1) with false by (symmetry; apply Z.eqb_neq; lia).
  destruct (len data_groups =? 2) eqn:E.
  - apply Z.eqb_eq in E.
    destruct data_groups as [|a [|b [|c more]]];
      try (unfold len in E; simpl in E; lia).
    unfold _suggest_two_sample_test.
    repeat case_match; simpl; eexists; (split; [reflexivity|]);
      intros alpha p; simpl; by eexists.
  - unfold _suggest_multi_sample_test.
    repeat case_match; simpl; eexists; (split; [reflexivity|]);
      intros alpha p; simpl; unfold validate_groups; case_match; by eexists.
Qed.

(** X23. For a single group only the one-sample t-test suggestion can be
    carried out: the sign test is not in the registry, and the Wilcoxon
    signed-rank class takes two samples, so that its run on the group
    raises [TypeError] and leaves the cache alone. *)
Theorem one_sample_suggestion_not_runnable
    (data : sample) (mu0 : option float) (s : Suggestion) :
  suggest_test [data] mu0 = Ok s ->
  primary_test s <> "one_sample_t_test" ->
  (primary_test s = "sign_test"
   /\ dict_get TEST_REGISTRY "sign_test" = None)
  \/ (primary_test s = "wilcoxon_signed_rank"
      /\ forall alpha p cached now_id now_created params_id (w : Cache.world),
           run (with_cache cached (WilcoxonSignedRankTest alpha p)) [data]
               now_id now_created params_id w
           = (Raise (TypeError "wrong number of positional arguments"), w)).
Proof.
  intros Hs Hne. destruct (suggest_test_inv _ _ _ Hs) as (chars & _ & ->).
  change (len [data] =? 1) with true in *. cbv iota in *.
  revert Hne. unfold _suggest_one_sample_test.
  repeat case_match; simpl; intros Hne; try done.
  - right. split; [done|]. intros. by destruct cached.
  - left. by split.
Qed.

(** X24. The data type is read off the first group alone, and a first
    group with at most ten distinct values is ordinal: whatever the other
    groups and the outcome of the normality check are, the suggested test is
    then one of the non-parametric tests. *)
Theorem few_distinct_values_suggest_rank_test
    (first : sample) (others : list sample) (mu0 : option float)
    (s : Suggestion) :
  np_unique_count first <= 10 ->
  suggest_test (first :: others) mu0 = Ok s ->
  In (primary_test s)
     ["sign_test"; "wilcoxon_signed_rank"; "mann_whitney_u"; "kruskal_wallis"]
  /\ (others = [] -> primary_test s = "sign_test").
Proof.
  intros Hu Hs. destruct (suggest_test_inv _ _ _ Hs) as (chars & Ha & ->).
  destruct (analyze_data_inv _ _ Ha)
    as (first' & others' & normal & variances & outliers & [= <- <-] & _ & _
        & _ & ->).
  assert (_infer_data_type first = "ordinal") as Hty.
  { unfold _infer_data_type.
    by replace (np_unique_count first <=? 10) with true
      by (symmetry; apply Z.leb_le; lia). }
  split.
  - destruct (len (first :: others) =? 1);
      [|destruct (len (first :: others) =? 2)].
    + unfold _suggest_one_sample_test. cbn [data_type]. rewrite Hty.
      simpl. auto 6.
    + unfold _suggest_two_sample_test. cbn [data_type]. rewrite Hty.
      destruct (is_paired _); simpl; auto 6.
    + unfold _suggest_multi_sample_test. cbn [data_type]. rewrite Hty.
      simpl. auto 6.
  - intros ->. change (len [first] =? 1) with true. cbv iota.
    unfold _suggest_one_sample_test. cbn [data_type]. by rewrite Hty.
Qed.

(** *** Normality and variance tests *)

(** X25. [suggest_normality_test] names no test below 7 values,
    Shapiro-Wilk from 7 to 5000 and Jarque-Bera above.  From 7 values on,
    every test it names, as the primary test or as an alternative, is in
    the registry, and the registered class accepts the data in
    [validate_input] when they hold no NaN. *)
Theorem suggest_normality_test_fits (data : sample) :
  dict_get (suggest_normality_test data) "primary_test"
  = Some (if len data <? 7 then JNull
          else if len data <=? 5000 then JStr "shapiro_wilk"
               else JStr "jarque_bera")
  /\ (7 <= len data -> any_isnan data = false ->
      forall name,
        names_test (suggest_normality_test data) name ->
        exists cls,
          dict_get TEST_REGISTRY name = Some cls
          /\ forall alpha p, validate_input (cls alpha p) [data] = Ok true).
Proof.
  unfold suggest_normality_test. split.
  { repeat case_match; try done; lia. }
  intros Hlen Hnan name.
  replace (len data <? 7) with false by (symmetry; apply Z.ltb_ge; lia).
  assert ((3 <=? len data) = true) as H3 by (apply Z.leb_le; lia).
  assert ((5 <=? len data) = true) as H5 by (apply Z.leb_le; lia).
  assert ((7 <=? len data) = true) as H7 by (apply Z.leb_le; lia).
  unfold names_test.
  destruct (len data <=? 50) eqn:E50; [|destruct (len data <=? 5000) eqn:E5000];
    simpl.
  - assert ((len data <=? 5000) = true) as H5000.
    { apply Z.leb_le. apply Z.leb_le in E50. lia. }
    intros [[= <-]|(alts & [= <-] & Hin)].
    + eexists. split; [reflexivity|]. intros. simpl.
      by rewrite H3, H5000, Hnan.
    + simpl in Hin. destruct Hin as [[= <-]|[[= <-]|[]]];
        (eexists; split; [reflexivity|]); intros; simpl;
        by rewrite ?H5, ?H7, Hnan.
  - intros [[= <-]|(alts & [= <-] & Hin)].
    + eexists. split; [reflexivity|]. intros. simpl.
      by rewrite H3, E5000, Hnan.
    + simpl in Hin. destruct Hin as [[= <-]|[[= <-]|[]]];
        (eexists; split; [reflexivity|]); intros; simpl;
        by rewrite ?H5, ?H7, Hnan.
  - intros [[= <-]|(alts & [= <-] & Hin)].
    + eexists. split; [reflexivity|]. intros. simpl. by rewrite H7, Hnan.
    + simpl in Hin. destruct Hin as [[= <-]|[]].
      eexists. split; [reflexivity|]. intros. simpl. by rewrite H7, Hnan.
Qed.

(** X26. [suggest_variance_test] on fewer than two groups names no test
    and does not look at the data (it returns also where the analysis would
    raise).  On two groups or more that the analysis finds normal it names
    the F-test for exactly two groups and Bartlett's test for more, and
    Levene's test when they are not normal; the test it names is in the
    registry and takes that number of samples. *)
Theorem suggest_variance_test_table (data_groups : list sample) :
  (len data_groups < 2 ->
   suggest_variance_test data_groups
   = Ok [("primary_test", JNull);
         ("reason", JStr "Need at least 2 groups to test variance equality")])
  /\ (2 <= len data_groups ->
      forall chars,
        analyze_data data_groups = Ok chars ->
        exists suggestion cls,
          suggest_variance_test data_groups = Ok suggestion
          /\ dict_get suggestion "primary_test"
             = Some (JStr (if is_normal chars
                           then if len data_groups =? 2 then "f_test_variance"
                                else "bartlett"
                           else "levene"))
          /\ dict_get TEST_REGISTRY
               (if is_normal chars
                then if len data_groups =? 2 then "f_test_variance"
                     else "bartlett"
                else "levene") = Some cls
          /\ forall alpha p,
               exists verdict,
                 validate_input (cls alpha p) data_groups = Ok verdict).
Proof.
  unfold suggest_variance_test. split.
  - intros Hlen.
    by replace (len data_groups <? 2) with true
      by (symmetry; apply Z.ltb_lt; lia).
  - intros Hlen chars Ha.
    replace (len data_groups <? 2) with false
      by (symmetry; apply Z.ltb_ge; lia).
    rewrite Ha. simpl.
    destruct (is_normal chars); [destruct (len data_groups =? 2) eqn:E|].
    + apply Z.eqb_eq in E.
      destruct data_groups as [|a [|b [|c more]]];
        try (unfold len in E; simpl in E; lia).
      eexists _, _. split; [reflexivity|]. split; [reflexivity|].
      split; [reflexivity|]. intros alpha p. simpl. by eexists.
    + eexists _, _. split; [reflexivity|]. split; [reflexivity|].
      split; [reflexivity|]. intros alpha p. simpl. unfold validate_groups.
      case_match; by eexists.
    + eexists _, _. split; [reflexivity|]. split; [reflexivity|].
      split; [reflexivity|]. intros alpha p. simpl. unfold validate_groups.
      case_match; by eexists.
Qed.

End SuggesterTables.

(** ** The dictionary of a result *)

Section ResultDictionary.
Context `{Platform}.
Import TestResult.

Lemma map_pair_inj {A B} (f : A -> B) (l1 l2 : list (string * A)) :
  (forall x y, f x = f y -> x = y) ->
  map (fun kv => (kv.1, f kv.2)) l1 = map (fun kv => (kv.1, f kv.2)) l2 ->
  l1 = l2.
Proof.
  intros Hf. revert l2.
  induction l1 as [|[k v] l1 IH]; intros [|[k' v'] l2]; simpl; try done.
  intros [= -> Hv Hl]. by rewrite (Hf _ _ Hv), (IH _ Hl).
Qed.

Lemma map_JStr_inj (l1 l2 : list string) : map JStr l1 = map JStr l2 -> l1 = l2.
Proof.
  revert l2. induction l1 as [|x l1 IH]; intros [|y l2]; simpl; try done.
  intros [= -> Hl]. by rewrite (IH _ Hl).
Qed.

Lemma opt_float_inj x y : opt_float x = opt_float y -> x = y.
Proof. destruct x, y; simpl; congruence. Qed.

Lemma opt_str_inj x y : opt_str x = opt_str y -> x = y.
Proof. destruct x, y; simpl; congruence. Qed.

Lemma opt_sizes_inj x y : opt_sizes x = opt_sizes y -> x = y.
Proof.
  destruct x, y; simpl; try done. intros [= Hm]. f_equal.
  apply (map_pair_inj JInt); [congruence|done].
Qed.

Lemma opt_flags_inj x y : opt_flags x = opt_flags y -> x = y.
Proof.
  destruct x, y; simpl; try done. intros [= Hm]. f_equal.
  apply (map_pair_inj JBool); [congruence|done].
Qed.

(** X27. [to_dict] loses nothing but the difference between no warnings
    and an empty list of warnings.  The [warnings] of a result of [run] are
    never the empty list; and two results whose [warnings] are not the empty
    list and that have the same dictionary are the same result. *)
Theorem to_dict_determines_result :
  (forall self args now_id now_created params_id (w : Cache.world) r,
     (BaseHypothesisTest.run self args now_id now_created params_id w).1
     = Ok r ->
     warnings r <> Some [])
  /\ (forall r1 r2,
        warnings r1 <> Some [] ->
        warnings r2 <> Some [] ->
        to_dict r1 = to_dict r2 ->
        r1 = r2).
Proof.
  split.
  { intros self args now_id now_created params_id w r Hrun.
    destruct (run_warnings _ _ _ _ _ _ _ Hrun) as (a & _ & _ & _ & ->).
    by destruct (unmet a). }
  intros r1 r2 Hw1 Hw2. destruct r1, r2. unfold to_dict. simpl in *.
  intros [= -> -> -> -> -> Hes Hci Hpw -> -> -> -> -> -> Hss Ham Hwa Hid].
  apply opt_float_inj in Hes as ->. apply opt_float_inj in Hpw as ->.
  apply opt_sizes_inj in Hss as ->. apply opt_flags_inj in Ham as ->.
  apply opt_str_inj in Hid as ->.
  apply map_JStr_inj in Hwa.
  assert (confidence_interval0 = confidence_interval1) as ->.
  { destruct confidence_interval0 as [[? ?]|], confidence_interval1 as [[? ?]|];
      congruence. }
  assert (warnings0 = warnings1) as ->; [|done].
  destruct warnings0 as [l1|], warnings1 as [l2|]; subst; try done.
Qed.

End ResultDictionary.

(* ===================================================================== *)
(** * Part III: the properties on the reference platform                  *)
(* ===================================================================== *)

#[local] Existing Instance Demo.platform.
#[local] Existing Instance Demo.stats.

(** ** The model at work *)

Example get_test_name_example :
  BaseHypothesisTest.get_test_name Demo.one_sample_t_test = "One Sample T Test".
Proof. reflexivity. Qed.

Example generate_test_id_example :
  Cache.generate_test_id "one_sample_t_test" 5000 77 = "fe5f31d0c5f4f453".
Proof. reflexivity. Qed.

Example unmet_example :
  unmet [("normality", false); ("independence", true); ("equal_variances", false)]
  = ["normality"; "equal_variances"].
Proof. reflexivity. Qed.

Example base_recommendation_example :
  BaseHypothesisTest.base_generate_recommendation "reject"
    [("normality", false); ("independence", true)]
  = "Evidence suggests a significant effect. Consider practical significance and collect more data to confirm. WARNING: Assumptions not met: normality. Consider non-parametric alternatives.".
Proof. reflexivity. Qed.

(** A sweep one millisecond after the oldest entry was written keeps that
    entry and deletes the two entries without a usable timestamp. *)
Example cleanup_example :
  dict_keys (Cache.entries (Cache.self (Cache._cleanup_expired 2000 Demo.world).2))
  = ["00000000000000aa"].
Proof. vm_compute. reflexivity. Qed.

(** A day and a bit later the sweep deletes it too. *)
Example cleanup_late_example :
  dict_keys
    (Cache.entries (Cache.self (Cache._cleanup_expired 90000000000 Demo.world).2))
  = [].
Proof. vm_compute. reflexivity. Qed.

(** An offset-aware timestamp in the index makes the sweep raise. *)
Example cleanup_aware_example :
  Cache.entry_expired 2000 86400000000
    {| Cache.test_type := "levene"; Cache.created := Some "Z1000";
       Cache.has_raw_data := false; Cache.result_file := "r.json";
       Cache.data_file := None |}
  = Raise (TypeError "can't subtract offset-naive and offset-aware datetimes").
Proof. reflexivity. Qed.

(** The listing raises on an entry without [created]; on well-formed
    entries it is ordered by [created], most recent first. *)
Example list_cached_tests_example :
  (Cache.list_cached_tests Demo.world).1 = Raise (KeyError "created").
Proof. vm_compute. reflexivity. Qed.

Example sorted_desc_example :
  map Cache.ct_test_id
    (Cache.sorted_desc
       [Cache.Build_CachedTest "a" "levene" "2024-01-01T10:00:00" false;
        Cache.Build_CachedTest "b" "levene" "2024-03-01T10:00:00" false;
        Cache.Build_CachedTest "c" "levene" "2024-01-01T10:00:00" true;
        Cache.Build_CachedTest "d" "levene" "2024-02-01T10:00:00" false])
  = ["b"; "d"; "a"; "c"].
Proof. reflexivity. Qed.

(** The pipeline on a disk that refuses every write. *)
Example run_read_only_example :
  match (BaseHypothesisTest.run
           (BaseHypothesisTest.inject_cache_manager Demo.one_sample_t_test)
           [Demo.sales] 5000 5001 77 Demo.read_only_world).1 with
  | Ok r => TestResult.cache_id r
  | Raise _ => None
  end = Some "cache_error_fe5f31d0c5f4f453".
Proof. vm_compute. reflexivity. Qed.

Lemma hex_fill_length n s : String.length (Demo.hex_fill n s) = n.
Proof.
  revert s. induction n as [|n IH]; intros s; [done|].
  destruct s; simpl; by rewrite IH.
Qed.

Lemma demo_hexdigest_length s : String.length (sha256_hexdigest s) = 64%nat.
Proof. apply hex_fill_length. Qed.

Lemma demo_index_naive : Cache.naive_index (Cache.entries Demo.cache_manager).
Proof.
  unfold Cache.naive_index, Cache.naive_created.
  repeat constructor; simpl; intros s us off [= <-]; vm_compute; discriminate.
Qed.

Lemma demo_mann_whitney_registered : Tests.registered Demo.mann_whitney_u.
Proof.
  apply (Tests.registered_plain "mann_whitney_u"). simpl. tauto.
Qed.

(** C1 on the sales figures: the run returns a result, and the result
    satisfies the invariant. *)
Lemma run_significance_invariant_witness :
  match (BaseHypothesisTest.run Demo.one_sample_t_test [Demo.sales] 5000 5001 77
           Demo.world).1 with
  | Ok r =>
      TestResult.significant r
      = PrimFloat.ltb (TestResult.p_value r) (TestResult.alpha r)
      /\ (TestResult.decision r = "reject" <-> TestResult.significant r = true)
      /\ (TestResult.decision r = "fail_to_reject"
          <-> TestResult.significant r = false)
  | Raise _ => False
  end.
Proof.
  destruct (BaseHypothesisTest.run Demo.one_sample_t_test [Demo.sales] 5000
              5001 77 Demo.world) as [[r|x] w'] eqn:Hrun; simpl.
  - apply (run_significance_invariant Demo.one_sample_t_test [Demo.sales]
             5000 5001 77 Demo.world r w'); [vm_compute; reflexivity|exact Hrun].
  - apply (f_equal fst) in Hrun. vm_compute in Hrun. discriminate.
Defined.

(** C2 on three measurements before and two after. *)
Lemma paired_rejects_unequal_length_witness :
  BaseHypothesisTest.run
    (BaseHypothesisTest.with_cache true (Tests.PairedTTest 0.05 default_params))
    [[5.0; 5.1; 4.9]%float; [5.5; 5.6]%float] 5000 5001 77 Demo.world
  = (Raise (ValueError "Input validation failed for paired_t_test"), Demo.world).
Proof.
  destruct (paired_rejects_unequal_length 0.05 default_params true
              [5.0; 5.1; 4.9]%float [5.5; 5.6]%float 5000 5001 77 Demo.world)
    as [[_ Hrun] _]; [simpl; lia|exact Hrun].
Defined.

(** C3 on the payload of a one-sample run, written into the reference
    directory. *)
Lemma cache_round_trip_witness :
  let payload := [("statistic", JFloat 2.096); ("p_value", JFloat 0.042)] in
  let written :=
    Cache.cache_result "one_sample_t_test" payload None 5000 5001 77 Demo.world in
  let test_id := Cache.generate_test_id "one_sample_t_test" 5000 77 in
  written.1 = Ok test_id
  /\ Cache.get_result test_id false written.2
     = (Ok (Some (JObj payload)), written.2).
Proof.
  intros payload written test_id.
  destruct (cache_round_trip "one_sample_t_test" payload None 5000 5001 77
              Demo.world (fun v => eq_refl) eq_refl (fun _ => eq_refl) eq_refl)
    as (Hid & Hget & _).
  split; [exact Hid|exact Hget].
Defined.


(** X30 on the entry of the reference directory that has no [created]
    key. *)
Lemma invalid_created_is_swept_witness :
  dict_get
    (Cache.entries (Cache.self (Cache._cleanup_expired 2000 Demo.world).2))
    "00000000000000bb" = None.
Proof.
  destruct (invalid_created_is_swept 2000 Demo.world "00000000000000bb"
              {| Cache.test_type := "levene";
                 Cache.created := None;
                 Cache.has_raw_data := false;
                 Cache.result_file :=
                   "/tmp/mcp-hypothesis-cache/test_results/00000000000000bb.json";
                 Cache.data_file := None |}
              eq_refl (or_introl eq_refl))
    as (_ & _ & Hswept).
  apply Hswept. vm_compute. reflexivity.
Defined.

(** C7 on a disk that refuses every write. *)
Lemma cache_write_failure_is_soft_witness :
  exists w1,
    Cache.cache_result "one_sample_t_test"
      [("statistic", JFloat 2.096); ("p_value", JFloat 0.042)] None
      5000 5001 77 Demo.read_only_world
    = (Ok ("cache_error_"
           +:+ Cache.generate_test_id "one_sample_t_test" 5000 77), w1)
    /\ Cache.self w1 = Cache.self Demo.read_only_world.
Proof.
  destruct (cache_write_failure_is_soft demo_hexdigest_length) as [Hcache _].
  destruct (Hcache "one_sample_t_test"
              [("statistic", JFloat 2.096); ("p_value", JFloat 0.042)] None
              5000 5001 77 Demo.read_only_world (or_introl eq_refl))
    as [Hsentinel _].
  exact Hsentinel.
Defined.

(** C8 on twelve distinct weights. *)
Lemma suggest_one_sample_branch_witness :
  match TestSuggester.suggest_test [Demo.weights] None with
  | Ok s => TestSuggester.primary_test s = "one_sample_t_test"
  | Raise _ => False
  end.
Proof.
  destruct (TestSuggester.analyze_data [Demo.weights]) as [chars|x] eqn:Ha.
  - destruct (suggest_one_sample_branch Demo.weights None chars Ha)
      as (s & -> & _ & Ht & _).
    vm_compute in Ha. injection Ha as <-. apply Ht; [reflexivity|by left].
  - vm_compute in Ha. discriminate.
Defined.

(** C10 on 5001 observations. *)
Lemma shapiro_rejects_large_sample_witness :
  BaseHypothesisTest.validate_input
    (Tests.ShapiroWilkTest 0.05 default_params) [List.repeat 1%float 5001]
  = Ok false.
Proof.
  destruct (shapiro_rejects_large_sample 0.05 default_params false
              (List.repeat 1%float 5001) 5000 5001 77 Demo.world)
    as [Hv _]; [vm_compute; reflexivity..|exact Hv].
Defined.

(** ** The further properties on the reference platform *)

(** X2 on the well-formed entry of the reference directory: its result
    file is gone after the deletion. *)
Lemma delete_result_files_witness :
  Cache.files (Cache.delete_result "00000000000000aa" Demo.world).2
    !! "/tmp/mcp-hypothesis-cache/test_results/00000000000000aa.json"
  = None.
Proof.
  destruct (delete_result_files "00000000000000aa"
              {| Cache.test_type := "paired_t_test";
                 Cache.created := Some "1000";
                 Cache.has_raw_data := false;
                 Cache.result_file :=
                   "/tmp/mcp-hypothesis-cache/test_results/00000000000000aa.json";
                 Cache.data_file := None |}
              Demo.world eq_refl)
    as [Hgone _].
  - vm_compute. discriminate.
  - exact (Hgone eq_refl).
Defined.

Lemma demo_tidy_created :
  Forall (fun kv => Cache.created kv.2 <> None)
    (Cache.entries (Cache.self Demo.tidy_world)).
Proof. repeat constructor; simpl; discriminate. Qed.

(** X4 on the directory with two well-formed entries: the later entry is
    listed first. *)
Lemma list_cached_tests_sorted_witness :
  exists listed,
    Cache.list_cached_tests Demo.tidy_world = (Ok listed, Demo.tidy_world)
    /\ map Cache.ct_test_id listed
       ≡ₚ dict_keys (Cache.entries (Cache.self Demo.tidy_world))
    /\ Forall (fun t => Cache.lists_entry t
                          (Cache.entries (Cache.self Demo.tidy_world))) listed
    /\ Cache.descending listed = true.
Proof. exact (list_cached_tests_sorted Demo.tidy_world demo_tidy_created). Defined.

(** X5 on the entry of the reference directory that has no [created]
    key. *)
Lemma list_cached_tests_missing_created_witness :
  Cache.list_cached_tests Demo.world = (Raise (KeyError "created"), Demo.world).
Proof.
  destruct (list_cached_tests_missing_created Demo.world "00000000000000bb"
              {| Cache.test_type := "levene";
                 Cache.created := None;
                 Cache.has_raw_data := false;
                 Cache.result_file :=
                   "/tmp/mcp-hypothesis-cache/test_results/00000000000000bb.json";
                 Cache.data_file := None |})
    as [Hraise _].
  - simpl. right. left. reflexivity.
  - reflexivity.
  - exact Hraise.
Defined.

(** X6 on a payload with the name of its data set as raw data. *)
Lemma cache_round_trip_raw_data_witness :
  let payload := [("statistic", JFloat 2.096); ("p_value", JFloat 0.042)] in
  let written :=
    Cache.cache_result "one_sample_t_test" payload
      (Some [("dataset_name", JStr "sales_example")]) 5000 5001 77 Demo.world in
  Cache.get_result (Cache.generate_test_id "one_sample_t_test" 5000 77) true
    written.2
  = (Ok (Some (JObj [("statistic", JFloat 2.096); ("p_value", JFloat 0.042);
                     ("raw_data", JObj [("dataset_name", JStr "sales_example")])])),
     written.2).
Proof.
  intros payload written.
  destruct (cache_round_trip_raw_data "one_sample_t_test" payload
              ("dataset_name", JStr "sales_example") [] 5000 5001 77
              Demo.world (fun v => eq_refl) eq_refl eq_refl eq_refl eq_refl)
    as (_ & Hget & _).
  exact Hget.
Defined.

(** X7 on the entry of the reference directory whose result file does not
    exist. *)
Lemma get_result_unusable_file_witness :
  Cache.get_result "00000000000000bb" true Demo.world = (Ok None, Demo.world).
Proof.
  destruct (get_result_unusable_file "00000000000000bb"
              {| Cache.test_type := "levene";
                 Cache.created := None;
                 Cache.has_raw_data := false;
                 Cache.result_file :=
                   "/tmp/mcp-hypothesis-cache/test_results/00000000000000bb.json";
                 Cache.data_file := None |}
              true Demo.world eq_refl)
    as [Hsoft _].
  destruct Hsoft as [Hget _].
  - left. vm_compute. reflexivity.
  - exact Hget.
Defined.

Lemma demo_index_nodup :
  NoDup (dict_keys (Cache.entries (Cache.self Demo.world))).
Proof. apply (bool_decide_unpack _). vm_compute. reflexivity. Qed.

(** X8 on the reference directory: one millisecond after the oldest entry
    was written the sweep keeps that entry alone. *)
Lemma cleanup_keeps_exactly_the_fresh_witness :
  dict_keys (Cache.entries (Cache.self (Cache._cleanup_expired 2000 Demo.world).2))
  = ["00000000000000aa"].
Proof.
  destruct (cleanup_keeps_exactly_the_fresh 2000 Demo.world demo_index_nodup)
    as (Hkept & _).
  - vm_compute. reflexivity.
  - rewrite Hkept. reflexivity.
Defined.

(** X9 on the directory with an offset-aware timestamp. *)
Lemma cleanup_offset_aware_raises_witness :
  Cache._cleanup_expired 2000 Demo.aware_world
  = (Raise (TypeError "can't subtract offset-naive and offset-aware datetimes"),
     Demo.aware_world).
Proof.
  apply (cleanup_offset_aware_raises 2000 Demo.aware_world "00000000000000ee"
           {| Cache.test_type := "bartlett";
              Cache.created := Some "Z2000";
              Cache.has_raw_data := false;
              Cache.result_file :=
                "/tmp/mcp-hypothesis-cache/test_results/00000000000000ee.json";
              Cache.data_file := None |}
           "Z2000" 2000 0).
  - simpl. right. right. right. left. reflexivity.
  - reflexivity.
  - reflexivity.
Defined.



(** X12 on the sales figures. *)
Lemma run_without_cache_manager_witness :
  (BaseHypothesisTest.run Demo.one_sample_t_test [Demo.sales] 5000 5001 77
     Demo.world).2 = Demo.world.
Proof.
  destruct (run_without_cache_manager Demo.one_sample_t_test [Demo.sales]
              5000 5001 77 Demo.world eq_refl) as [Hframe _].
  exact Hframe.
Defined.

(** X13 on the sales figures. *)
Lemma run_caches_statistic_and_p_value_witness :
  let out :=
    BaseHypothesisTest.run
      (BaseHypothesisTest.inject_cache_manager Demo.one_sample_t_test)
      [Demo.sales] 5000 5001 77 Demo.world in
  match out.1 with
  | Ok r =>
      TestResult.cache_id r = Some "fe5f31d0c5f4f453"
      /\ Cache.get_result "fe5f31d0c5f4f453" true out.2
         = (Ok (Some (JObj [("statistic", JFloat (TestResult.statistic r));
                            ("p_value", JFloat (TestResult.p_value r))])),
            out.2)
  | Raise _ => False
  end.
Proof.
  intros out.
  destruct out.1 as [r|x] eqn:Hrun.
  - destruct (run_caches_statistic_and_p_value
                (BaseHypothesisTest.inject_cache_manager Demo.one_sample_t_test)
                [Demo.sales] 5000 5001 77 Demo.world r
                (fun v => eq_refl) eq_refl eq_refl eq_refl Hrun)
      as [Hid Hget].
    split; [exact Hid|exact (Hget true)].
  - vm_compute in Hrun. discriminate.
Defined.

Lemma demo_paired_registered :
  Tests.registered
    (BaseHypothesisTest.inject_cache_manager Demo.paired_t_test).
Proof.
  apply (Tests.registered_cached "paired_t_test"). simpl. tauto.
Qed.

(** X14 on three measurements before and two after, with the cache
    manager injected. *)
Lemma registered_run_is_atomic_witness :
  (BaseHypothesisTest.run
     (BaseHypothesisTest.inject_cache_manager Demo.paired_t_test)
     [[5.0; 5.1; 4.9]%float; [5.5; 5.6]%float] 5000 5001 77 Demo.world).2
  = Demo.world.
Proof.
  apply (registered_run_is_atomic
           (BaseHypothesisTest.inject_cache_manager Demo.paired_t_test)
           [[5.0; 5.1; 4.9]%float; [5.5; 5.6]%float] 5000 5001 77 Demo.world
           (ValueError "Input validation failed for paired_t_test")
           demo_paired_registered).
  vm_compute. reflexivity.
Defined.

(** X15 on two groups of two values. *)
Lemma validated_input_is_clean_witness :
  Forall (fun g => any_isnan g = false /\ 0 < len g)
    [[1; 2]%float; [3; 4]%float].
Proof.
  destruct (validated_input_is_clean Demo.mann_whitney_u
              [[1; 2]%float; [3; 4]%float] demo_mann_whitney_registered)
    as [_ Hclean].
  - vm_compute. reflexivity.
  - exact Hclean.
Defined.

(** X16 on the Levene class and two groups of two values. *)
Lemma registry_key_is_test_type_witness :
  match (BaseHypothesisTest.run
           (BaseHypothesisTest.with_cache true
              (Tests.LeveneTest 0.01 default_params))
           [[1; 2]%float; [3; 4]%float] 5000 5001 77 Demo.world).1 with
  | Ok r =>
      TestResult.test_type r = "levene"
      /\ TestResult.test_name r = "Levene"
      /\ TestResult.alpha r = 0.01%float
  | Raise _ => False
  end.
Proof.
  destruct (BaseHypothesisTest.run
              (BaseHypothesisTest.with_cache true
                 (Tests.LeveneTest 0.01 default_params))
              [[1; 2]%float; [3; 4]%float] 5000 5001 77 Demo.world).1
    as [r|x] eqn:Hrun.
  - destruct (registry_key_is_test_type "levene" Tests.LeveneTest 0.01
                default_params true [[1; 2]%float; [3; 4]%float] 5000 5001 77
                Demo.world r) as (Hty & Hname & Halpha & _).
    + simpl. tauto.
    + exact Hrun.
    + split; [exact Hty|]. split; [exact Hname|exact Halpha].
  - vm_compute in Hrun. discriminate.
Defined.

(** X17 on the Shapiro-Wilk class and the twelve weights. *)
Lemma validated_classes_never_warn_witness :
  match (BaseHypothesisTest.run
           (BaseHypothesisTest.with_cache false
              (Tests.ShapiroWilkTest 0.05 default_params))
           [Demo.weights] 5000 5001 77 Demo.world).1 with
  | Ok r => TestResult.warnings r = None
  | Raise _ => False
  end.
Proof.
  destruct (BaseHypothesisTest.run
              (BaseHypothesisTest.with_cache false
                 (Tests.ShapiroWilkTest 0.05 default_params))
              [Demo.weights] 5000 5001 77 Demo.world).1
    as [r|x] eqn:Hrun.
  - destruct (validated_classes_never_warn Tests.ShapiroWilkTest 0.05
                default_params false [Demo.weights] 5000 5001 77 Demo.world r)
      as [Hwarn _].
    + simpl. tauto.
    + exact Hrun.
    + exact Hwarn.
  - vm_compute in Hrun. discriminate.
Defined.

(** X18 on the twelve weights. *)
Lemma jarque_bera_warns_on_small_sample_witness :
  match (BaseHypothesisTest.run
           (BaseHypothesisTest.with_cache false
              (Tests.JarqueBeraTest 0.05 default_params))
           [Demo.weights] 5000 5001 77 Demo.world).1 with
  | Ok r => TestResult.warnings r = Some ["works_best_large_n"]
  | Raise _ => False
  end.
Proof.
  destruct (BaseHypothesisTest.run
              (BaseHypothesisTest.with_cache false
                 (Tests.JarqueBeraTest 0.05 default_params))
              [Demo.weights] 5000 5001 77 Demo.world).1
    as [r|x] eqn:Hrun.
  - apply (jarque_bera_warns_on_small_sample 0.05 default_params false
             Demo.weights 5000 5001 77 Demo.world r); [|exact Hrun].
    vm_compute. discriminate.
  - vm_compute in Hrun. discriminate.
Defined.

(** X20 on the weights, taken twice. *)
Lemma suggest_two_sample_branch_witness :
  match TestSuggester.suggest_test
          [Demo.weights; Demo.weights] None with
  | Ok s => TestSuggester.primary_test s = "paired_t_test"
  | Raise _ => False
  end.
Proof.
  destruct (TestSuggester.analyze_data
              [Demo.weights; Demo.weights])
    as [chars|x] eqn:Ha.
  - destruct (suggest_two_sample_branch Demo.weights Demo.weights None
                chars Ha)
      as (s & -> & _ & Ht & _).
    rewrite Ht. vm_compute in Ha. injection Ha as <-. reflexivity.
  - vm_compute in Ha. discriminate.
Defined.

(** X21 on three copies of the weights. *)
Lemma suggest_multi_sample_branch_witness :
  match TestSuggester.suggest_test
          [Demo.weights; Demo.weights; Demo.weights] None with
  | Ok s => TestSuggester.primary_test s = "one_way_anova"
  | Raise _ => False
  end.
Proof.
  destruct (TestSuggester.analyze_data
              [Demo.weights; Demo.weights; Demo.weights])
    as [chars|x] eqn:Ha.
  - destruct (suggest_multi_sample_branch Demo.weights Demo.weights
                Demo.weights [] None chars Ha)
      as (s & -> & _ & Ht & _).
    rewrite Ht. vm_compute in Ha. injection Ha as <-. reflexivity.
  - vm_compute in Ha. discriminate.
Defined.

(** X22 on two groups. *)
Lemma suggestion_is_registered_witness :
  match TestSuggester.suggest_test [Demo.weights; Demo.sales] None with
  | Ok s =>
      exists cls,
        dict_get Tests.TEST_REGISTRY (TestSuggester.primary_test s) = Some cls
        /\ forall alpha p,
             exists verdict,
               BaseHypothesisTest.validate_input (cls alpha p)
                 [Demo.weights; Demo.sales] = Ok verdict
  | Raise _ => False
  end.
Proof.
  destruct (TestSuggester.suggest_test [Demo.weights; Demo.sales] None)
    as [s|x] eqn:Hs.
  - apply (suggestion_is_registered [Demo.weights; Demo.sales] None s);
      [|exact Hs].
    vm_compute. discriminate.
  - vm_compute in Hs. discriminate.
Defined.

(** X23 on the sales figures, which take three values. *)
Lemma one_sample_suggestion_not_runnable_witness :
  match TestSuggester.suggest_test [Demo.sales] None with
  | Ok s =>
      TestSuggester.primary_test s = "sign_test"
      /\ dict_get Tests.TEST_REGISTRY "sign_test" = None
  | Raise _ => False
  end.
Proof.
  destruct (TestSuggester.suggest_test [Demo.sales] None) as [s|x] eqn:Hs.
  - destruct (one_sample_suggestion_not_runnable Demo.sales None s Hs)
      as [Hsign|[Hw _]].
    + vm_compute in Hs. injection Hs as <-. discriminate.
    + exact Hsign.
    + vm_compute in Hs. injection Hs as <-. discriminate.
  - vm_compute in Hs. discriminate.
Defined.

(** X24 on the sales figures and the weights. *)
Lemma few_distinct_values_suggest_rank_test_witness :
  match TestSuggester.suggest_test [Demo.sales; Demo.weights] None with
  | Ok s =>
      In (TestSuggester.primary_test s)
        ["sign_test"; "wilcoxon_signed_rank"; "mann_whitney_u"; "kruskal_wallis"]
  | Raise _ => False
  end.
Proof.
  destruct (TestSuggester.suggest_test [Demo.sales; Demo.weights] None)
    as [s|x] eqn:Hs.
  - destruct (few_distinct_values_suggest_rank_test Demo.sales [Demo.weights]
                None s) as [Hin _].
    + vm_compute. discriminate.
    + exact Hs.
    + exact Hin.
  - vm_compute in Hs. discriminate.
Defined.

(** X28 on two payloads written at the same clock reading. *)
Lemma cache_result_last_write_wins_witness :
  let first :=
    (Cache.cache_result "levene" [("p_value", JFloat 0.5)] None 5000 5001 77
       Demo.world).2 in
  let second :=
    (Cache.cache_result "levene" [("p_value", JFloat 0.25)] None 5000 6001 77
       first).2 in
  Cache.get_result (Cache.generate_test_id "levene" 5000 77) false second
  = (Ok (Some (JObj [("p_value", JFloat 0.25)])), second).
Proof.
  intros first second.
  destruct (cache_result_last_write_wins "levene" "levene"
              [("p_value", JFloat 0.5)] [("p_value", JFloat 0.25)]
              5000 5001 77 5000 6001 77 Demo.world
              (fun v => eq_refl) eq_refl eq_refl eq_refl)
    as [Hget _].
  exact Hget.
Defined.

(** X29 on the forty-five sales figures. *)
Lemma large_sample_t_tests_never_warn_witness :
  match (BaseHypothesisTest.run
           (BaseHypothesisTest.with_cache false
              (Tests.OneSampleTTest 0.05 default_params))
           [Demo.sales] 5000 5001 77 Demo.world).1 with
  | Ok r => TestResult.warnings r = None
  | Raise _ => False
  end.
Proof.
  destruct (BaseHypothesisTest.run
              (BaseHypothesisTest.with_cache false
                 (Tests.OneSampleTTest 0.05 default_params))
              [Demo.sales] 5000 5001 77 Demo.world).1
    as [r|x] eqn:Hrun.
  - destruct (large_sample_t_tests_never_warn Tests.OneSampleTTest 0.05
                default_params false [Demo.sales] 5000 5001 77 Demo.world r)
      as [Hwarn _].
    + simpl. tauto.
    + repeat constructor.
    + exact Hrun.
    + exact Hwarn.
  - vm_compute in Hrun. discriminate.
Defined.

(** C6 on the directory with an offset-aware timestamp: the sweep raises,
    and the entry without a [created] key is still in the index. *)
Lemma cleanup_aware_index_keeps_invalid_entry_witness :
  let swept := Cache._cleanup_expired 2000 Demo.aware_world in
  swept.1
  = Raise (TypeError "can't subtract offset-naive and offset-aware datetimes")
  /\ dict_in "00000000000000bb" (Cache.entries (Cache.self swept.2)) = true.
Proof.
  intros swept.
  destruct (cleanup_aware_index_keeps_invalid_entry 2000 Demo.aware_world
              "00000000000000bb"
              {| Cache.test_type := "levene";
                 Cache.created := None;
                 Cache.has_raw_data := false;
                 Cache.result_file :=
                   "/tmp/mcp-hypothesis-cache/test_results/00000000000000bb.json";
                 Cache.data_file := None |}
              "00000000000000ee"
              {| Cache.test_type := "bartlett";
                 Cache.created := Some "Z2000";
                 Cache.has_raw_data := false;
                 Cache.result_file :=
                   "/tmp/mcp-hypothesis-cache/test_results/00000000000000ee.json";
                 Cache.data_file := None |}
              "Z2000" 2000 0 eq_refl (or_introl eq_refl))
    as (_ & Hraise & _ & Hkept).
  - simpl. right. right. right. left. reflexivity.
  - reflexivity.
  - reflexivity.
  - split; [exact Hraise|]. unfold dict_in. fold swept in Hkept.
    by rewrite Hkept.
Defined.
